(** * Student Project Portal: the route layer of [server.js]

    A shallow embedding of the Express handlers of
    [Student-Project-Portal/server.js] and of the few helpers they call,
    with the properties of the portal's specification stated on it.

    JavaScript strings are sequences of UTF-16 code units, so a string is
    a [list N]; the filesystem is a finite map from paths to nodes; the
    record store is a list of records; a handler is a function of the
    request and the world that returns a response and the new world. *)

From Stdlib Require Import ZArith NArith Decimal Ascii String.
From stdpp Require Import base option list gmap sets strings.

Set Default Proof Using "Type".
Set Warnings "-register-all".
Open Scope N_scope.

(** ** JavaScript strings *)

Module Js.

(** A string value: its UTF-16 code units, as [String.prototype.length],
    [substring] and the regular expressions of the source see them. *)
Definition jsstring := list N.

(** The code units of an ASCII literal of the source. *)
Definition lit (s : string) : jsstring :=
  (fun a => N_of_ascii a) <$> list_ascii_of_string s.

(** [s.substring(0, n)] and [s.slice(0, n)] for a literal [n >= 0]. *)
Definition substring0 (n : nat) (s : jsstring) : jsstring := take n s.

(** [s.replace(/[...]/g, r)] for a class of single code units. *)
Definition replace_class (cls : N -> bool) (r : N) (s : jsstring) : jsstring :=
  (fun c => if cls c then r else c) <$> s.

(** [s.replace(/[...]+/g, r)]: every maximal run of the class becomes one
    [r].  [in_run] says that the code unit before was of the class, so
    that the run it belongs to has been replaced already. *)
Fixpoint replace_runs_from (cls : N -> bool) (r : N) (in_run : bool)
    (s : jsstring) : jsstring :=
  match s with
  | [] => []
  | c :: s' =>
      if cls c
      then (if in_run then replace_runs_from cls r true s'
            else r :: replace_runs_from cls r true s')
      else c :: replace_runs_from cls r false s'
  end.

Definition replace_runs (cls : N -> bool) (r : N) (s : jsstring) : jsstring :=
  replace_runs_from cls r false s.

(** [s.replace(c, r)] with a string pattern of one code unit: only the
    first occurrence is replaced. *)
Fixpoint replace_first (c r : N) (s : jsstring) : jsstring :=
  match s with
  | [] => []
  | x :: s' => if N.eqb x c then r :: s' else x :: replace_first c r s'
  end.

(** The code units of the decimal digits of a number. *)
Fixpoint uint_units (u : Decimal.uint) : jsstring :=
  match u with
  | Decimal.Nil => []
  | Decimal.D0 u' => 48 :: uint_units u'
  | Decimal.D1 u' => 49 :: uint_units u'
  | Decimal.D2 u' => 50 :: uint_units u'
  | Decimal.D3 u' => 51 :: uint_units u'
  | Decimal.D4 u' => 52 :: uint_units u'
  | Decimal.D5 u' => 53 :: uint_units u'
  | Decimal.D6 u' => 54 :: uint_units u'
  | Decimal.D7 u' => 55 :: uint_units u'
  | Decimal.D8 u' => 56 :: uint_units u'
  | Decimal.D9 u' => 57 :: uint_units u'
  end.

(** [String(n)] for a natural number. *)
Definition decimal (n : N) : jsstring := uint_units (N.to_uint n).

(** [s.padStart(w, '0')]. *)
Definition pad0 (w : nat) (s : jsstring) : jsstring :=
  replicate (w - length s) 48 ++ s.

(** [arr.join(sep)] on an array of strings. *)
Fixpoint join (sep : jsstring) (parts : list jsstring) : jsstring :=
  match parts with
  | [] => []
  | [p] => p
  | p :: ps => p ++ sep ++ join sep ps
  end.

(** The class [\s] of ECMAScript regular expressions: white space and
    line terminators. *)
Definition is_space (c : N) : bool :=
  ((9 <=? c) && (c <=? 13)) || (c =? 32) || (c =? 160) || (c =? 0x1680)
  || ((0x2000 <=? c) && (c <=? 0x200a)) || (c =? 0x2028) || (c =? 0x2029)
  || (c =? 0x202f) || (c =? 0x205f) || (c =? 0x3000) || (c =? 0xfeff).

(** *** UTF-8 *)

Definition is_high_surrogate (c : N) : bool := (0xD800 <=? c) && (c <=? 0xDBFF).
Definition is_low_surrogate (c : N) : bool := (0xDC00 <=? c) && (c <=? 0xDFFF).

(** The bytes of U+FFFD, which stand for a surrogate without its pair. *)
Definition utf8_replacement : list N := [0xEF; 0xBF; 0xBD].

Definition utf8_2 (c : N) : list N :=
  [N.lor 0xC0 (N.shiftr c 6); N.lor 0x80 (N.land c 0x3F)].

Definition utf8_3 (c : N) : list N :=
  [N.lor 0xE0 (N.shiftr c 12); N.lor 0x80 (N.land (N.shiftr c 6) 0x3F);
   N.lor 0x80 (N.land c 0x3F)].

Definition utf8_4 (hi lo : N) : list N :=
  let cp := 0x10000 + N.shiftl (hi - 0xD800) 10 + (lo - 0xDC00) in
  [N.lor 0xF0 (N.shiftr cp 18); N.lor 0x80 (N.land (N.shiftr cp 12) 0x3F);
   N.lor 0x80 (N.land (N.shiftr cp 6) 0x3F); N.lor 0x80 (N.land cp 0x3F)].

(** [Buffer.from(s, 'utf8')]: what [fs.writeFile(p, s, 'utf8')] puts on
    disk. *)
Fixpoint utf8 (s : jsstring) : list N :=
  match s with
  | [] => []
  | c :: s' =>
      if c <? 0x80 then c :: utf8 s'
      else if c <? 0x800 then utf8_2 c ++ utf8 s'
      else if is_high_surrogate c then
        match s' with
        | d :: s'' =>
            if is_low_surrogate d then utf8_4 c d ++ utf8 s''
            else utf8_replacement ++ utf8 s'
        | [] => utf8_replacement
        end
      else if is_low_surrogate c then utf8_replacement ++ utf8 s'
      else utf8_3 c ++ utf8 s'
  end.

(** *** Values

    The values a JSON body can hold, and [undefined].  Numbers are the
    integers (the byte sizes the client sends back); the source applies no
    arithmetic to them. *)
Inductive value :=
| VUndefined
| VNull
| VBool (b : bool)
| VNum (n : Z)
| VStr (s : jsstring)
| VArr (xs : list value)
| VObj (props : list (jsstring * value)).

(** ToBoolean: what [!v], [v || d] and [c ? a : b] test. *)
Definition truthy (v : value) : bool :=
  match v with
  | VUndefined | VNull => false
  | VBool b => b
  | VNum n => negb (n =? 0)%Z
  | VStr s => match s with [] => false | _ => true end
  | VArr _ | VObj _ => true
  end.

(** [a || b]. *)
Definition or_else (a b : value) : value := if truthy a then a else b.

Definition units_eqb (a b : jsstring) : bool := bool_decide (a = b).

(** [a === b] where [b] comes out of a freshly parsed request body: two
    objects or two arrays are then never the same reference. *)
Definition strict_eq (a b : value) : bool :=
  match a, b with
  | VUndefined, VUndefined => true
  | VNull, VNull => true
  | VBool x, VBool y => bool_decide (x = y)
  | VNum x, VNum y => (x =? y)%Z
  | VStr x, VStr y => units_eqb x y
  | _, _ => false
  end.

(** [String(n)] for an integer that is printed digit by digit, as the
    integers below [10^21] in absolute value are. *)
Definition number_to_string (n : Z) : jsstring :=
  if (n <? 0)%Z then 45 :: decimal (Z.abs_N n) else decimal (Z.abs_N n).

(** ToString, as a template literal applies it. *)
Fixpoint to_string (v : value) : jsstring :=
  match v with
  | VUndefined => lit "undefined"
  | VNull => lit "null"
  | VBool true => lit "true"
  | VBool false => lit "false"
  | VNum n => number_to_string n
  | VStr s => s
  | VArr xs =>
      join (lit ",")
        ((fix elements (xs : list value) : list jsstring :=
            match xs with
            | [] => []
            | VUndefined :: xs' => [] :: elements xs'
            | VNull :: xs' => [] :: elements xs'
            | x :: xs' => to_string x :: elements xs'
            end) xs)
  | VObj _ => lit "[object Object]"
  end.

(** Own property lookup in an object literal. *)
Fixpoint own (props : list (jsstring * value)) (k : jsstring) : value :=
  match props with
  | [] => VUndefined
  | (k', v) :: rest => if units_eqb k' k then v else own rest k
  end.

End Js.

Import Js.

(** ** [JSON.stringify(v, null, 2)] *)

Module Json.

Definition hex_digit (d : N) : N := if d <? 10 then 48 + d else 87 + d.

(** The escape [\uXXXX] of a code unit. *)
Definition escape_u (c : N) : jsstring :=
  [92; 117; hex_digit (N.land (N.shiftr c 12) 15);
   hex_digit (N.land (N.shiftr c 8) 15); hex_digit (N.land (N.shiftr c 4) 15);
   hex_digit (N.land c 15)].

Definition escape_unit (c : N) : jsstring :=
  if c =? 34 then [92; 34] else if c =? 92 then [92; 92]
  else if c =? 8 then [92; 98] else if c =? 12 then [92; 102]
  else if c =? 10 then [92; 110] else if c =? 13 then [92; 114]
  else if c =? 9 then [92; 116]
  else if c <? 32 then escape_u c
  else [c].

(** The body of a quoted string: a surrogate without its pair is escaped,
    a pair is kept. *)
Fixpoint escape (s : jsstring) : jsstring :=
  match s with
  | [] => []
  | c :: s' =>
      if is_high_surrogate c then
        match s' with
        | d :: s'' =>
            if is_low_surrogate d then c :: d :: escape s''
            else escape_u c ++ escape s'
        | [] => escape_u c
        end
      else if is_low_surrogate c then escape_u c ++ escape s'
      else escape_unit c ++ escape s'
  end.

Definition quote (s : jsstring) : jsstring := 34 :: escape s ++ [34].

Definition indent (depth : nat) : jsstring := replicate (2 * depth) 32.

(** An array or an object with its members, one per line. *)
Definition block (opening closing : N) (depth : nat) (items : list jsstring)
  : jsstring :=
  match items with
  | [] => [opening; closing]
  | _ =>
      opening :: 10 :: indent (S depth)
        ++ join (44 :: 10 :: indent (S depth)) items
        ++ 10 :: indent depth ++ [closing]
  end.

(** [None] is [undefined]: the value has no JSON text, a property that
    holds it is left out and an array element that holds it is [null]. *)
Fixpoint stringify (depth : nat) (v : value) : option jsstring :=
  match v with
  | VUndefined => None
  | VNull => Some (lit "null")
  | VBool true => Some (lit "true")
  | VBool false => Some (lit "false")
  | VNum n => Some (number_to_string n)
  | VStr s => Some (quote s)
  | VArr xs =>
      Some (block 91 93 depth
        ((fix elements (xs : list value) : list jsstring :=
            match xs with
            | [] => []
            | x :: xs' =>
                default (lit "null") (stringify (S depth) x) :: elements xs'
            end) xs))
  | VObj props =>
      Some (block 123 125 depth
        ((fix members (ps : list (jsstring * value)) : list jsstring :=
            match ps with
            | [] => []
            | (k, x) :: ps' =>
                match stringify (S depth) x with
                | Some text => (quote k ++ 58 :: 32 :: text) :: members ps'
                | None => members ps'
                end
            end) props))
  end.

(** The text [fs.writeJson(p, v, { spaces: 2 })] writes: the document and
    a final line feed. *)
Definition document (v : value) : jsstring :=
  default [] (stringify 0 v) ++ [10].

End Json.

(** ** Dates *)

(** A [Date], by its UTC fields. *)
Record Date := {
  year : N; month : N; day : N;
  hours : N; minutes : N; seconds : N; milliseconds : N
}.

(** [d.toISOString()]: [YYYY-MM-DDTHH:mm:ss.sssZ], the year with a sign and
    six digits beyond 9999. *)
Definition toISOString (d : Date) : jsstring :=
  (if year d <=? 9999 then pad0 4 (decimal (year d))
   else 43 :: pad0 6 (decimal (year d)))
  ++ 45 :: pad0 2 (decimal (month d))
  ++ 45 :: pad0 2 (decimal (day d))
  ++ 84 :: pad0 2 (decimal (hours d))
  ++ 58 :: pad0 2 (decimal (minutes d))
  ++ 58 :: pad0 2 (decimal (seconds d))
  ++ 46 :: pad0 3 (decimal (milliseconds d))
  ++ [90].

(** ** The [path] module and the place of the server

    [path.join] and [path.extname] differ between POSIX and Windows (the
    default save location of the source is a Windows path), so the
    handlers are written over any platform. *)
Class Platform := {
  path_join : list jsstring -> jsstring;
  path_extname : jsstring -> jsstring;
  path_sep : N;
  __dirname : jsstring
}.

(** *** The POSIX instance *)

Module Posix.

Definition slash : N := 47.
Definition dot : N := 46.

Fixpoint split (s : jsstring) : list jsstring :=
  match s with
  | [] => [[]]
  | c :: s' =>
      if c =? slash then [] :: split s'
      else match split s' with
           | seg :: segs => (c :: seg) :: segs
           | [] => [[c]]
           end
  end.

(** One step of [normalizeString]: [stack] holds the segments kept so far,
    the last one first. *)
Definition push_segment (allowAboveRoot : bool) (stack : list jsstring)
    (seg : jsstring) : list jsstring :=
  if units_eqb seg [] || units_eqb seg [dot] then stack
  else if units_eqb seg [dot; dot] then
    match stack with
    | top :: rest =>
        if units_eqb top [dot; dot]
        then (if allowAboveRoot then seg :: stack else stack)
        else rest
    | [] => if allowAboveRoot then [seg] else []
    end
  else seg :: stack.

Definition normalizeString (p : jsstring) (allowAboveRoot : bool) : jsstring :=
  join [slash] (reverse (foldl (push_segment allowAboveRoot) [] (split p))).

Definition normalize (p : jsstring) : jsstring :=
  match p with
  | [] => [dot]
  | c :: _ =>
      let isAbsolute := c =? slash in
      let trailingSeparator :=
        match last p with Some d => d =? slash | None => false end in
      match normalizeString p (negb isAbsolute) with
      | [] =>
          if isAbsolute then [slash]
          else if trailingSeparator then [dot; slash] else [dot]
      | q =>
          let q' := if trailingSeparator then q ++ [slash] else q in
          if isAbsolute then slash :: q' else q'
      end
  end.

Definition join_paths (args : list jsstring) : jsstring :=
  match filter (fun a => a <> []) args with
  | [] => [dot]
  | parts => normalize (join [slash] parts)
  end.

Fixpoint take_until (c : N) (s : jsstring) : jsstring :=
  match s with
  | [] => []
  | x :: s' => if x =? c then [] else x :: take_until c s'
  end.

Fixpoint drop_while (c : N) (s : jsstring) : jsstring :=
  match s with
  | [] => []
  | x :: s' => if x =? c then drop_while c s' else s
  end.

(** [path.extname]: from the last dot of the last segment, unless that
    segment has no dot, starts with its only dot, or is [..]. *)
Definition extname (p : jsstring) : jsstring :=
  let base_rev := take_until slash (drop_while slash (reverse p)) in
  let ext_rev := take_until dot base_rev in
  if bool_decide (dot ∈ base_rev) then
    match drop (S (length ext_rev)) base_rev with
    | [] => []
    | _ :: _ =>
        if units_eqb base_rev [dot; dot] then []
        else dot :: reverse ext_rev
    end
  else [].

End Posix.

Definition posix (dir : jsstring) : Platform := {|
  path_join := Posix.join_paths;
  path_extname := Posix.extname;
  path_sep := Posix.slash;
  __dirname := dir
|}.

(** ** Exceptions *)

Inductive exn :=
| TypeError (what : string)
| FsError (code : string) (path : jsstring)
| MulterError (code : string).

Inductive outcome (A : Type) :=
| Ok (a : A)
| Throw (e : exn).
Arguments Ok {A} a.
Arguments Throw {A} e.

(** The next step of a computation that may throw. *)
Definition obind {A B} (o : outcome A) (k : A -> outcome B) : outcome B :=
  match o with
  | Ok a => k a
  | Throw e => Throw e
  end.

Notation "'let?' x := c 'in' k" := (obind c (fun x => k))
  (at level 10, x name, c at level 100, k at level 200, only parsing).

(** ** The filesystem ([fs-extra])

    A finite map from paths to nodes.  A path is below a directory when it
    extends the directory's path by a separator, and the directories above
    a path are its prefixes that end before a separator; the empty prefix,
    the root or the working directory, is always there.  Paths in
    [readonly] stand for what the operating system refuses to create,
    change or take away (permissions, locks, names that it does not
    take): an operation that has to write one of them throws, and it is
    taken to throw before it has changed anything.  [dir_size] is the size
    that [stat] reports for a directory, which is the file system's own
    business. *)

Module Fs.

Inductive node :=
| File (bytes : list N)
| Dir.

Record filesystem := {
  nodes : gmap jsstring node;
  readonly : gset jsstring;
  dir_size : jsstring -> N
}.

Section Operations.
Context `{Platform}.

Definition with_nodes (fs : filesystem) (m : gmap jsstring node) : filesystem :=
  {| nodes := m; readonly := readonly fs; dir_size := dir_size fs |}.

(** [fs.existsSync(p)]. *)
Definition existsSync (fs : filesystem) (p : jsstring) : bool :=
  bool_decide (is_Some (nodes fs !! p)).

(** [(await fs.stat(p)).size]. *)
Definition stat_size (fs : filesystem) (p : jsstring) : outcome N :=
  match nodes fs !! p with
  | Some (File bytes) => Ok (N.of_nat (length bytes))
  | Some Dir => Ok (dir_size fs p)
  | None => Throw (FsError "ENOENT" p)
  end.

(** [p] is [root] or lies below it. *)
Definition under (root p : jsstring) : bool :=
  bool_decide (p = root) || bool_decide (root ++ [path_sep] `prefix_of` p).

(** The directories above a path, the outermost first: [seen] is what
    has been read of the path, [rest] what is left of it. *)
Fixpoint above (seen rest : jsstring) : list jsstring :=
  match rest with
  | [] => []
  | c :: rest' =>
      let inner := above (seen ++ [c]) rest' in
      if (c =? path_sep)
         && match last seen with
            | Some d => negb (d =? path_sep)
            | None => false
            end
      then seen :: inner
      else inner
  end.

Definition ancestors (p : jsstring) : list jsstring := above [] p.

(** [path.dirname(p)], when it is not the root or the working
    directory. *)
Definition parent (p : jsstring) : option jsstring := last (ancestors p).

Definition remove_tree (root : jsstring) (m : gmap jsstring node)
  : gmap jsstring node :=
  filter (fun kv => under root kv.1 = false) m.

Definition rebase (src dst p : jsstring) : jsstring :=
  dst ++ drop (length src) p.

(** The tree at [src] taken to [dst]. *)
Definition relocate (src dst : jsstring) (m : gmap jsstring node)
  : gmap jsstring node :=
  list_to_map
    (prod_map (rebase src dst) id
       <$> map_to_list (filter (fun kv => under src kv.1 = true) m))
  ∪ remove_tree src m.

(** What stands in the way of a new entry at [p]: the directory that is
    to hold it is not there, or is a file. *)
Definition parent_error (fs : filesystem) (p : jsstring) : option exn :=
  match parent p with
  | None => None
  | Some d =>
      match nodes fs !! d with
      | Some Dir => None
      | Some (File _) => Some (FsError "ENOTDIR" p)
      | None => Some (FsError "ENOENT" p)
      end
  end.

(** A file written whole, as a write stream or [fs.writeFile] does: into
    a directory that is there. *)
Definition writeBytes (p : jsstring) (bytes : list N) (fs : filesystem)
  : outcome filesystem :=
  match parent_error fs p with
  | Some e => Throw e
  | None =>
      if bool_decide (p ∈ readonly fs) then Throw (FsError "EACCES" p)
      else match nodes fs !! p with
           | Some Dir => Throw (FsError "EISDIR" p)
           | _ => Ok (with_nodes fs (<[p := File bytes]> (nodes fs)))
           end
  end.

(** [fs.writeFile(p, s, 'utf8')]. *)
Definition writeFile (p : jsstring) (data : jsstring) (fs : filesystem)
  : outcome filesystem :=
  writeBytes p (utf8 data) fs.

(** One directory made unless it is there; a file in its place is the
    error [code]. *)
Definition mkdir (code : string) (p : jsstring) (fs : filesystem)
  : outcome filesystem :=
  match nodes fs !! p with
  | Some Dir => Ok fs
  | Some (File _) => Throw (FsError code p)
  | None =>
      if bool_decide (p ∈ readonly fs) then Throw (FsError "EACCES" p)
      else Ok (with_nodes fs (<[p := Dir]> (nodes fs)))
  end.

(** The directories of a list made in turn. *)
Fixpoint mkdirs (ps : list jsstring) (fs : filesystem) : outcome filesystem :=
  match ps with
  | [] => Ok fs
  | p :: ps' =>
      match mkdir "ENOTDIR" p fs with
      | Ok fs1 => mkdirs ps' fs1
      | Throw e => Throw e
      end
  end.

(** [fs.ensureDir(p)] and [fs.ensureDirSync(p)]: the directory and
    every directory above it that is missing. *)
Definition ensureDir (p : jsstring) (fs : filesystem) : outcome filesystem :=
  match mkdirs (ancestors p) fs with
  | Ok fs1 => mkdir "EEXIST" p fs1
  | Throw e => Throw e
  end.

(** [fs.remove(p)]: the node and what is below it; nothing to remove is
    no error. *)
Definition remove (p : jsstring) (fs : filesystem) : outcome filesystem :=
  if bool_decide (p ∈ readonly fs) then Throw (FsError "EACCES" p)
  else Ok (with_nodes fs (remove_tree p (nodes fs))).

(** The checks of [fs.move] on what is at [src] and at [dst], before it
    changes anything: the two are not the same place, a directory does not
    take the place of a file nor a file that of a directory, and a
    directory does not go below itself. *)
Definition move_error (src dst : jsstring) (n : node) (fs : filesystem)
  : option exn :=
  if bool_decide (src = dst)
  then Some (FsError "Source and destination must not be the same." dst)
  else
    match n, nodes fs !! dst with
    | File _, Some Dir =>
        Some (FsError "Cannot overwrite directory with non-directory" dst)
    | Dir, Some (File _) =>
        Some (FsError "Cannot overwrite non-directory with directory" dst)
    | Dir, _ =>
        if under src dst
        then Some (FsError "Cannot move to a subdirectory of itself" dst)
        else None
    | File _, _ => None
    end.

(** [fs.move(src, dst, { overwrite })]: after its checks the directories
    above [dst] are made; with [overwrite] what is at [dst] is removed
    first, without it an existing [dst] is an error. *)
Definition move (src dst : jsstring) (overwrite : bool) (fs : filesystem)
  : outcome filesystem :=
  match nodes fs !! src with
  | None => Throw (FsError "ENOENT" src)
  | Some n =>
      match move_error src dst n fs with
      | Some e => Throw e
      | None =>
          match mkdirs (ancestors dst) fs with
          | Throw e => Throw e
          | Ok fs1 =>
              if existsSync fs dst && negb overwrite
              then Throw (FsError "dest already exists." dst)
              else if bool_decide (src ∈ readonly fs)
              then Throw (FsError "EACCES" src)
              else if bool_decide (dst ∈ readonly fs)
              then Throw (FsError "EACCES" dst)
              else
                let cleared := remove_tree dst (nodes fs1) in
                match n with
                | File _ => Ok (with_nodes fs1 (<[dst := n]> (delete src cleared)))
                | Dir => Ok (with_nodes fs1 (relocate src dst cleared))
                end
          end
      end
  end.

End Operations.
End Fs.

(** ** Project records *)

(** What the completion handler builds ([projectData]) and the record
    store keeps.  Fields that the handler takes from the body as they come
    ([projectName], [folderName], the members' [name] and [usn], the sizes)
    are values; [projectPath] has gone through [path.join] and is a
    string. *)
Module Project.

Record TeamMember := {
  member_name : value;
  member_usn : value
}.

Record FileMetadata := {
  file_name : value;
  file_path : jsstring;
  file_size : value
}.

Record ProjectRecord := {
  id : jsstring;
  projectName : value;
  timestamp : jsstring;
  teamMembers : list TeamMember;
  folderName : value;
  projectPath : jsstring;
  files : gmap string FileMetadata
}.

(** *** The record as a JSON value, its properties in the order of the
    object literals of the source. *)

Definition member_value (m : TeamMember) : value :=
  VObj [(lit "name", member_name m); (lit "usn", member_usn m)].

Definition file_value (f : FileMetadata) : value :=
  VObj [(lit "name", file_name f); (lit "path", VStr (file_path f));
        (lit "size", file_size f)].

Definition files_value (fm : gmap string FileMetadata) : value :=
  VObj (omap (fun k => (fun f => (lit k, file_value f)) <$> fm !! k)
          ["readme"; "installation"; "source"; "studentInfo"; "teamMembers"]%string).

Definition record_value (r : ProjectRecord) : value :=
  VObj [(lit "id", VStr (id r)); (lit "projectName", projectName r);
        (lit "timestamp", VStr (timestamp r));
        (lit "teamMembers", VArr (member_value <$> teamMembers r));
        (lit "folderName", folderName r);
        (lit "projectPath", VStr (projectPath r));
        (lit "files", files_value (files r))].

End Project.
Import Project.

(** ** The record store ([DatabaseService])

    [database.js] is not among the sources at hand; its four operations
    that the handlers call are written from the specification.  The
    collection holds its records by value: that the handler goes on
    changing the object it has just stored is not followed into the
    store. *)

Module Db.

(** Modelled from the spec: [DatabaseService.getAllProjects] of
    [database.js], "returns the full collection in insertion order". *)
Definition getAllProjects (store : list ProjectRecord) : list ProjectRecord :=
  store.

(** Modelled from the spec: [DatabaseService.createProject] of
    [database.js], "appends to the in-memory collection, persists the whole
    collection to disk, returns the record". *)
Definition createProject (r : ProjectRecord) (store : list ProjectRecord)
  : ProjectRecord * list ProjectRecord :=
  (r, store ++ [r]).

(** Modelled from the spec: [DatabaseService.getProjectById] of
    [database.js], "linear lookup by identifier equality; returns not-found
    indicator if absent".  The argument is whatever the handler passes,
    also [undefined]. *)
Definition getProjectById (wanted : value) (store : list ProjectRecord)
  : option ProjectRecord :=
  List.find (fun p => strict_eq (VStr (id p)) wanted) store.

(** Modelled from the spec: [DatabaseService.updateProject] of
    [database.js], "replaces the record matching [id] in place", with a
    failure indicator when no record has the identifier.  The patch the
    handlers pass is a whole record. *)
Fixpoint updateProject (wanted : jsstring) (patch : ProjectRecord)
    (store : list ProjectRecord) : bool * list ProjectRecord :=
  match store with
  | [] => (false, [])
  | p :: rest =>
      if units_eqb (id p) wanted then (true, patch :: rest)
      else let '(found, rest') := updateProject wanted patch rest in
           (found, p :: rest')
  end.

End Db.

(** ** The world of a handler and its monad *)

Inductive log_entry :=
| LogInfo (message : jsstring)
| LogError (label : jsstring) (error : exn).

Record world := {
  fs : Fs.filesystem;
  store : list ProjectRecord;
  console : list log_entry
}.

(** What the process cannot decide for itself during one request. *)
Record Env := {
  uuid : jsstring;         (* uuidv4() *)
  now : Date;              (* new Date() *)
  locale_now : jsstring;   (* new Date().toLocaleString() *)
  date_now : N;            (* Date.now() *)
  random : N               (* Math.round(Math.random() * 1E9) *)
}.

(** A computation that reads and changes the world and may throw; what it
    did before it threw stays done. *)
Definition M (A : Type) : Type := world -> outcome A * world.

Definition ret {A} (a : A) : M A := fun w => (Ok a, w).

Definition bind {A B} (m : M A) (k : A -> M B) : M B :=
  fun w => match m w with
           | (Ok a, w') => k a w'
           | (Throw e, w') => (Throw e, w')
           end.

Notation "x <- c ; k" := (bind c (fun x => k))
  (at level 20, c at level 100, k at level 200, only parsing).
Notation "'run' c ; k" := (bind c (fun _ => k))
  (at level 20, c at level 100, k at level 200, only parsing).

Definition throw {A} (e : exn) : M A := fun w => (Throw e, w).

(** [try { body } catch (error) { handler }]. *)
Definition try_catch {A} (body : M A) (handler : exn -> M A) : M A :=
  fun w => match body w with
           | (Ok a, w') => (Ok a, w')
           | (Throw e, w') => handler e w'
           end.

(** A pure step that may throw. *)
Definition lift {A} (o : outcome A) : M A := fun w => (o, w).

Definition read_fs {A} (f : Fs.filesystem -> A) : M A :=
  fun w => (Ok (f (fs w)), w).

Definition set_fs (w : world) (fs' : Fs.filesystem) : world :=
  {| fs := fs'; store := store w; console := console w |}.

Definition change_fs (op : Fs.filesystem -> outcome Fs.filesystem) : M unit :=
  fun w => match op (fs w) with
           | Ok fs' => (Ok tt, set_fs w fs')
           | Throw e => (Throw e, w)
           end.

Definition try_fs {A} (op : Fs.filesystem -> outcome A) : M A :=
  fun w => (op (fs w), w).

Definition read_store {A} (f : list ProjectRecord -> A) : M A :=
  fun w => (Ok (f (store w)), w).

Definition change_store {A}
    (op : list ProjectRecord -> A * list ProjectRecord) : M A :=
  fun w => let '(a, s') := op (store w) in
           (Ok a, {| fs := fs w; store := s'; console := console w |}).

Definition print (entry : log_entry) : M unit :=
  fun w => (Ok tt, {| fs := fs w; store := store w;
                      console := console w ++ [entry] |}).

Definition console_log (message : jsstring) : M unit := print (LogInfo message).
Definition console_error (label : jsstring) (error : exn) : M unit :=
  print (LogError label error).

(** ** Responses *)

Inductive error_text :=
| Message (text : string)   (* a literal of the source *)
| Caught (error : exn).     (* [error.message] *)

Inductive response :=
| RFail (code : nat) (error : error_text)
    (* res.status(code).json({ success: false, error }) *)
| RRejected (error : exn)
    (* a middleware error, answered by Express itself *)
| RUploaded (key : string) (path fileName : jsstring) (fileSize : N)
    (* res.json({ success: true, [key]: path, fileName, fileSize }) *)
| RCompleted (projectData : ProjectRecord)
    (* res.json({ success: true, projectData, message }) *)
| RArchive (attachment : jsstring) (directory : jsstring) (prefix : value)
    (* the ZIP stream of [directory], its entries under [prefix] *)
| RMigrated (updatedCount : nat).
    (* res.json({ success: true, message, updatedCount }) *)

Definition status (r : response) : nat :=
  match r with
  | RFail code _ => code
  | RRejected _ => 500
  | _ => 200
  end.

Definition success (r : response) : bool :=
  match r with
  | RFail _ _ | RRejected _ => false
  | _ => true
  end.

(** The [try { ... } catch (error) { console.error(label, error);
    res.status(500).json(...) }] that wraps every handler. *)
Definition respond (label : string) (body : M response)
  : world -> response * world :=
  fun w => match body w with
           | (Ok r, w') => (r, w')
           | (Throw e, w') =>
               (RFail 500 (Caught e),
                {| fs := fs w'; store := store w';
                   console := console w' ++ [LogError (lit label) e] |})
           end.

(** ** Folder names *)

(** The class of the first [replace]: less-than, greater-than, colon,
    double quote, slash, backslash, bar, question mark and star. *)
Definition forbidden (c : N) : bool :=
  (c =? 60) || (c =? 62) || (c =? 58) || (c =? 34) || (c =? 47)
  || (c =? 92) || (c =? 124) || (c =? 63) || (c =? 42).

Definition folder_timestamp (d : Date) : jsstring :=
  substring0 19
    (replace_first 84 95
       (replace_class (fun c => (c =? 58) || (c =? 46)) 45 (toISOString d))).

Definition cleanProjectName (name : jsstring) : jsstring :=
  substring0 50 (replace_runs is_space 95 (replace_class forbidden 95 name)).

Definition generateFolderName (d : Date) (name : jsstring) : jsstring :=
  cleanProjectName name ++ 95 :: folder_timestamp d.

(** ** Reading values *)

(** [v.k]: reading a property of [undefined] or [null] throws. *)
Definition prop (v : value) (k : string) : outcome value :=
  match v with
  | VUndefined => Throw (TypeError "Cannot read properties of undefined")
  | VNull => Throw (TypeError "Cannot read properties of null")
  | VObj props => Ok (own props (lit k))
  | VStr s =>
      if String.eqb k "length" then Ok (VNum (Z.of_nat (length s)))
      else Ok VUndefined
  | VArr xs =>
      if String.eqb k "length" then Ok (VNum (Z.of_nat (length xs)))
      else Ok VUndefined
  | VBool _ | VNum _ => Ok VUndefined
  end.

(** A name bound by [const { k } = req.body]: the body that
    [express.json()] leaves is an object or an array. *)
Definition field (body : value) (k : string) : value :=
  match body with
  | VObj props => own props (lit k)
  | _ => VUndefined
  end.

(** The argument check of [path.join]. *)
Definition validateString (v : value) : outcome jsstring :=
  match v with
  | VStr s => Ok s
  | _ => Throw (TypeError "The path argument must be of type string")
  end.

(** [arr.map((x, index) => f)], [f] running in order and the first throw
    ending the whole; anything but an array has no [map] to call. *)
Fixpoint map_from {A} (f : nat -> value -> outcome A) (index : nat)
    (xs : list value) : outcome (list A) :=
  match xs with
  | [] => Ok []
  | x :: xs' =>
      match f index x with
      | Throw e => Throw e
      | Ok y =>
          match map_from f (S index) xs' with
          | Throw e => Throw e
          | Ok ys => Ok (y :: ys)
          end
      end
  end.

Definition array_map {A} (arr : value) (f : nat -> value -> outcome A)
  : outcome (list A) :=
  match arr with
  | VArr xs => map_from f 0 xs
  | VUndefined => Throw (TypeError "Cannot read properties of undefined")
  | VNull => Throw (TypeError "Cannot read properties of null")
  | _ => Throw (TypeError "map is not a function")
  end.


(** ** Student information *)

Definition line_feed : jsstring := [10].

(** One entry of [studentInfoContent]. *)
Definition member_lines (index : nat) (name usn : value) : jsstring :=
  lit "Member " ++ decimal (N.of_nat (index + 1)) ++ lit ":" ++ line_feed
  ++ lit "Name: " ++ to_string name ++ line_feed
  ++ lit "USN: " ++ to_string usn.

(** [studentInfoHeader]. *)
Definition studentInfoHeader (project : value) (date : jsstring)
    (entries : list jsstring) : jsstring :=
  lit "STUDENT INFORMATION" ++ line_feed ++ lit "==================" ++ line_feed
  ++ lit "Project: " ++ to_string project ++ line_feed
  ++ lit "Date: " ++ date ++ line_feed ++ line_feed
  ++ join (line_feed ++ line_feed) entries.

(** ** The handlers *)

Section Server.
Context `{Platform}.

(** *** Uploads: [multer] *)

(** A file part of a multipart request. *)
Record Part := {
  part_fieldname : string;
  part_originalname : jsstring;
  part_content : list N
}.

(** A multipart request: its file parts and the [projectPath] text
    field. *)
Record UploadRequest := {
  parts : list Part;
  body_projectPath : option jsstring
}.

(** [req.file]. *)
Record StagedFile := {
  upload_fieldname : string;
  upload_originalname : jsstring;
  upload_path : jsstring;
  upload_size : N
}.

(** [limits.fileSize]. *)
Definition fileSize : N := 50 * 1024 * 1024.

(** The [destination] callback of the disk storage. *)
Definition destination : M jsstring :=
  let tempDir := path_join [__dirname; lit "uploads"; lit "temp"] in
  run change_fs (Fs.ensureDir tempDir) ;
  ret tempDir.

(** The [filename] callback of the disk storage. *)
Definition filename (env : Env) (part : Part) : jsstring :=
  let uniqueSuffix := decimal (date_now env) ++ lit "-" ++ decimal (random env) in
  lit (part_fieldname part) ++ lit "-" ++ uniqueSuffix
  ++ path_extname (part_originalname part).

(** [upload.single(name)]: no file part leaves [req.file] undefined; one
    part under [name] is staged in the temporary directory unless it
    reaches [limits.fileSize], the number of bytes at which the parser
    cuts a file off; any other file part is an error. *)
Definition upload_single (name : string) (env : Env) (req : UploadRequest)
  : M (option StagedFile) :=
  match parts req with
  | [] => ret None
  | [part] =>
      if negb (String.eqb (part_fieldname part) name)
      then throw (MulterError "LIMIT_UNEXPECTED_FILE")
      else
        tempDir <- destination ;
        let staged := path_join [tempDir; filename env part] in
        if fileSize <=? N.of_nat (length (part_content part))
        then throw (MulterError "LIMIT_FILE_SIZE")
        else
          run change_fs (Fs.writeBytes staged (part_content part)) ;
          ret (Some {| upload_fieldname := part_fieldname part;
                       upload_originalname := part_originalname part;
                       upload_path := staged;
                       upload_size := N.of_nat (length (part_content part)) |})
  | _ :: _ :: _ => throw (MulterError "LIMIT_UNEXPECTED_FILE")
  end.

(** A route with [upload.single(name)] before its handler: a middleware
    error never reaches the handler. *)
Definition with_upload (name : string)
    (handler : option StagedFile -> option jsstring -> world -> response * world)
    (env : Env) (req : UploadRequest) : world -> response * world :=
  fun w => match upload_single name env req w with
           | (Ok file, w') => handler file (body_projectPath req) w'
           | (Throw e, w') => (RRejected e, w')
           end.

(** [!projectPath] for the text field. *)
Definition missing (projectPath : option jsstring) : bool :=
  match projectPath with
  | Some (_ :: _) => false
  | _ => true
  end.

(** The handler of [POST /api/upload-readme]. *)
Definition upload_readme_handler (file : option StagedFile)
    (projectPath : option jsstring) : world -> response * world :=
  respond "Error uploading README:"
    match file with
    | None => ret (RFail 400 (Message "No file uploaded"))
    | Some file =>
        if missing projectPath
        then ret (RFail 400 (Message "Project path is required"))
        else
          let ext := path_extname (upload_originalname file) in
          let readmeFileName :=
            match ext with
            | [] => lit "ReadMe.txt"
            | _ => lit "ReadMe" ++ ext
            end in
          let readmePath :=
            path_join [default [] projectPath; lit "2.README"; readmeFileName] in
          run change_fs (Fs.move (upload_path file) readmePath true) ;
          ret (RUploaded "readmePath" readmePath readmeFileName
                 (upload_size file))
    end.

(** The handler of [POST /api/upload-installation]. *)
Definition upload_installation_handler (file : option StagedFile)
    (projectPath : option jsstring) : world -> response * world :=
  respond "Error uploading installation file:"
    match file with
    | None => ret (RFail 400 (Message "No file uploaded"))
    | Some file =>
        if missing projectPath
        then ret (RFail 400 (Message "Project path is required"))
        else
          let ext := path_extname (upload_originalname file) in
          let installPath :=
            path_join [default [] projectPath; lit "1.INSTALLATION";
                       lit "installation" ++ ext] in
          run change_fs (Fs.move (upload_path file) installPath true) ;
          ret (RUploaded "installPath" installPath (lit "installation" ++ ext)
                 (upload_size file))
    end.

(** The handler of [POST /api/upload-source]. *)
Definition upload_source_handler (file : option StagedFile)
    (projectPath : option jsstring) : world -> response * world :=
  respond "Error uploading source file:"
    match file with
    | None => ret (RFail 400 (Message "No file uploaded"))
    | Some file =>
        if missing projectPath
        then ret (RFail 400 (Message "Project path is required"))
        else
          let sourcePath :=
            path_join [default [] projectPath; lit "3.SOURCE"; lit "project.zip"] in
          run change_fs (Fs.move (upload_path file) sourcePath true) ;
          ret (RUploaded "sourcePath" sourcePath (lit "project.zip")
                 (upload_size file))
    end.

Definition upload_readme := with_upload "readme" upload_readme_handler.
Definition upload_installation :=
  with_upload "installation" upload_installation_handler.
Definition upload_source := with_upload "source" upload_source_handler.

(** *** [POST /api/complete-project] *)

(** One of the three entries of [files] that come from the body:
    [{ name: f.name || fallback, path: path.join(projectPath, folder,
    f.name || fallback), size: f.size || 0 }]. *)
Definition described_file (projectPath f : value) (folder fallback : string)
  : outcome FileMetadata :=
  let? name := prop f "name" in
  let? name' := prop f "name" in
  let? dir := validateString projectPath in
  let? last := validateString (or_else name' (VStr (lit fallback))) in
  let? size := prop f "size" in
  Ok {| file_name := or_else name (VStr (lit fallback));
        file_path := path_join [dir; lit folder; last];
        file_size := or_else size (VNum 0) |}.

(** The [source] entry: its name is fixed. *)
Definition source_file (projectPath f : value) : outcome FileMetadata :=
  let? dir := validateString projectPath in
  let? size := prop f "size" in
  Ok {| file_name := VStr (lit "project.zip");
        file_path := path_join [dir; lit "3.SOURCE"; lit "project.zip"];
        file_size := or_else size (VNum 0) |}.

(** The object literal [projectData]. *)
Definition new_projectData (env : Env)
    (projectName teamMembers projectPath folderName
     readmeFile installationFile sourceFile : value) : outcome ProjectRecord :=
  let? members :=
    array_map teamMembers (fun _ member =>
      let? name := prop member "name" in
      let? usn := prop member "usn" in
      Ok {| member_name := name; member_usn := usn |}) in
  let? readme := described_file projectPath readmeFile "2.README" "ReadMe.txt" in
  let? installation :=
    described_file projectPath installationFile "1.INSTALLATION"
      "installation.txt" in
  let? source := source_file projectPath sourceFile in
  let? dir := validateString projectPath in
  Ok {| id := uuid env;
        projectName := projectName;
        timestamp := toISOString (now env);
        teamMembers := members;
        folderName := folderName;
        projectPath := dir;
        files := <["source" := source]>
                   (<["installation" := installation]>
                      (<["readme" := readme]> ∅)) |}.

(** The predicate of the [find] that looks for the project in the
    store. *)
Definition same_project (projectName : value) (projectPath : jsstring)
    (p : ProjectRecord) : bool :=
  strict_eq (Project.projectName p) projectName
  && units_eqb (Project.projectPath p) projectPath.

Definition with_identity (r : ProjectRecord) (i t : jsstring) : ProjectRecord :=
  {| id := i; projectName := Project.projectName r; timestamp := t;
     teamMembers := Project.teamMembers r;
     folderName := Project.folderName r;
     projectPath := Project.projectPath r; files := files r |}.

Definition with_files (r : ProjectRecord) (fm : gmap string FileMetadata)
  : ProjectRecord :=
  {| id := id r; projectName := Project.projectName r;
     timestamp := timestamp r; teamMembers := Project.teamMembers r;
     folderName := Project.folderName r;
     projectPath := Project.projectPath r; files := fm |}.

(** The text of [student-info.txt] that the handler writes when the file
    is not there. *)
Definition fallback_studentInfo (env : Env) (projectName teamMembers : value)
  : outcome jsstring :=
  let? entries :=
    array_map teamMembers (fun index member =>
      let? name := prop member "name" in
      let? usn := prop member "usn" in
      Ok (member_lines index name usn)) in
  Ok (studentInfoHeader projectName (locale_now env) entries).

(** The update of the project in the store or its insertion, and the
    insertion that follows either ("Save to database"); the result is
    [projectData] with the identity it has from then on. *)
Definition save_projectData (projectName : value) (projectData : ProjectRecord)
  : M ProjectRecord :=
  existingProject <-
    read_store (fun s =>
      List.find (same_project projectName (Project.projectPath projectData))
        (Db.getAllProjects s)) ;
  projectData <-
    match existingProject with
    | Some existingProject =>
        let projectData :=
          with_identity projectData (id existingProject)
            (timestamp existingProject) in
        run change_store (Db.updateProject (id existingProject) projectData) ;
        run console_log
              (lit "Updated existing project: " ++ to_string projectName) ;
        ret projectData
    | None =>
        run change_store (Db.createProject projectData) ;
        run console_log
              (lit "Created new project: " ++ to_string projectName) ;
        ret projectData
    end ;
  run change_store (Db.createProject projectData) ;
  ret projectData.

(** The size of [student-info.txt] as the handler takes it: from the
    file when it is there, from the text it writes when it is not. *)
Definition ensure_studentInfo (env : Env) (projectName teamMembers : value)
    (studentInfoPath : jsstring) : M N :=
  present <- read_fs (fun fs => Fs.existsSync fs studentInfoPath) ;
  if present : bool
  then try_fs (fun fs => Fs.stat_size fs studentInfoPath)
  else
    studentInfoHeader <-
      lift (fallback_studentInfo env projectName teamMembers) ;
    run change_fs (Fs.writeFile studentInfoPath studentInfoHeader) ;
    ret (N.of_nat (length studentInfoHeader)).

(** [projectData.files.studentInfo = { ... }]. *)
Definition with_studentInfo (projectData : ProjectRecord)
    (studentInfoPath : jsstring) (studentInfoSize : N) : ProjectRecord :=
  with_files projectData
    (<["studentInfo" :=
         {| file_name := VStr (lit "student-info.txt");
            file_path := studentInfoPath;
            file_size := VNum (Z.of_N studentInfoSize) |}]>
       (files projectData)).

Definition complete_project (env : Env) (body : value)
  : world -> response * world :=
  respond "Error completing project:"
    (let projectName := field body "projectName" in
     let teamMembers := field body "teamMembers" in
     let projectPath := field body "projectPath" in
     let folderName := field body "folderName" in
     let readmeFile := field body "readmeFile" in
     let installationFile := field body "installationFile" in
     let sourceFile := field body "sourceFile" in
     if negb (truthy projectName) || negb (truthy teamMembers)
        || negb (truthy projectPath)
     then ret (RFail 400 (Message "Missing required fields"))
     else
       projectData <-
         lift (new_projectData env projectName teamMembers projectPath
                 folderName readmeFile installationFile sourceFile) ;
       projectData <- save_projectData projectName projectData ;
       let dir := Project.projectPath projectData in
       let studentInfoPath := path_join [dir; lit "student-info.txt"] in
       studentInfoSize <-
         ensure_studentInfo env projectName teamMembers studentInfoPath ;
       let projectData :=
         with_studentInfo projectData studentInfoPath studentInfoSize in
       let infoPath := path_join [dir; lit "project-info.json"] in
       run change_fs
             (Fs.writeFile infoPath (Json.document (record_value projectData))) ;
       ret (RCompleted projectData)).

(** *** [GET /api/download-project/:projectId] *)

(** [req.params] of a route: the names of its path pattern bound to the
    segments of the URL. *)
Definition route_params (names : list string) (segments : list jsstring)
  : gmap string jsstring :=
  list_to_map (zip names segments).

(** [req.params.k]. *)
Definition param (params : gmap string jsstring) (k : string) : value :=
  from_option VStr VUndefined (params !! k).

Definition download_project_handler (params : gmap string jsstring)
  : world -> response * world :=
  respond "Error downloading project:"
    (let projectId := param params "id" in
     project <- read_store (Db.getProjectById projectId) ;
     match project with
     | None => ret (RFail 404 (Message "Project not found"))
     | Some project =>
         present <-
           read_fs (fun fs => Fs.existsSync fs (Project.projectPath project)) ;
         if negb present
         then ret (RFail 404 (Message "Project folder not found"))
         else
           ret (RArchive (to_string (Project.folderName project) ++ lit ".zip")
                  (Project.projectPath project) (Project.folderName project))
     end).

(** The route as it is registered: the pattern names one parameter,
    [projectId]. *)
Definition download_project (projectId : jsstring)
  : world -> response * world :=
  download_project_handler (route_params ["projectId"%string] [projectId]).

(** *** [POST /api/update-existing-folders] *)

(** One of the three renames of an old folder to its numbered name; the
    result says whether it took place. *)
Definition rename_folder (project : ProjectRecord) (oldName newName : string)
  : M bool :=
  let oldDir := path_join [Project.projectPath project; lit oldName] in
  let newDir := path_join [Project.projectPath project; lit newName] in
  oldThere <- read_fs (fun fs => Fs.existsSync fs oldDir) ;
  newThere <- read_fs (fun fs => Fs.existsSync fs newDir) ;
  if oldThere && negb newThere
  then run change_fs (Fs.move oldDir newDir false) ; ret true
  else ret false.

(** The backfill of [student-info.txt]; the result is the record to
    store when the file was written. *)
Definition backfill_studentInfo (env : Env) (project : ProjectRecord)
  : M (option ProjectRecord) :=
  let studentInfoPath :=
    path_join [Project.projectPath project; lit "student-info.txt"] in
  let oldTeamMembersPath :=
    path_join [Project.projectPath project; lit "team-members.txt"] in
  let oldNumberedStudentInfoPath :=
    path_join [Project.projectPath project; lit "4.Student-info.txt"] in
  present <- read_fs (fun fs => Fs.existsSync fs studentInfoPath) ;
  if negb present && bool_decide (0 < length (Project.teamMembers project))%nat
  then
    let studentInfoHeader :=
      studentInfoHeader (Project.projectName project) (locale_now env)
        (imap (fun index member =>
                 member_lines index (member_name member) (member_usn member))
           (Project.teamMembers project)) in
    run change_fs (Fs.writeFile studentInfoPath studentInfoHeader) ;
    oldThere <- read_fs (fun fs => Fs.existsSync fs oldTeamMembersPath) ;
    run (if oldThere : bool then change_fs (Fs.remove oldTeamMembersPath)
         else ret tt) ;
    numberedThere <-
      read_fs (fun fs => Fs.existsSync fs oldNumberedStudentInfoPath) ;
    run (if numberedThere : bool
         then change_fs (Fs.remove oldNumberedStudentInfoPath)
         else ret tt) ;
    ret (Some (with_files project
                 (delete "teamMembers"%string
                    (<["studentInfo"%string :=
                         {| file_name := VStr (lit "student-info.txt");
                            file_path := studentInfoPath;
                            file_size :=
                              or_else
                                (VNum (Z.of_nat (length studentInfoHeader)))
                                (VNum 0) |}]>
                       (files project)))))
  else ret None.

(** The body of the inner [try]: the result says whether the project was
    updated in the store. *)
Definition update_folder (env : Env) (project : ProjectRecord) : M bool :=
  present <- read_fs (fun fs => Fs.existsSync fs (Project.projectPath project)) ;
  if present : bool
  then
    readmeMoved <- rename_folder project "README" "2.README" ;
    installMoved <- rename_folder project "INSTALLATION" "1.INSTALLATION" ;
    sourceMoved <- rename_folder project "SOURCE" "3.SOURCE" ;
    backfilled <- backfill_studentInfo env project ;
    let needsUpdate :=
      readmeMoved || installMoved || sourceMoved || bool_decide (is_Some backfilled) in
    if needsUpdate
    then
      run change_store (Db.updateProject (id project) (default project backfilled)) ;
      ret true
    else ret false
  else ret false.

(** The [for] loop with its inner [try] and [catch]. *)
Fixpoint update_folders (env : Env) (projects : list ProjectRecord)
    (updatedCount : nat) : M nat :=
  match projects with
  | [] => ret updatedCount
  | project :: rest =>
      updated <-
        try_catch (update_folder env project)
          (fun error =>
             run console_error
                   (lit "Error updating project " ++ id project ++ lit ":") error ;
             ret false) ;
      update_folders env rest (if updated : bool then S updatedCount else updatedCount)
  end.

Definition update_existing_folders (env : Env) : world -> response * world :=
  respond "Error updating existing folders:"
    (projects <- read_store Db.getAllProjects ;
     updatedCount <- update_folders env projects 0 ;
     ret (RMigrated updatedCount)).

End Server.

(** * The vocabulary of the properties *)

(** A code unit that a path segment may hold. *)
Definition safe (c : N) : Prop := forbidden c = false.

(** The separators of an ISO date are safe but for the colon, which the
    first [replace] of the timestamp takes away. *)
Definition iso_unit (c : N) : Prop := safe c \/ c = 58.

(** The three artifacts and what the three upload routes fix for each. *)
Inductive artifact := Readme | Installation | Source.

Definition field_of (kind : artifact) : string :=
  match kind with
  | Readme => "readme"
  | Installation => "installation"
  | Source => "source"
  end.

Definition subfolder_of (kind : artifact) : jsstring :=
  match kind with
  | Readme => lit "2.README"
  | Installation => lit "1.INSTALLATION"
  | Source => lit "3.SOURCE"
  end.

(** The target name for an original extension [ext]. *)
Definition target_of (kind : artifact) (ext : jsstring) : jsstring :=
  match kind with
  | Readme => match ext with [] => lit "ReadMe.txt" | _ => lit "ReadMe" ++ ext end
  | Installation => lit "installation" ++ ext
  | Source => lit "project.zip"
  end.

Definition key_of (kind : artifact) : string :=
  match kind with
  | Readme => "readmePath"
  | Installation => "installPath"
  | Source => "sourcePath"
  end.

Definition handler_of `{Platform} (kind : artifact)
  : option StagedFile -> option jsstring -> world -> response * world :=
  match kind with
  | Readme => upload_readme_handler
  | Installation => upload_installation_handler
  | Source => upload_source_handler
  end.

Definition endpoint_of `{Platform} (kind : artifact)
  : Env -> UploadRequest -> world -> response * world :=
  match kind with
  | Readme => upload_readme
  | Installation => upload_installation
  | Source => upload_source
  end.

(** An exception of the language itself, not of the filesystem. *)
Definition type_error (e : exn) : Prop := exists what, e = TypeError what.

(** The world after the inner [catch] of the migration has logged the
    error of a project. *)
Definition logged (w : world) (project : ProjectRecord) (e : exn) : world :=
  {| fs := fs w; store := store w;
     console := console w
       ++ [LogError (lit "Error updating project " ++ id project ++ lit ":") e] |}.

(** A run of the migration over a list of projects, project by project:
    [migrates env projects w n w'] when the run from [w] ends in [w'] with
    [n] projects updated in the store. *)
Inductive migrates `{Platform} (env : Env)
  : list ProjectRecord -> world -> nat -> world -> Prop :=
| migrates_done w :
    migrates env [] w 0 w
| migrates_updated project rest w w1 n w' :
    update_folder env project w = (Ok true, w1) ->
    migrates env rest w1 n w' ->
    migrates env (project :: rest) w (S n) w'
| migrates_unchanged project rest w w1 n w' :
    update_folder env project w = (Ok false, w1) ->
    migrates env rest w1 n w' ->
    migrates env (project :: rest) w n w'
| migrates_failed project rest w e w1 n w' :
    update_folder env project w = (Throw e, w1) ->
    migrates env rest (logged w1 project e) n w' ->
    migrates env (project :: rest) w n w'.

(** A computation that leaves the record store as it is, also when it
    throws. *)
Definition keeps_store {A} (m : M A) : Prop :=
  forall w o w', m w = (o, w') -> store w' = store w.

(** The world with another record store. *)
Definition set_store (w : world) (s : list ProjectRecord) : world :=
  {| fs := fs w; store := s; console := console w |}.

(** A computation that neither reads nor changes the record store. *)
Definition ignores_store {A} (m : M A) : Prop :=
  forall w s, m (set_store w s) = ((m w).1, set_store (m w).2 s).

(** ** Sample requests and worlds *)

Module Sample.

(** The server on a POSIX system, installed in [/srv/portal]. *)
Definition platform : Platform := posix (lit "/srv/portal").

Definition morning : Date :=
  {| year := 2025; month := 3; day := 9;
     hours := 4; minutes := 5; seconds := 6; milliseconds := 7 |}.

Definition noon : Date :=
  {| year := 2025; month := 3; day := 9;
     hours := 12; minutes := 0; seconds := 0; milliseconds := 0 |}.

Definition first_env : Env :=
  {| uuid := lit "id-1"; now := morning; locale_now := lit "3/9/2025, 4:05:06 AM";
     date_now := 1741493106007; random := 42 |}.

Definition second_env : Env :=
  {| uuid := lit "id-2"; now := noon; locale_now := lit "3/9/2025, 12:00:00 PM";
     date_now := 1741521600000; random := 43 |}.

(** A disk with the folder of one project on it, and nothing stored. *)
Definition fresh : world :=
  {| fs := {| Fs.nodes :=
                list_to_map
                  [(lit "/projects", Fs.Dir); (lit "/projects/app", Fs.Dir)];
              Fs.readonly := ∅; Fs.dir_size := fun _ => 4096 |};
     store := [];
     console := [] |}.

(** An installation guide of five bytes, for the project in
    [/projects/app]. *)
Definition guide : UploadRequest :=
  {| parts := [ {| part_fieldname := "installation";
                   part_originalname := lit "guide.pdf";
                   part_content := [37; 80; 68; 70; 10] |} ];
     body_projectPath := Some (lit "/projects/app") |}.

(** The same guide, for a place that no project was created in. *)
Definition stray_guide : UploadRequest :=
  {| parts := parts guide; body_projectPath := Some (lit "/etc/cron.d") |}.

(** The same guide without a project path: sent to the README route, its
    file part comes under a field name that the route does not take. *)
Definition misfiled_guide : UploadRequest :=
  {| parts := parts guide; body_projectPath := None |}.

(** A request without a file part. *)
Definition no_file : UploadRequest :=
  {| parts := []; body_projectPath := Some (lit "/projects/app") |}.

(** The upload of [stray_guide] as the middleware stages it. *)
Definition staged_guide : StagedFile :=
  {| upload_fieldname := "installation";
     upload_originalname := lit "guide.pdf";
     upload_path :=
       lit "/srv/portal/uploads/temp/installation-1741493106007-42.pdf";
     upload_size := 5 |}.

(** The body of a complete-project request for the project [App] in
    [/projects/app], with one team member and a README of [readmeSize]
    bytes. *)
Definition submission (member : jsstring) (readmeSize : Z) : value :=
  VObj [(lit "projectName", VStr (lit "App"));
        (lit "teamMembers",
         VArr [VObj [(lit "name", VStr member); (lit "usn", VStr (lit "1RV21"))]]);
        (lit "projectPath", VStr (lit "/projects/app"));
        (lit "folderName", VStr (lit "App_2025-03-09_04-05-06"));
        (lit "readmeFile",
         VObj [(lit "name", VStr (lit "ReadMe.md")); (lit "size", VNum readmeSize)]);
        (lit "installationFile",
         VObj [(lit "name", VStr (lit "installation.pdf")); (lit "size", VNum 20)]);
        (lit "sourceFile",
         VObj [(lit "name", VStr (lit "project.zip")); (lit "size", VNum 5)])].

(** The name Zoe with an acute accent on its last letter: three code
    units, four bytes in UTF-8. *)
Definition zoe : jsstring := [90; 111; 233].

(** A body with the three required fields and no [readmeFile]. *)
Definition without_readme : value :=
  VObj [(lit "projectName", VStr (lit "App"));
        (lit "teamMembers", VArr []);
        (lit "projectPath", VStr (lit "/projects/app"));
        (lit "installationFile", VObj []);
        (lit "sourceFile", VObj [])].

(** The world after the project has been completed once. *)
Definition submitted : world :=
  (complete_project (H := platform) first_env (submission (lit "Ada") 10) fresh).2.

(** Three stored projects with old folder names on disk; the folder of
    the second cannot be renamed, because the place of its new name is
    locked. *)
Definition old_project (name : string) : ProjectRecord :=
  {| id := lit name; projectName := VStr (lit name);
     timestamp := toISOString morning;
     teamMembers := [];
     folderName := VStr (lit name);
     projectPath := lit "/old/" ++ lit name;
     files := ∅ |}.

Definition old_disk : world :=
  {| fs := {| Fs.nodes :=
                list_to_map
                  [(lit "/old", Fs.Dir);
                   (lit "/old/a", Fs.Dir); (lit "/old/a/README", Fs.Dir);
                   (lit "/old/a/README/ReadMe.txt", Fs.File [104; 105]);
                   (lit "/old/b", Fs.Dir); (lit "/old/b/README", Fs.Dir);
                   (lit "/old/c", Fs.Dir); (lit "/old/c/SOURCE", Fs.Dir)];
              Fs.readonly := {[ lit "/old/b/2.README" ]};
              Fs.dir_size := fun _ => 4096 |};
     store := [old_project "a"; old_project "b"; old_project "c"];
     console := [] |}.

End Sample.

(** * The other routes *)

(** ** Their responses *)

Inductive reply :=
| Refused (code : nat) (error : error_text)
    (* res.status(code).json({ success: false, error }) *)
| Located (path : jsstring)
    (* res.json({ success: true, path }) *)
| NeedsPicker
    (* res.json({ success: true, needsFolderPicker: true }) *)
| Created (projectPath folderName savePath : jsstring)
    (studentInfoPath : option jsstring)
    (* res.json({ success: true, projectPath, folderName, savePath,
                  studentInfoPath, message }) *)
| Listed (projects : list ProjectRecord)
    (* res.json({ success: true, projects }) *)
| Found (project : ProjectRecord)
    (* res.json({ success: true, project }) *)
| Download (filePath : jsstring) (fileName : value).
    (* res.download(filePath, fileName, ...) *)

Definition reply_status (r : reply) : nat :=
  match r with
  | Refused code _ => code
  | _ => 200
  end.

Definition reply_success (r : reply) : bool :=
  match r with
  | Refused _ _ => false
  | _ => true
  end.

(** The [try] and [catch] of these handlers. *)
Definition reply_with (label : string) (body : M reply)
  : world -> reply * world :=
  fun w => match body w with
           | (Ok r, w') => (r, w')
           | (Throw e, w') =>
               (Refused 500 (Caught e),
                {| fs := fs w'; store := store w';
                   console := console w' ++ [LogError (lit label) e] |})
           end.

(** ** Property names that come as strings *)

(** The name of a property of the source for a string of the request, when
    the string is made of code units below 256. *)
Definition unlit (s : jsstring) : option string :=
  if forallb (fun c => c <? 256) s
  then Some (string_of_list_ascii ((fun c => ascii_of_N c) <$> s))
  else None.

(** [files[fileType]]: the own property under the name [String(fileType)].
    What the prototype of the object would add under other names has no
    [path] and ends in the same answer as no property at all. *)
Definition file_of (fm : gmap string FileMetadata) (fileType : value)
  : option FileMetadata :=
  match unlit (to_string fileType) with
  | Some k => fm !! k
  | None => None
  end.

(** ** [path.resolve] on a POSIX system with working directory [cwd] *)
Definition posix_resolve (cwd p : jsstring) : jsstring :=
  match p with
  | [] => Posix.slash :: Posix.normalizeString cwd false
  | c :: _ =>
      if c =? Posix.slash
      then Posix.slash :: Posix.normalizeString p false
      else Posix.slash
             :: Posix.normalizeString (cwd ++ Posix.slash :: p) false
  end.

Definition DEFAULT_SAVE_PATH : jsstring := lit "D:\Main-projects 2k25".

Section OtherRoutes.
Context `{Platform}.

(** [path.resolve], which the [Platform] above does not have. *)
Variable path_resolve : jsstring -> jsstring.

(** [ToNumber(s) > 0] for a string [s]: the conversion of a string to a
    number is left open. *)
Variable positive_string : jsstring -> bool.

(** What keeps [res.download] from sending a file that is there (a
    hidden file, by the options of the library; a file that cannot be
    read): left open. *)
Variable send_error : Fs.filesystem -> jsstring -> option exn.

(** [v > 0]. *)
Definition positive (v : value) : bool :=
  match v with
  | VUndefined | VNull | VObj _ => false
  | VBool b => b
  | VNum n => (0 <? n)%Z
  | VStr s => positive_string s
  | VArr _ => positive_string (to_string v)
  end.

(** *** [POST /api/location-preference] *)

Definition location_preference (body : value) : world -> reply * world :=
  reply_with "Error handling location preference:"
    (let useDefault := field body "useDefault" in
     if truthy useDefault
     then
       run change_fs (Fs.ensureDir DEFAULT_SAVE_PATH) ;
       ret (Located DEFAULT_SAVE_PATH)
     else ret NeedsPicker).

(** *** [POST /api/create-project] *)

(** [generateFolderName] on what the body holds: only a string has a
    [replace] to call. *)
Definition folderName_of (d : Date) (projectName : value) : outcome jsstring :=
  match projectName with
  | VStr name => Ok (generateFolderName d name)
  | VUndefined => Throw (TypeError "Cannot read properties of undefined")
  | VNull => Throw (TypeError "Cannot read properties of null")
  | _ => Throw (TypeError "projectName.replace is not a function")
  end.

Definition createProjectStructure (d : Date) (basePath : jsstring)
    (projectName : value) : M (jsstring * jsstring) :=
  folderName <- lift (folderName_of d projectName) ;
  let projectPath := path_join [basePath; folderName] in
  run change_fs (Fs.ensureDir (path_join [projectPath; lit "1.INSTALLATION"])) ;
  run change_fs (Fs.ensureDir (path_join [projectPath; lit "2.README"])) ;
  run change_fs (Fs.ensureDir (path_join [projectPath; lit "3.SOURCE"])) ;
  ret (projectPath, folderName).

(** [teamMembers && teamMembers.length > 0]. *)
Definition has_members (teamMembers : value) : bool :=
  truthy teamMembers
  && match prop teamMembers "length" with
     | Ok n => positive n
     | Throw _ => false
     end.

Definition create_project (env : Env) (body : value)
  : world -> reply * world :=
  reply_with "Error creating project:"
    (let projectName := field body "projectName" in
     let savePath := field body "savePath" in
     let teamMembers := field body "teamMembers" in
     if negb (truthy projectName) || negb (truthy savePath)
     then ret (Refused 400 (Message "Project name and save path are required"))
     else
       savePath <- lift (validateString savePath) ;
       let normalizedPath := path_resolve savePath in
       run change_fs (Fs.ensureDir normalizedPath) ;
       created <- createProjectStructure (now env) normalizedPath projectName ;
       let projectPath := created.1 in
       let folderName := created.2 in
       studentInfoPath <-
         (if has_members teamMembers
          then
            studentInfoHeader <-
              lift (fallback_studentInfo env projectName teamMembers) ;
            let studentInfoPath :=
              path_join [projectPath; lit "student-info.txt"] in
            run change_fs (Fs.writeFile studentInfoPath studentInfoHeader) ;
            run console_log
                  (lit "Student info file created: " ++ studentInfoPath) ;
            ret (Some studentInfoPath)
          else ret None) ;
       run console_log
             (lit "Project created: " ++ to_string projectName ++ lit " at "
              ++ projectPath) ;
       ret (Created projectPath folderName normalizedPath studentInfoPath)).

(** *** [GET /api/projects] and [GET /api/project/:id] *)

Definition list_projects : world -> reply * world :=
  reply_with "Error getting projects:"
    (projects <- read_store Db.getAllProjects ;
     ret (Listed projects)).

Definition project_details_handler (params : gmap string jsstring)
  : world -> reply * world :=
  reply_with "Error getting project details:"
    (let projectId := param params "id" in
     project <- read_store (Db.getProjectById projectId) ;
     match project with
     | None => ret (Refused 404 (Message "Project not found"))
     | Some project => ret (Found project)
     end).

Definition project_details (projectId : jsstring) : world -> reply * world :=
  project_details_handler (route_params ["id"%string] [projectId]).

(** *** [GET /api/download/:projectId/:fileType] *)

(** The entry that stands in for a missing one when the file [name] is
    in the folder of the project. *)
Definition found_on_disk (name : string) (path : jsstring) : FileMetadata :=
  {| file_name := VStr (lit name); file_path := path;
     file_size := VUndefined |}.

(** [res.download(filePath, fileName, callback)]: the error that the
    callback gets, if it gets one.  A directory is not sent. *)
Definition res_download (fs : Fs.filesystem) (filePath : jsstring)
  : option exn :=
  match Fs.nodes fs !! filePath with
  | Some (Fs.File _) => send_error fs filePath
  | Some Fs.Dir => Some (FsError "EISDIR" filePath)
  | None => Some (FsError "ENOENT" filePath)
  end.

Definition download_file_handler (params : gmap string jsstring)
  : world -> reply * world :=
  reply_with "Error downloading file:"
    (let projectId := param params "projectId" in
     let fileType := param params "fileType" in
     project <- read_store (Db.getProjectById projectId) ;
     match project with
     | None => ret (Refused 404 (Message "Project not found"))
     | Some project =>
         let fileData := file_of (files project) fileType in
         fileData <-
           match fileData with
           | None =>
               if strict_eq fileType (VStr (lit "studentInfo"))
               then
                 let studentInfoPath :=
                   path_join [Project.projectPath project;
                              lit "4.Student-info.txt"] in
                 present <- read_fs (fun fs => Fs.existsSync fs studentInfoPath) ;
                 if present : bool
                 then ret (Some (found_on_disk "4.Student-info.txt"
                                   studentInfoPath))
                 else
                   let studentInfoPath :=
                     path_join [Project.projectPath project;
                                lit "student-info.txt"] in
                   present <-
                     read_fs (fun fs => Fs.existsSync fs studentInfoPath) ;
                   if present : bool
                   then ret (Some (found_on_disk "student-info.txt"
                                     studentInfoPath))
                   else ret None
               else ret None
           | Some _ => ret fileData
           end ;
         fileData <-
           match fileData with
           | None =>
               if strict_eq fileType (VStr (lit "teamMembers"))
               then
                 let teamMembersPath :=
                   path_join [Project.projectPath project;
                              lit "team-members.txt"] in
                 present <- read_fs (fun fs => Fs.existsSync fs teamMembersPath) ;
                 if present : bool
                 then ret (Some (found_on_disk "team-members.txt"
                                   teamMembersPath))
                 else ret None
               else ret None
           | Some _ => ret fileData
           end ;
         match fileData with
         | None => ret (Refused 404 (Message "File not found"))
         | Some fileData =>
             match file_path fileData with
             | [] => ret (Refused 404 (Message "File not found"))
             | filePath =>
                 present <- read_fs (fun fs => Fs.existsSync fs filePath) ;
                 if negb present
                 then ret (Refused 404 (Message "File not found on disk"))
                 else
                   failure <- read_fs (fun fs => res_download fs filePath) ;
                   match failure with
                   | None => ret (Download filePath (file_name fileData))
                   | Some err =>
                       run console_error (lit "Error downloading file:") err ;
                       ret (Refused 500 (Message "Error downloading file"))
                   end
             end
         end
     end).

Definition download_file (projectId fileType : jsstring)
  : world -> reply * world :=
  download_file_handler
    (route_params ["projectId"; "fileType"]%string [projectId; fileType]).

End OtherRoutes.

(** ** The vocabulary of the further properties *)

(** A date whose fields are those of a calendar date of the years 0 to
    9999. *)
Definition in_range (d : Date) : Prop :=
  year d <= 9999 /\ month d <= 12 /\ day d <= 31 /\ hours d <= 23
  /\ minutes d <= 59 /\ seconds d <= 59 /\ milliseconds d <= 999.

(** [YYYY-MM-DD_HH-MM-SS]. *)
Definition second_stamp (d : Date) : jsstring :=
  pad0 4 (decimal (year d)) ++ lit "-" ++ pad0 2 (decimal (month d))
  ++ lit "-" ++ pad0 2 (decimal (day d)) ++ lit "_"
  ++ pad0 2 (decimal (hours d)) ++ lit "-" ++ pad0 2 (decimal (minutes d))
  ++ lit "-" ++ pad0 2 (decimal (seconds d)).

(** A decimal digit or the hyphen. *)
Definition digit_or_hyphen (c : N) : Prop := (48 <= c /\ c <= 57) \/ c = 45.

(** [wp m Q w]: the computation [m] run in the world [w] ends in an
    outcome and a world that [Q] holds of. *)
Definition wp {A} (m : M A) (Q : outcome A -> world -> Prop) (w : world)
  : Prop :=
  Q (m w).1 (m w).2.

(** The world after the [catch] of a handler has logged an error. *)
Definition with_error (w : world) (label : string) (e : exn) : world :=
  {| fs := fs w; store := store w;
     console := console w ++ [LogError (lit label) e] |}.

(** Every node of [fs0] is a node of [fs1]. *)
Definition kept (fs0 fs1 : Fs.filesystem) : Prop :=
  forall q n, Fs.nodes fs0 !! q = Some n -> Fs.nodes fs1 !! q = Some n.

(** Every node of [fs1] is a node of [fs0] or a directory. *)
Definition grown (fs0 fs1 : Fs.filesystem) : Prop :=
  forall q n,
    Fs.nodes fs1 !! q = Some n -> Fs.nodes fs0 !! q = Some n \/ n = Fs.Dir.

(** A directory that is there or can be made. *)
Definition makeable (fs : Fs.filesystem) (d : jsstring) : Prop :=
  Fs.nodes fs !! d = Some Fs.Dir
  \/ (Fs.nodes fs !! d = None /\ (d ∉ Fs.readonly fs)).

(** A place that can take a file: no directory is in its place, the
    system does not refuse to write it, and every directory above it is
    there or can be made. *)
Definition writable `{Platform} (fs : Fs.filesystem) (dest : jsstring) : Prop :=
  Fs.nodes fs !! dest <> Some Fs.Dir
  /\ (dest ∉ Fs.readonly fs)
  /\ Forall (makeable fs) (Fs.ancestors dest).

(** What [create_project] has answered and done, by its three kinds of
    answer. *)
Definition create_project_post `{Platform}
    (path_resolve : jsstring -> jsstring) (positive_string : jsstring -> bool)
    (env : Env) (body : value) (w : world) (r : reply) (w' : world) : Prop :=
  let complete :=
    truthy (field body "projectName") && truthy (field body "savePath") in
  store w' = store w
  /\ match r with
     | Refused code _ =>
         if Nat.eqb code 400
         then complete = false /\ w' = w
         else code = 500%nat /\ complete = true /\ kept (fs w) (fs w')
     | Created projectPath folderName savePath studentInfoPath =>
         complete = true
         /\ (exists name save,
               field body "projectName" = VStr name
               /\ field body "savePath" = VStr save
               /\ savePath = path_resolve save
               /\ folderName = generateFolderName (now env) name
               /\ projectPath = path_join [savePath; folderName])
         /\ Fs.nodes (fs w') !! path_join [projectPath; lit "1.INSTALLATION"]
            = Some Fs.Dir
         /\ Fs.nodes (fs w') !! path_join [projectPath; lit "2.README"]
            = Some Fs.Dir
         /\ Fs.nodes (fs w') !! path_join [projectPath; lit "3.SOURCE"]
            = Some Fs.Dir
         /\ (forall q n,
               Fs.nodes (fs w) !! q = Some n ->
               studentInfoPath <> Some q ->
               Fs.nodes (fs w') !! q = Some n)
         /\ (if has_members positive_string (field body "teamMembers")
             then exists text,
                    fallback_studentInfo env (field body "projectName")
                      (field body "teamMembers") = Ok text
                    /\ studentInfoPath
                       = Some (path_join [projectPath; lit "student-info.txt"])
                    /\ Fs.nodes (fs w')
                         !! path_join [projectPath; lit "student-info.txt"]
                       = Some (Fs.File (utf8 text))
             else studentInfoPath = None)
     | _ => False
     end.

(** What [complete_project] has answered and done. *)
Definition complete_project_post `{Platform}
    (env : Env) (body : value) (w : world) (r : response) (w' : world) : Prop :=
  let projectName := field body "projectName" in
  let teamMembers := field body "teamMembers" in
  let complete :=
    truthy projectName && truthy teamMembers
    && truthy (field body "projectPath") in
  match r with
  | RFail code _ =>
      if Nat.eqb code 400
      then complete = false /\ w' = w
      else code = 500%nat /\ complete = true /\ kept (fs w) (fs w')
  | RCompleted projectData =>
      complete = true
      /\ exists built,
           new_projectData env projectName teamMembers
             (field body "projectPath") (field body "folderName")
             (field body "readmeFile") (field body "installationFile")
             (field body "sourceFile") = Ok built
           /\ let existing :=
                List.find (same_project projectName (projectPath built))
                  (store w) in
              let saved :=
                match existing with
                | Some e => with_identity built (id e) (timestamp e)
                | None => built
                end in
              let studentInfoPath :=
                path_join [projectPath built; lit "student-info.txt"] in
              let infoPath :=
                path_join [projectPath built; lit "project-info.json"] in
              let sidecar :=
                Fs.File (utf8 (Json.document (record_value projectData))) in
              store w'
              = match existing with
                | Some e => (Db.updateProject (id e) saved (store w)).2 ++ [saved]
                | None => (store w ++ [built]) ++ [built]
                end
              /\ exists size,
                   projectData = with_studentInfo saved studentInfoPath size
                   /\ match Fs.nodes (fs w) !! studentInfoPath with
                      | Some (Fs.File bytes) =>
                          size = N.of_nat (length bytes)
                          /\ Fs.nodes (fs w')
                             = <[infoPath := sidecar]> (Fs.nodes (fs w))
                      | Some Fs.Dir =>
                          size = Fs.dir_size (fs w) studentInfoPath
                          /\ Fs.nodes (fs w')
                             = <[infoPath := sidecar]> (Fs.nodes (fs w))
                      | None =>
                          exists text,
                            fallback_studentInfo env projectName teamMembers
                            = Ok text
                            /\ size = N.of_nat (length text)
                            /\ Fs.nodes (fs w')
                               = <[infoPath := sidecar]>
                                   (<[studentInfoPath := Fs.File (utf8 text)]>
                                      (Fs.nodes (fs w)))
                      end
  | _ => False
  end.

(** ** More sample requests and worlds *)

Module Scenario.

(** [path.resolve] for the server of [Sample.platform], started in its own
    directory. *)
Definition resolve : jsstring -> jsstring := posix_resolve (lit "/srv/portal").

(** The sample requests compare no string with a number. *)
Definition no_string : jsstring -> bool := fun _ => false.

(** A library that sends every file. *)
Definition sends_all : Fs.filesystem -> jsstring -> option exn :=
  fun _ _ => None.

(** A disk with nothing on it, and nothing stored. *)
Definition empty : world :=
  {| fs := {| Fs.nodes := ∅; Fs.readonly := ∅; Fs.dir_size := fun _ => 4096 |};
     store := []; console := [] |}.

(** The body of a create-project request with one team member. *)
Definition creation : value :=
  VObj [(lit "projectName", VStr (lit "Test App"));
        (lit "savePath", VStr (lit "/projects"));
        (lit "teamMembers",
         VArr [VObj [(lit "name", VStr Sample.zoe);
                     (lit "usn", VStr (lit "1RV21"))]])].

(** The folder that [creation] leads to in the morning of the sample
    day. *)
Definition test_app : jsstring :=
  lit "/projects/Test_App_2025-03-09_04-05-06".

(** The world after [creation]. *)
Definition created : world :=
  (create_project (H := Sample.platform) resolve no_string Sample.first_env
     creation empty).2.

(** The body of the complete-project request that follows. *)
Definition completion : value :=
  VObj [(lit "projectName", VStr (lit "Test App"));
        (lit "teamMembers",
         VArr [VObj [(lit "name", VStr Sample.zoe);
                     (lit "usn", VStr (lit "1RV21"))]]);
        (lit "projectPath", VStr test_app);
        (lit "folderName", VStr (lit "Test_App_2025-03-09_04-05-06"));
        (lit "readmeFile",
         VObj [(lit "name", VStr (lit "ReadMe.md")); (lit "size", VNum 3)]);
        (lit "installationFile",
         VObj [(lit "name", VStr (lit "installation.pdf")); (lit "size", VNum 5)]);
        (lit "sourceFile", VObj [(lit "size", VNum 7)])].

(** A README of three bytes for the project of [test_app]. *)
Definition readme : UploadRequest :=
  {| parts := [ {| part_fieldname := "readme";
                   part_originalname := lit "notes.md";
                   part_content := [35; 32; 65] |} ];
     body_projectPath := Some test_app |}.

(** The world after the README has been uploaded into the created
    project, and after the project has been completed. *)
Definition uploaded : world :=
  (upload_readme (H := Sample.platform) Sample.first_env readme created).2.

Definition completed : world :=
  (complete_project (H := Sample.platform) Sample.second_env completion
     uploaded).2.

(** A record of an older version, without an entry for the student
    information, and its folder with the two files of the older
    versions. *)
Definition legacy : world :=
  {| fs := {| Fs.nodes :=
                list_to_map
                  [(lit "/old", Fs.Dir); (lit "/old/a", Fs.Dir);
                   (lit "/old/a/4.Student-info.txt", Fs.File [49]);
                   (lit "/old/a/student-info.txt", Fs.File [50])];
              Fs.readonly := ∅; Fs.dir_size := fun _ => 4096 |};
     store := [Sample.old_project "a"];
     console := [] |}.

(** A project in the numbered layout, with nobody in its team. *)
Definition numbered : world :=
  {| fs := {| Fs.nodes :=
                list_to_map
                  [(lit "/old", Fs.Dir); (lit "/old/a", Fs.Dir);
                   (lit "/old/a/1.INSTALLATION", Fs.Dir);
                   (lit "/old/a/2.README", Fs.Dir); (lit "/old/a/3.SOURCE", Fs.Dir)];
              Fs.readonly := ∅; Fs.dir_size := fun _ => 4096 |};
     store := [Sample.old_project "a"];
     console := [] |}.

(** A README of one byte more than 50 MiB. *)
Definition large_part : Part :=
  {| part_fieldname := "readme";
     part_originalname := lit "big.bin";
     part_content := replicate (N.to_nat 52428801) 0 |}.

Definition large : UploadRequest :=
  {| parts := [large_part]; body_projectPath := Some (lit "/projects/app") |}.

(** The record that a response carries, when it carries one. *)
Definition record_of (r : response) : ProjectRecord :=
  match r with
  | RCompleted projectData => projectData
  | _ => Sample.old_project "none"
  end.

(** The record of the first completion of [Sample.submission], by Ada and
    by Zoe, on the disk of [Sample.fresh], and the record of [completion]
    after [creation] and the upload of [readme]. *)
Definition first_record : ProjectRecord :=
  record_of (complete_project (H := Sample.platform) Sample.first_env
               (Sample.submission (lit "Ada") 10) Sample.fresh).1.

Definition zoe_record : ProjectRecord :=
  record_of (complete_project (H := Sample.platform) Sample.first_env
               (Sample.submission Sample.zoe 10) Sample.fresh).1.

Definition final_record : ProjectRecord :=
  record_of (complete_project (H := Sample.platform) Sample.second_env
               completion uploaded).1.

(** The bytes of a file on a disk. *)
Definition bytes_at (w : world) (p : jsstring) : list N :=
  match Fs.nodes (fs w) !! p with
  | Some (Fs.File bytes) => bytes
  | _ => []
  end.

End Scenario.

(** The folder [oldName] of a project needs no renaming: it is not there,
    or the folder [newName] is. *)
Definition renamed `{Platform} (w : world) (project : ProjectRecord)
    (oldName newName : string) : Prop :=
  Fs.existsSync (fs w) (path_join [projectPath project; lit oldName]) = false
  \/ Fs.existsSync (fs w) (path_join [projectPath project; lit newName]) = true.

(** A project that the migration has nothing to do for: its folder is not
    on disk, or its three folders need no renaming and its
    [student-info.txt] is there or it has no team members to write. *)
Definition settled `{Platform} (w : world) (project : ProjectRecord) : Prop :=
  Fs.existsSync (fs w) (projectPath project) = false
  \/ (renamed w project "README" "2.README"
      /\ renamed w project "INSTALLATION" "1.INSTALLATION"
      /\ renamed w project "SOURCE" "3.SOURCE"
      /\ (Fs.existsSync (fs w)
            (path_join [projectPath project; lit "student-info.txt"]) = true
          \/ teamMembers project = [])).

(** The files of older versions that stand in for a missing entry of
    [files], by file type. *)
Definition legacy_names : list (jsstring * string) :=
  [(lit "studentInfo", "4.Student-info.txt"%string);
   (lit "studentInfo", "student-info.txt"%string);
   (lit "teamMembers", "team-members.txt"%string)].

(** The end of a download that has found [filePath] on disk: the file is
    sent under [fileName], or the callback of [res.download] answers
    500. *)
Definition sent `{Platform} (send_error : Fs.filesystem -> jsstring -> option exn)
    (fs : Fs.filesystem) (filePath : jsstring) (fileName : value) : reply :=
  match res_download send_error fs filePath with
  | None => Download filePath fileName
  | Some _ => Refused 500 (Message "Error downloading file")
  end.

(** What the download of one file has answered and done. *)
Definition download_file_post `{Platform}
    (send_error : Fs.filesystem -> jsstring -> option exn)
    (projectId fileType : jsstring)
    (w : world) (r : reply) (w' : world) : Prop :=
  match r with
  | Refused code _ =>
      (code = 404%nat /\ w' = w)
      \/ (code = 500%nat
          /\ exists filePath e,
               Fs.existsSync (fs w) filePath = true
               /\ res_download send_error (fs w) filePath = Some e
               /\ w' = with_error w "Error downloading file:" e)
  | Download filePath fileName =>
      w' = w
      /\ filePath <> []
      /\ res_download send_error (fs w) filePath = None
      /\ exists project,
           Db.getProjectById (VStr projectId) (store w) = Some project
           /\ ((exists fileData,
                  file_of (files project) (VStr fileType) = Some fileData
                  /\ filePath = file_path fileData
                  /\ fileName = file_name fileData)
               \/ (file_of (files project) (VStr fileType) = None
                   /\ exists name,
                        (fileType, name) ∈ legacy_names
                        /\ filePath
                           = path_join [projectPath project; lit name]
                        /\ fileName = VStr (lit name)))
  | _ => False
  end.

(** * Properties *)

(** ** Folder names *)

Lemma replace_class_forbidden_safe (s : jsstring) :
  Forall safe (replace_class forbidden 95 s).
Proof.
  unfold replace_class. apply Forall_fmap, Forall_forall. intros c _.
  unfold safe. simpl. destruct (forbidden c) eqn:E; [reflexivity | exact E].
Qed.

Lemma replace_runs_from_Forall (P : N -> Prop) cls r in_run (s : jsstring) :
  P r -> Forall P s -> Forall P (replace_runs_from cls r in_run s).
Proof.
  intros Hr Hs. revert in_run.
  induction Hs as [|c s Hc Hs IH]; intros in_run; simpl; [constructor|].
  destruct (cls c); [destruct in_run|]; auto.
Qed.

Lemma replace_first_Forall (P : N -> Prop) c r (s : jsstring) :
  P r -> Forall P s -> Forall P (replace_first c r s).
Proof.
  intros Hr Hs. induction Hs as [|x s Hx Hs IH]; simpl; [constructor|].
  destruct (x =? c); auto.
Qed.

Lemma uint_units_safe (u : Decimal.uint) : Forall safe (uint_units u).
Proof. induction u; simpl; constructor; auto; reflexivity. Qed.

Lemma pad0_decimal_safe (w : nat) (n : N) : Forall safe (pad0 w (decimal n)).
Proof.
  unfold pad0, decimal. apply Forall_app. split.
  - apply Forall_replicate. reflexivity.
  - apply uint_units_safe.
Qed.

Lemma toISOString_units (d : Date) : Forall iso_unit (toISOString d).
Proof.
  assert (Hpad : forall w n, Forall iso_unit (pad0 w (decimal n))).
  { intros w n. eapply Forall_impl; [apply pad0_decimal_safe|].
    intros c Hc. left. exact Hc. }
  assert (Hsafe : forall c, forbidden c = false -> iso_unit c)
    by (intros c Hc; left; exact Hc).
  unfold toISOString. destruct (year d <=? 9999);
  repeat first
    [ apply Hpad
    | apply Forall_app; split
    | apply Forall_cons; split
    | apply Forall_nil; exact I
    | (apply Hsafe; reflexivity)
    | (right; reflexivity) ].
Qed.

Lemma folder_timestamp_safe (d : Date) : Forall safe (folder_timestamp d).
Proof.
  unfold folder_timestamp, substring0. apply Forall_take.
  apply replace_first_Forall; [reflexivity|].
  unfold replace_class. apply Forall_fmap.
  eapply Forall_impl; [apply toISOString_units|].
  intros c [Hc | ->]; simpl; [|reflexivity].
  destruct ((c =? 58) || (c =? 46)) eqn:E; [reflexivity | exact Hc].
Qed.

Lemma cleanProjectName_safe (name : jsstring) : Forall safe (cleanProjectName name).
Proof.
  unfold cleanProjectName, substring0, replace_runs. apply Forall_take.
  apply replace_runs_from_Forall; [reflexivity|].
  apply replace_class_forbidden_safe.
Qed.

(** C4: for every project name (and every date), the folder name holds
    none of the nine forbidden characters; it is the cleaned name, an
    underscore and the timestamp, and the cleaned name has at most 50
    characters. *)
Theorem generateFolderName_safe_and_bounded (d : Date) (name : jsstring) :
  Forall (fun c => forbidden c = false) (generateFolderName d name)
  /\ (forall c, c ∈ lit "<>:/\|?*" ++ [34] -> c ∉ generateFolderName d name)
  /\ generateFolderName d name
     = cleanProjectName name ++ lit "_" ++ folder_timestamp d
  /\ (length (cleanProjectName name) <= 50)%nat.
Proof.
  assert (Hall : Forall safe (generateFolderName d name)).
  { unfold generateFolderName. apply Forall_app. split.
    - apply cleanProjectName_safe.
    - apply Forall_cons. split; [reflexivity | apply folder_timestamp_safe]. }
  split; [exact Hall|]. split; [|split].
  - intros c Hc Hin.
    rewrite Forall_forall in Hall. specialize (Hall c Hin).
    unfold safe in Hall.
    cbn in Hc. rewrite !elem_of_cons in Hc. rewrite elem_of_nil in Hc.
    destruct Hc as [->|[->|[->|[->|[->|[->|[->|[->|[->|[]]]]]]]]]];
      discriminate Hall.
  - reflexivity.
  - unfold cleanProjectName, substring0. rewrite length_take. lia.
Qed.

(** ** The monad *)

Lemma keeps_store_ret {A} (a : A) : keeps_store (ret a).
Proof. intros w o w' E. injection E as _ <-. reflexivity. Qed.

Lemma keeps_store_read_fs {A} (f : Fs.filesystem -> A) : keeps_store (read_fs f).
Proof. intros w o w' E. injection E as _ <-. reflexivity. Qed.

Lemma keeps_store_change_fs op : keeps_store (change_fs op).
Proof.
  intros w o w' E. unfold change_fs in E.
  destruct (op (fs w)); injection E as _ <-; reflexivity.
Qed.

Lemma keeps_store_bind {A B} (m : M A) (k : A -> M B) :
  keeps_store m -> (forall a, keeps_store (k a)) -> keeps_store (bind m k).
Proof.
  intros Hm Hk w o w' E. unfold bind in E.
  destruct (m w) as [[a|e] w1] eqn:Em.
  - rewrite (Hk a _ _ _ E). exact (Hm _ _ _ Em).
  - injection E as _ <-. exact (Hm _ _ _ Em).
Qed.

Ltac keeps :=
  repeat first
    [ apply keeps_store_ret | apply keeps_store_read_fs
    | apply keeps_store_change_fs
    | apply keeps_store_bind; [|intros ?]
    | match goal with
      | |- keeps_store (if ?b then _ else _) => destruct b
      end ].

(** ** The migration of old folders *)

Section Migration.
Context `{Platform}.

Lemma rename_folder_keeps_store project oldName newName :
  keeps_store (rename_folder project oldName newName).
Proof. unfold rename_folder. keeps. Qed.

Lemma backfill_studentInfo_keeps_store env project :
  keeps_store (backfill_studentInfo env project).
Proof. unfold backfill_studentInfo. keeps. Qed.

(** What one pass of the loop body does to the store: a project is
    counted exactly when [updateProject] has been called for it; a project
    that is skipped or whose update throws is left as it is. *)
Lemma update_folder_store env project w o w1 :
  update_folder env project w = (o, w1) ->
  match o with
  | Ok true =>
      exists updatedProject,
        store w1 = (Db.updateProject (id project) updatedProject (store w)).2
  | Ok false | Throw _ => store w1 = store w
  end.
Proof.
  unfold update_folder. intros E.
  unfold bind at 1 in E. simpl in E.
  destruct (Fs.existsSync (fs w) (projectPath project));
    [|injection E as <- <-; reflexivity].
  unfold bind in E.
  destruct (rename_folder _ _ _ w) as [[b1|e1] w2] eqn:E1.
  2:{ injection E as <- <-. exact (rename_folder_keeps_store _ _ _ _ _ _ E1). }
  destruct (rename_folder _ _ _ w2) as [[b2|e2] w3] eqn:E2.
  2:{ injection E as <- <-.
      rewrite (rename_folder_keeps_store _ _ _ _ _ _ E2).
      exact (rename_folder_keeps_store _ _ _ _ _ _ E1). }
  destruct (rename_folder _ _ _ w3) as [[b3|e3] w4] eqn:E3.
  2:{ injection E as <- <-.
      rewrite (rename_folder_keeps_store _ _ _ _ _ _ E3).
      rewrite (rename_folder_keeps_store _ _ _ _ _ _ E2).
      exact (rename_folder_keeps_store _ _ _ _ _ _ E1). }
  assert (Hs4 : store w4 = store w).
  { rewrite (rename_folder_keeps_store _ _ _ _ _ _ E3).
    rewrite (rename_folder_keeps_store _ _ _ _ _ _ E2).
    exact (rename_folder_keeps_store _ _ _ _ _ _ E1). }
  destruct (backfill_studentInfo env project w4) as [[r|e4] w5] eqn:E4.
  2:{ injection E as <- <-.
      rewrite (backfill_studentInfo_keeps_store _ _ _ _ _ E4). exact Hs4. }
  assert (Hs5 : store w5 = store w).
  { rewrite (backfill_studentInfo_keeps_store _ _ _ _ _ E4). exact Hs4. }
  destruct (b1 || b2 || b3 || bool_decide (is_Some r)).
  - unfold change_store in E.
    destruct (Db.updateProject _ _ (store w5)) as [found records] eqn:Eupdate.
    injection E as <- <-. exists (default project r).
    rewrite <- Hs5, Eupdate. reflexivity.
  - injection E as <- <-. exact Hs5.
Qed.

(** The loop runs over every project, whatever each one does. *)
Lemma update_folders_migrates env projects :
  forall updatedCount w,
  exists n w',
    migrates env projects w n w'
    /\ update_folders env projects updatedCount w = (Ok (updatedCount + n)%nat, w').
Proof.
  induction projects as [|project rest IH]; intros updatedCount w.
  - exists 0%nat, w. split; [constructor|].
    simpl. unfold ret. rewrite Nat.add_0_r. reflexivity.
  - simpl. unfold bind at 1, try_catch.
    destruct (update_folder env project w) as [[[|]|e] w1] eqn:E.
    + destruct (IH (S updatedCount) w1) as (n & w' & Hrun & Heq).
      exists (S n), w'. split; [eapply migrates_updated; eassumption|].
      rewrite Heq. f_equal. f_equal. lia.
    + destruct (IH updatedCount w1) as (n & w' & Hrun & Heq).
      exists n, w'. split; [eapply migrates_unchanged; eassumption|].
      exact Heq.
    + destruct (IH updatedCount (logged w1 project e)) as (n & w' & Hrun & Heq).
      exists n, w'. split; [eapply migrates_failed; eassumption|].
      exact Heq.
Qed.

(** C7: the migration answers with success and a count whatever happens
    to single projects: the run goes through every stored project in
    order; a project whose update throws is logged and left as it is in the
    store, and the run goes on with the next one; the count is the number
    of projects for which [updateProject] has been called. *)
Theorem update_existing_folders_isolates_failures env w :
  (exists n w',
     update_existing_folders env w = (RMigrated n, w')
     /\ status (RMigrated n) = 200%nat /\ success (RMigrated n) = true
     /\ migrates env (store w) w n w'
     /\ (n <= length (store w))%nat)
  /\ (forall project w0 o w1,
        update_folder env project w0 = (o, w1) ->
        match o with
        | Ok true =>
            exists updatedProject,
              store w1
              = (Db.updateProject (id project) updatedProject (store w0)).2
        | Ok false | Throw _ => store w1 = store w0
        end).
Proof.
  split; [|exact (update_folder_store env)].
  destruct (update_folders_migrates env (store w) 0 w) as (n & w' & Hrun & Heq).
  exists n, w'. split; [|split; [reflexivity|split; [reflexivity|split]]].
  - unfold update_existing_folders, respond, bind, read_store, Db.getAllProjects.
    rewrite Heq. reflexivity.
  - exact Hrun.
  - clear Heq. induction Hrun; simpl; lia.
Qed.

End Migration.

(** ** Uploads *)

Lemma ignores_store_ret {A} (a : A) : ignores_store (ret a).
Proof. intros w s. reflexivity. Qed.

Lemma ignores_store_throw {A} e : ignores_store (@throw A e).
Proof. intros w s. reflexivity. Qed.

Lemma ignores_store_change_fs op : ignores_store (change_fs op).
Proof.
  intros w s. unfold change_fs. simpl. destruct (op (fs w)); reflexivity.
Qed.

Lemma ignores_store_bind {A B} (m : M A) (k : A -> M B) :
  ignores_store m -> (forall a, ignores_store (k a)) -> ignores_store (bind m k).
Proof.
  intros Hm Hk w s. unfold bind. rewrite Hm.
  destruct (m w) as [[a|e] w1]; simpl; [apply Hk | reflexivity].
Qed.

Ltac ignores :=
  repeat first
    [ apply ignores_store_ret | apply ignores_store_throw
    | apply ignores_store_change_fs
    | apply ignores_store_bind; [|intros ?]
    | match goal with
      | |- ignores_store (if ?b then _ else _) => destruct b
      | |- ignores_store (match ?x with _ => _ end) => destruct x
      end ].

(** ** The filesystem *)

Lemma kept_refl fs0 : kept fs0 fs0.
Proof. intros q n Hq. exact Hq. Qed.

Lemma kept_trans fs0 fs1 fs2 : kept fs0 fs1 -> kept fs1 fs2 -> kept fs0 fs2.
Proof. intros H01 H12 q n Hq. apply H12, H01, Hq. Qed.

Lemma grown_refl fs0 : grown fs0 fs0.
Proof. intros q n Hq. left. exact Hq. Qed.

Lemma grown_trans fs0 fs1 fs2 : grown fs0 fs1 -> grown fs1 fs2 -> grown fs0 fs2.
Proof.
  intros H01 H12 q n Hq. destruct (H12 _ _ Hq) as [H1| ->].
  - exact (H01 _ _ H1).
  - right. reflexivity.
Qed.

Section FilesystemFacts.
Context `{Platform}.

Lemma kept_existsSync fs0 fs1 q :
  kept fs0 fs1 -> Fs.existsSync fs0 q = true -> Fs.existsSync fs1 q = true.
Proof.
  unfold Fs.existsSync. intros Hk Hq. apply bool_decide_eq_true in Hq.
  destruct Hq as [n Hn]. apply bool_decide_eq_true. exists n. exact (Hk _ _ Hn).
Qed.

Lemma remove_tree_outside (root : jsstring) (m : gmap jsstring Fs.node)
    (q : jsstring) :
  Fs.under root q = false -> Fs.remove_tree root m !! q = m !! q.
Proof.
  intros Hout. unfold Fs.remove_tree. apply option_eq. intros n.
  rewrite map_lookup_filter_Some. simpl. tauto.
Qed.

Lemma under_itself (root : jsstring) : Fs.under root root = true.
Proof. unfold Fs.under. rewrite bool_decide_eq_true_2 by reflexivity. reflexivity. Qed.

(** [mkdir] adds a directory where nothing is and changes nothing
    else. *)
Lemma mkdir_Ok code p fs0 fs1 :
  Fs.mkdir code p fs0 = Ok fs1 ->
  Fs.nodes fs1 !! p = Some Fs.Dir
  /\ kept fs0 fs1 /\ grown fs0 fs1
  /\ Fs.readonly fs1 = Fs.readonly fs0
  /\ (forall q, q <> p -> Fs.nodes fs1 !! q = Fs.nodes fs0 !! q).
Proof.
  unfold Fs.mkdir. destruct (Fs.nodes fs0 !! p) as [[|]|] eqn:Ep;
    try discriminate.
  - intros [= <-]. repeat split; auto using kept_refl, grown_refl.
  - case_bool_decide; [discriminate|]. intros [= <-].
    unfold Fs.with_nodes, kept, grown. simpl. repeat split.
    + apply lookup_insert_eq.
    + intros q n Hq. destruct (decide (p = q)) as [<-|Hne]; [congruence|].
      rewrite lookup_insert_ne by exact Hne. exact Hq.
    + intros q n. destruct (decide (p = q)) as [<-|Hne].
      * rewrite lookup_insert_eq. intros [= <-]. right. reflexivity.
      * rewrite lookup_insert_ne by exact Hne. intros Hq. left. exact Hq.
    + intros q Hne. apply lookup_insert_ne. congruence.
Qed.

Lemma mkdirs_Ok ps fs0 fs1 :
  Fs.mkdirs ps fs0 = Ok fs1 ->
  kept fs0 fs1 /\ grown fs0 fs1
  /\ Fs.readonly fs1 = Fs.readonly fs0
  /\ (forall q, q ∉ ps -> Fs.nodes fs1 !! q = Fs.nodes fs0 !! q).
Proof.
  revert fs0. induction ps as [|p ps IH]; intros fs0; cbn [Fs.mkdirs].
  - intros [= <-]. repeat split; auto using kept_refl, grown_refl.
  - destruct (Fs.mkdir "ENOTDIR" p fs0) as [fs'|e] eqn:E1; [|discriminate].
    intros E2.
    destruct (mkdir_Ok _ _ _ _ E1) as (_ & K1 & G1 & R1 & S1).
    destruct (IH _ E2) as (K2 & G2 & R2 & S2).
    split; [exact (kept_trans _ _ _ K1 K2)|].
    split; [exact (grown_trans _ _ _ G1 G2)|].
    split; [congruence|].
    intros q Hq. apply not_elem_of_cons in Hq. destruct Hq as [Hne Hq].
    rewrite (S2 q Hq). apply S1. exact Hne.
Qed.

(** [ensureDir] leaves the directory in place; what it adds are
    directories where nothing was. *)
Lemma ensureDir_Ok p fs0 fs1 :
  Fs.ensureDir p fs0 = Ok fs1 ->
  Fs.nodes fs1 !! p = Some Fs.Dir /\ kept fs0 fs1
  /\ Fs.readonly fs1 = Fs.readonly fs0
  /\ grown fs0 fs1.
Proof.
  unfold Fs.ensureDir.
  destruct (Fs.mkdirs (Fs.ancestors p) fs0) as [fs'|e] eqn:E1; [|discriminate].
  intros E2.
  destruct (mkdirs_Ok _ _ _ E1) as (K1 & G1 & R1 & _).
  destruct (mkdir_Ok _ _ _ _ E2) as (D2 & K2 & G2 & R2 & _).
  split; [exact D2|]. split; [exact (kept_trans _ _ _ K1 K2)|].
  split; [congruence|]. exact (grown_trans _ _ _ G1 G2).
Qed.

(** The directories of a list can be made when each is there or can be
    made. *)
Lemma mkdirs_succeeds ps fs0 :
  Forall (makeable fs0) ps -> exists fs1, Fs.mkdirs ps fs0 = Ok fs1.
Proof.
  revert fs0. induction ps as [|p ps IH]; intros fs0 Hall; cbn [Fs.mkdirs].
  - eexists. reflexivity.
  - apply Forall_cons in Hall. destruct Hall as [Hp Hps].
    assert (E1 : exists fs', Fs.mkdir "ENOTDIR" p fs0 = Ok fs').
    { unfold Fs.mkdir. destruct Hp as [->|[-> Hw]]; [eexists; reflexivity|].
      rewrite bool_decide_eq_false_2 by exact Hw. eexists. reflexivity. }
    destruct E1 as [fs' E1]. rewrite E1. apply IH.
    destruct (mkdir_Ok _ _ _ _ E1) as (D1 & K1 & _ & R1 & S1).
    eapply Forall_impl; [exact Hps|]. intros d [Hd|[Hd Hw]].
    + left. exact (K1 _ _ Hd).
    + destruct (decide (d = p)) as [->|Hne]; [left; exact D1|].
      right. rewrite (S1 d Hne), R1. split; assumption.
Qed.

(** [writeBytes] puts the bytes at the path and changes nothing else. *)
Lemma writeBytes_Ok p bytes fs0 fs1 :
  Fs.writeBytes p bytes fs0 = Ok fs1 ->
  Fs.nodes fs1 = <[p := Fs.File bytes]> (Fs.nodes fs0)
  /\ Fs.readonly fs1 = Fs.readonly fs0
  /\ Fs.nodes fs0 !! p <> Some Fs.Dir
  /\ (p ∉ Fs.readonly fs0).
Proof.
  unfold Fs.writeBytes. destruct (Fs.parent_error fs0 p); [discriminate|].
  case_bool_decide as Hw; [discriminate|].
  destruct (Fs.nodes fs0 !! p) as [[|]|]; try discriminate;
    intros [= <-]; repeat split; try assumption; discriminate.
Qed.

(** [writeFile] puts the UTF-8 bytes of the text at the path and changes
    nothing else. *)
Lemma writeFile_Ok p data fs0 fs1 :
  Fs.writeFile p data fs0 = Ok fs1 ->
  Fs.nodes fs1 = <[p := Fs.File (utf8 data)]> (Fs.nodes fs0)
  /\ Fs.readonly fs1 = Fs.readonly fs0.
Proof.
  unfold Fs.writeFile. intros E.
  destruct (writeBytes_Ok _ _ _ _ E) as (Hn & Hr & _). split; assumption.
Qed.

(** A file moved over whatever is at the destination: it is there and no
    longer at its source; the other nodes that were on disk, what was at or
    below the destination apart, are as they were, and what is new besides
    are directories. *)
Lemma move_file_Ok src dst bytes fs0 fs1 :
  Fs.nodes fs0 !! src = Some (Fs.File bytes) ->
  Fs.move src dst true fs0 = Ok fs1 ->
  Fs.nodes fs1 !! dst = Some (Fs.File bytes)
  /\ Fs.readonly fs1 = Fs.readonly fs0
  /\ Fs.nodes fs1 !! src = None
  /\ (forall q n,
        Fs.nodes fs0 !! q = Some n -> q <> src -> Fs.under dst q = false ->
        Fs.nodes fs1 !! q = Some n)
  /\ (forall q n,
        Fs.nodes fs1 !! q = Some n ->
        q = dst \/ Fs.nodes fs0 !! q = Some n \/ n = Fs.Dir).
Proof.
  intros Hsrc. unfold Fs.move, Fs.move_error. rewrite Hsrc.
  case_bool_decide as Hsame; [discriminate|].
  destruct (Fs.nodes fs0 !! dst) as [[|]|] eqn:Hdst; try discriminate.
  all: destruct (Fs.mkdirs (Fs.ancestors dst) fs0) as [fs'|e] eqn:Edirs;
    [|discriminate].
  all: rewrite andb_false_r.
  all: case_bool_decide; [discriminate|].
  all: case_bool_decide; [discriminate|].
  all: intros [= <-]; simpl.
  all: destruct (mkdirs_Ok _ _ _ Edirs) as (K & G & R & _).
  all: split; [apply lookup_insert_eq|].
  all: split; [exact R|].
  all: split; [rewrite lookup_insert_ne by congruence; apply lookup_delete_eq|].
  all: split.
  all: try (intros q n Hq Hne Hout;
            assert (Hnotdst : dst <> q)
              by (intros <-; rewrite under_itself in Hout; discriminate Hout);
            rewrite lookup_insert_ne by exact Hnotdst;
            rewrite lookup_delete_ne by congruence;
            rewrite remove_tree_outside by exact Hout;
            exact (K _ _ Hq)).
  all: intros q n; destruct (decide (dst = q)) as [<-|Hne]; [left; reflexivity|].
  all: rewrite lookup_insert_ne by exact Hne.
  all: intros Hq; right.
  all: apply lookup_delete_Some in Hq; destruct Hq as [_ Hq].
  all: unfold Fs.remove_tree in Hq; apply map_lookup_filter_Some in Hq.
  all: destruct Hq as [Hq _].
  all: destruct (G _ _ Hq) as [Hold| ->]; [left; exact Hold | right; reflexivity].
Qed.

(** A staged file can be moved to every place that is writable. *)
Lemma move_file_succeeds src dst bytes fs0 :
  Fs.nodes fs0 !! src = Some (Fs.File bytes) ->
  src <> dst -> src ∉ Fs.readonly fs0 -> writable fs0 dst ->
  exists fs1, Fs.move src dst true fs0 = Ok fs1.
Proof.
  intros Hsrc Hne Hs (Hnodir & Hd & Habove).
  unfold Fs.move, Fs.move_error. rewrite Hsrc.
  rewrite bool_decide_eq_false_2 by exact Hne.
  destruct (mkdirs_succeeds _ _ Habove) as [fs' Edirs].
  destruct (Fs.nodes fs0 !! dst) as [[|]|] eqn:Hdst;
    [|contradiction|]; rewrite Edirs, andb_false_r;
    rewrite !bool_decide_eq_false_2 by assumption; eexists; reflexivity.
Qed.

End FilesystemFacts.

Section Uploads.
Context `{Platform}.

Lemma upload_single_ignores_store name env req :
  ignores_store (upload_single name env req).
Proof.
  unfold upload_single, destination.
  destruct (parts req) as [|part [|]]; [ignores| |ignores].
  destruct (negb _); [ignores|].
  apply ignores_store_bind; [ignores|]. intros tempDir.
  destruct (fileSize <=? _); ignores.
Qed.

(** What the middleware hands to the handler when it hands a file. *)
Lemma upload_single_staged name env req w f w1 :
  upload_single name env req w = (Ok (Some f), w1) ->
  exists part,
    parts req = [part]
    /\ part_fieldname part = name
    /\ upload_originalname f = part_originalname part
    /\ upload_size f = N.of_nat (length (part_content part))
    /\ (upload_size f < fileSize)
    /\ Fs.nodes (fs w1) !! upload_path f = Some (Fs.File (part_content part))
    /\ (upload_path f ∉ Fs.readonly (fs w1))
    /\ Fs.readonly (fs w1) = Fs.readonly (fs w)
    /\ store w1 = store w.
Proof.
  unfold upload_single, throw, ret. intros E.
  destruct (parts req) as [|part [|]]; [discriminate E| |discriminate E].
  destruct (String.eqb_spec (part_fieldname part) name) as [Hname|];
    [|discriminate E].
  simpl in E. unfold destination, bind, change_fs, ret in E.
  destruct (Fs.ensureDir _ (fs w)) as [fs1|] eqn:Edir; [|discriminate E].
  destruct (N.leb_spec fileSize (N.of_nat (length (part_content part))));
    [discriminate E|].
  simpl in E.
  destruct (Fs.writeBytes _ _ fs1) as [fs2|] eqn:Ewrite; [|discriminate E].
  injection E as <- <-.
  destruct (ensureDir_Ok _ _ _ Edir) as (_ & _ & Hro & _).
  destruct (writeBytes_Ok _ _ _ _ Ewrite) as (Hn & Hr & _ & Hw).
  exists part. simpl.
  split; [reflexivity|]. split; [exact Hname|]. split; [reflexivity|].
  split; [reflexivity|]. split; [assumption|].
  split; [rewrite Hn; apply lookup_insert_eq|].
  split; [rewrite Hr; exact Hw|]. split; [congruence | reflexivity].
Qed.

(** Without a file part the middleware does nothing. *)
Lemma upload_single_none name env req w w1 :
  upload_single name env req w = (Ok None, w1) <-> parts req = [] /\ w1 = w.
Proof.
  unfold upload_single, throw, ret. split.
  - intros E. destruct (parts req) as [|part [|]];
      [injection E as <-; split; reflexivity | | discriminate E].
    destruct (negb _); [discriminate E|].
    unfold destination, bind, change_fs, ret in E.
    destruct (Fs.ensureDir _ (fs w)); [|discriminate E].
    destruct (fileSize <=? _); [discriminate E|].
    destruct (Fs.writeBytes _ _ _); discriminate E.
  - intros [-> ->]. reflexivity.
Qed.

(** The three handlers on a file and a project path: one move. *)
Lemma handler_of_moves kind f (p : jsstring) w :
  p <> [] ->
  let name := target_of kind (path_extname (upload_originalname f)) in
  let dest := path_join [p; subfolder_of kind; name] in
  handler_of kind (Some f) (Some p) w
  = match Fs.move (upload_path f) dest true (fs w) with
    | Ok fs1 =>
        (RUploaded (key_of kind) dest name (upload_size f), set_fs w fs1)
    | Throw e =>
        (RFail 500 (Caught e),
         {| fs := fs w; store := store w;
            console := console w ++ [LogError
              (lit match kind with
                   | Readme => "Error uploading README:"
                   | Installation => "Error uploading installation file:"
                   | Source => "Error uploading source file:"
                   end) e] |})
    end.
Proof.
  intros Hp. destruct p as [|c p]; [contradiction|].
  destruct kind; simpl;
    unfold upload_readme_handler, upload_installation_handler,
      upload_source_handler, respond, bind, change_fs, ret; simpl.
  - destruct (path_extname (upload_originalname f));
      destruct (Fs.move _ _ _ _); reflexivity.
  - destruct (Fs.move _ _ _ _); reflexivity.
  - destruct (Fs.move _ _ _ _); reflexivity.
Qed.

Lemma handler_of_rejects kind file projectPath w :
  file = None \/ missing projectPath = true ->
  exists text, handler_of kind file projectPath w = (RFail 400 (Message text), w).
Proof.
  intros Hbad.
  destruct kind; simpl;
    unfold upload_readme_handler, upload_installation_handler,
      upload_source_handler, respond.
  all: destruct file as [f|]; [|eexists; reflexivity].
  all: destruct Hbad as [|Hm]; [discriminate|].
  all: rewrite Hm; eexists; reflexivity.
Qed.

Lemma endpoint_of_with_upload kind env req w :
  endpoint_of kind env req w
  = match upload_single (field_of kind) env req w with
    | (Ok file, w1) => handler_of kind file (body_projectPath req) w1
    | (Throw e, w1) => (RRejected e, w1)
    end.
Proof. destruct kind; reflexivity. Qed.

End Uploads.

Section UploadProperties.
Context `{Platform}.

Lemma not_missing (projectPath : option jsstring) :
  missing projectPath = false ->
  exists p : jsstring, projectPath = Some p /\ p <> [].
Proof.
  destruct projectPath as [[|c p]|]; try discriminate.
  intros _. eexists. split; [reflexivity | discriminate].
Qed.

(** C5: a successful upload has put the bytes of the uploaded file at the
    fixed name in the subfolder of the artifact ([installation] and the
    original extension, [ReadMe] and the original extension or
    [ReadMe.txt] without one, [project.zip]), and the response reports
    that path, that name and the number of bytes uploaded. *)
Theorem upload_places_file_under_fixed_name kind env req w :
  success (endpoint_of kind env req w).1 = true ->
  exists part p,
    parts req = [part] /\ body_projectPath req = Some p
    /\ let ext := path_extname (part_originalname part) in
       let name :=
         match kind with
         | Installation => lit "installation" ++ ext
         | Readme =>
             match ext with [] => lit "ReadMe.txt" | _ => lit "ReadMe" ++ ext end
         | Source => lit "project.zip"
         end in
       let dest := path_join [p; subfolder_of kind; name] in
       (endpoint_of kind env req w).1
       = RUploaded (key_of kind) dest name
           (N.of_nat (length (part_content part)))
       /\ Fs.nodes (fs (endpoint_of kind env req w).2) !! dest
          = Some (Fs.File (part_content part)).
Proof.
  rewrite endpoint_of_with_upload.
  destruct (upload_single _ env req w) as [[[f|]|e] w1] eqn:Eup;
    cbv beta iota.
  - destruct (missing (body_projectPath req)) eqn:Em.
    { destruct (handler_of_rejects kind (Some f) (body_projectPath req) w1)
        as [text ->]; [right; exact Em | discriminate]. }
    destruct (not_missing _ Em) as (p & Hp & Hne). rewrite Hp.
    destruct (upload_single_staged _ _ _ _ _ _ Eup)
      as (part & Hparts & _ & Hname & Hsize & _ & Hnode & _).
    pose proof (handler_of_moves kind f p w1 Hne) as Hh. simpl in Hh.
    rewrite Hh. clear Hh.
    destruct (Fs.move _ _ _ _) as [fs1|e] eqn:Emove; [|discriminate].
    intros _. exists part, p. split; [exact Hparts|]. split; [reflexivity|].
    destruct (move_file_Ok _ _ _ _ _ Hnode Emove) as (Hdst & _).
    rewrite Hname, Hsize in *. destruct kind; simpl in *; split;
      solve [reflexivity | exact Hdst].
  - destruct (handler_of_rejects kind None (body_projectPath req) w1)
      as [text ->]; [left; reflexivity | discriminate].
  - discriminate.
Qed.

(** C6, as the code has it: a request without a file part is answered
    with 400 and [success: false], and so is a request with a missing (or
    empty) [projectPath] that the upload middleware has passed on to the
    handler.  A request that the middleware refuses with an error of its
    own never reaches the handler: it gets the error response of Express,
    whatever it says of [projectPath].  No file that the middleware passes
    on is larger than 50 MiB, and a request with a larger one is not a
    success. *)
Theorem upload_incomplete_request_is_400_when_passed_on kind env req w :
  (parts req = [] ->
   status (endpoint_of kind env req w).1 = 400%nat
   /\ success (endpoint_of kind env req w).1 = false
   /\ (endpoint_of kind env req w).2 = w)
  /\ (forall file w1,
        upload_single (field_of kind) env req w = (Ok file, w1) ->
        missing (body_projectPath req) = true ->
        status (endpoint_of kind env req w).1 = 400%nat
        /\ success (endpoint_of kind env req w).1 = false
        /\ store (endpoint_of kind env req w).2 = store w)
  /\ (forall code w1,
        upload_single (field_of kind) env req w
        = (Throw (MulterError code), w1) ->
        (endpoint_of kind env req w).1 = RRejected (MulterError code)
        /\ status (endpoint_of kind env req w).1 = 500%nat)
  /\ (forall f w1,
        upload_single (field_of kind) env req w = (Ok (Some f), w1) ->
        upload_size f <= 50 * 1024 * 1024)
  /\ (forall part,
        parts req = [part] ->
        50 * 1024 * 1024 < N.of_nat (length (part_content part)) ->
        success (endpoint_of kind env req w).1 = false).
Proof.
  assert (Hpassed : forall file w1,
            upload_single (field_of kind) env req w = (Ok file, w1) ->
            file = None \/ missing (body_projectPath req) = true ->
            status (endpoint_of kind env req w).1 = 400%nat
            /\ success (endpoint_of kind env req w).1 = false
            /\ (endpoint_of kind env req w).2 = w1).
  { intros file w1 Eup Hwhy. rewrite endpoint_of_with_upload, Eup.
    destruct (handler_of_rejects kind file (body_projectPath req) w1 Hwhy)
      as [text ->].
    repeat split. }
  split; [|split; [|split; [|split]]].
  - intros Hparts. apply (Hpassed None w); [|left; reflexivity].
    apply upload_single_none. split; [exact Hparts | reflexivity].
  - intros file w1 Eup Hm.
    destruct (Hpassed file w1 Eup (or_intror Hm)) as (Hstatus & Hsuccess & ->).
    split; [exact Hstatus|]. split; [exact Hsuccess|].
    destruct file as [f|].
    + destruct (upload_single_staged _ _ _ _ _ _ Eup)
        as (_ & _ & _ & _ & _ & _ & _ & _ & _ & Hstore).
      exact Hstore.
    + apply upload_single_none in Eup. destruct Eup as [_ ->]. reflexivity.
  - intros code w1 Eup. rewrite endpoint_of_with_upload, Eup.
    split; reflexivity.
  - intros f w1 Eup.
    destruct (upload_single_staged _ _ _ _ _ _ Eup)
      as (_ & _ & _ & _ & _ & Hlt & _).
    unfold fileSize in Hlt. lia.
  - intros part Hparts Hlarge.
    destruct (success (endpoint_of kind env req w).1) eqn:Hsuccess;
      [|reflexivity].
    exfalso. revert Hsuccess. rewrite endpoint_of_with_upload.
    destruct (upload_single _ env req w) as [[[f|]|e] w1] eqn:Eup;
      cbv beta iota.
    + destruct (upload_single_staged _ _ _ _ _ _ Eup)
        as (part' & Hparts' & _ & _ & Hsize & Hlt & _).
      rewrite Hparts in Hparts'. injection Hparts' as <-.
      rewrite Hsize in Hlt. unfold fileSize in Hlt. lia.
    + apply upload_single_none in Eup. destruct Eup as [Hnone _].
      rewrite Hparts in Hnone. discriminate Hnone.
    + discriminate.
Qed.

(** C9: whatever non-empty [projectPath] the client names, and whatever
    the record store holds, a staged file goes to
    [path.join(projectPath, subfolder, name)] when that place can be
    written: nothing relates the path to a base directory or to a project
    created before, and the answer is the same for every record store. *)
Theorem upload_goes_where_the_client_says kind env req w f w1 (p : jsstring) :
  upload_single (field_of kind) env req w = (Ok (Some f), w1) ->
  body_projectPath req = Some p -> p <> [] ->
  let name := target_of kind (path_extname (upload_originalname f)) in
  let dest := path_join [p; subfolder_of kind; name] in
  dest <> upload_path f -> writable (fs w1) dest ->
  exists w',
    endpoint_of kind env req w
    = (RUploaded (key_of kind) dest name (upload_size f), w')
    /\ Fs.nodes (fs w') !! dest = Fs.nodes (fs w1) !! upload_path f
    /\ store w' = store w
    /\ forall records,
         (endpoint_of kind env req (set_store w records)).1
         = RUploaded (key_of kind) dest name (upload_size f).
Proof.
  intros Eup Hp Hne name dest Hdiff Hwritable.
  destruct (upload_single_staged _ _ _ _ _ _ Eup)
    as (part & _ & _ & _ & _ & _ & Hnode & Hsrc & Hro & Hstore).
  destruct (move_file_succeeds (upload_path f) dest _ (fs w1) Hnode)
    as [fs1 Emove]; [congruence | exact Hsrc | exact Hwritable |].
  pose proof (handler_of_moves kind f p) as Hh. simpl in Hh.
  fold name in Hh. fold dest in Hh.
  exists (set_fs w1 fs1). split; [|split; [|split]].
  - rewrite endpoint_of_with_upload, Eup, Hp, (Hh w1 Hne), Emove. reflexivity.
  - simpl. rewrite Hnode.
    exact (proj1 (move_file_Ok _ _ _ _ _ Hnode Emove)).
  - simpl. exact Hstore.
  - intros records. rewrite endpoint_of_with_upload.
    rewrite upload_single_ignores_store, Eup. simpl.
    rewrite Hp, (Hh _ Hne). simpl. rewrite Emove. reflexivity.
Qed.

End UploadProperties.

Lemma upload_places_file_under_fixed_name_witness :
  success (upload_installation (H := Sample.platform) Sample.first_env
             Sample.guide Sample.fresh).1 = true
  /\ exists part p,
       parts Sample.guide = [part] /\ body_projectPath Sample.guide = Some p
       /\ (upload_installation (H := Sample.platform) Sample.first_env
             Sample.guide Sample.fresh).1
          = RUploaded "installPath"
              (lit "/projects/app/1.INSTALLATION/installation.pdf")
              (lit "installation.pdf") 5.
Proof.
  split; [vm_compute; reflexivity|].
  destruct (upload_places_file_under_fixed_name (H := Sample.platform)
              Installation Sample.first_env Sample.guide Sample.fresh)
    as (part & p & Hparts & Hp & Hresp & _); [vm_compute; reflexivity|].
  exists part, p. split; [exact Hparts|]. split; [exact Hp|].
  vm_compute. reflexivity.
Defined.

(** The claim without the condition on the middleware does not hold: a
    request without a project path whose file part comes under another
    field name is refused by the middleware, and the answer is 500. *)
Lemma upload_incomplete_request_is_not_always_400 :
  ~ (forall kind env req w,
       parts req = [] \/ missing (body_projectPath req) = true ->
       status (endpoint_of (H := Sample.platform) kind env req w).1 = 400%nat
       /\ success (endpoint_of (H := Sample.platform) kind env req w).1
          = false).
Proof.
  intros Hclaim.
  destruct (Hclaim Readme Sample.first_env Sample.misfiled_guide Sample.fresh)
    as [Hstatus _]; [right; reflexivity|].
  vm_compute in Hstatus. discriminate Hstatus.
Qed.

(** The same for a file that comes without a project path; the staged
    file stays in the temporary directory. *)
Example upload_without_projectPath :
  let request := {| parts := parts Sample.guide; body_projectPath := None |} in
  let result :=
    upload_installation (H := Sample.platform) Sample.first_env request
      Sample.fresh in
  result.1 = RFail 400 (Message "Project path is required")
  /\ Fs.existsSync (fs result.2) (upload_path Sample.staged_guide) = true.
Proof. vm_compute. split; reflexivity. Qed.

(** A file of one byte more than the limit would be refused by the
    middleware: the limit is the number of bytes of 50 MiB. *)
Example fileSize_is_50_MiB : fileSize = 52428800 /\ fileSize = 50 * 2 ^ 20.
Proof. split; reflexivity. Qed.

Lemma upload_goes_where_the_client_says_witness :
  exists w',
    upload_installation (H := Sample.platform) Sample.first_env
      Sample.stray_guide Sample.fresh
    = (RUploaded "installPath"
         (lit "/etc/cron.d/1.INSTALLATION/installation.pdf")
         (lit "installation.pdf") 5, w')
    /\ store w' = [].
Proof.
  destruct (upload_goes_where_the_client_says (H := Sample.platform)
              Installation Sample.first_env Sample.stray_guide Sample.fresh
              Sample.staged_guide
              (upload_single (H := Sample.platform) "installation"
                 Sample.first_env Sample.stray_guide Sample.fresh).2
              (lit "/etc/cron.d"))
    as (w' & Hresp & _ & Hstore & _).
  - vm_compute. reflexivity.
  - reflexivity.
  - discriminate.
  - vm_compute. discriminate.
  - split; [vm_compute; discriminate|].
    split; [apply not_elem_of_empty|].
    assert (Habove : Fs.ancestors (H := Sample.platform)
                       (lit "/etc/cron.d/1.INSTALLATION/installation.pdf")
                     = [lit "/etc"; lit "/etc/cron.d";
                        lit "/etc/cron.d/1.INSTALLATION"])
      by (vm_compute; reflexivity).
    cbv zeta.
    change (path_join [lit "/etc/cron.d"; subfolder_of Installation;
                       target_of Installation
                         (path_extname (upload_originalname Sample.staged_guide))])
      with (lit "/etc/cron.d/1.INSTALLATION/installation.pdf").
    rewrite Habove.
    repeat (apply Forall_cons_2; [right; split;
                                    [vm_compute; reflexivity
                                    |apply not_elem_of_empty]|]).
    apply Forall_nil_2.
  - exists w'. split; [exact Hresp | exact Hstore].
Defined.

(** A failure in the middle of the batch: of three old projects the
    second one throws; the first and the third are updated and counted,
    and the error is on the console. *)
Example update_existing_folders_skips_the_locked_project :
  let result :=
    update_existing_folders (H := Sample.platform) Sample.first_env
      Sample.old_disk in
  result.1 = RMigrated 2
  /\ console result.2
     = [LogError (lit "Error updating project b:")
          (FsError "EACCES" (lit "/old/b/2.README"))]
  /\ Fs.existsSync (fs result.2) (lit "/old/a/2.README/ReadMe.txt") = true
  /\ Fs.existsSync (fs result.2) (lit "/old/a/README") = false
  /\ Fs.existsSync (fs result.2) (lit "/old/c/3.SOURCE") = true.
Proof. vm_compute. repeat split; reflexivity. Qed.

(** ** The download of a whole project *)

Lemma getProjectById_undefined (records : list ProjectRecord) :
  Db.getProjectById VUndefined records = None.
Proof. induction records as [|p rest IH]; [reflexivity | exact IH]. Qed.

(** C2, as the code has it: the handler reads [req.params.id], a name
    that the route [/api/download-project/:projectId] does not bind, so it
    looks for [undefined] in the store: whatever is stored and whatever is
    on disk, the answer is 404 "Project not found", the world is as it was
    and no archive is sent. *)
Theorem download_project_is_always_404 (projectId : jsstring) (w : world) :
  download_project projectId w = (RFail 404 (Message "Project not found"), w).
Proof.
  unfold download_project, download_project_handler, respond, bind, read_store.
  assert (Hparam : param (route_params ["projectId"%string] [projectId]) "id"
                   = VUndefined).
  { unfold param, route_params. simpl.
    rewrite lookup_insert_ne by discriminate. rewrite lookup_empty. reflexivity. }
  rewrite Hparam, getProjectById_undefined. reflexivity.
Qed.

(** The stored record and its folder are there all the while. *)
Example download_project_of_a_stored_project :
  (exists project,
     Db.getProjectById (VStr (lit "id-1")) (store Sample.submitted) = Some project
     /\ Fs.existsSync (fs Sample.submitted) (projectPath project) = true)
  /\ status (download_project (lit "id-1") Sample.submitted).1 = 404%nat.
Proof.
  split.
  - eexists. split; vm_compute; reflexivity.
  - vm_compute. reflexivity.
Qed.

(** ** The completion of a project *)

Lemma prop_throws v k e : prop v k = Throw e -> type_error e.
Proof.
  destruct v; simpl; try discriminate;
    try (destruct (String.eqb k "length"); discriminate);
    intros [= <-]; eexists; reflexivity.
Qed.

Lemma validateString_throws v e : validateString v = Throw e -> type_error e.
Proof.
  destruct v; simpl; try discriminate; intros [= <-]; eexists; reflexivity.
Qed.

Lemma map_from_throws {A} (f : nat -> value -> outcome A) :
  (forall index x e, f index x = Throw e -> type_error e) ->
  forall xs index e, map_from f index xs = Throw e -> type_error e.
Proof.
  intros Hf xs. induction xs as [|x xs IH]; intros index e; simpl;
    [discriminate|].
  destruct (f index x) as [y|e0] eqn:Ef.
  - destruct (map_from f (S index) xs) as [ys|e1] eqn:Em; [discriminate|].
    intros [= <-]. exact (IH _ _ Em).
  - intros [= <-]. exact (Hf _ _ _ Ef).
Qed.

Lemma array_map_throws {A} arr (f : nat -> value -> outcome A) e :
  (forall index x e, f index x = Throw e -> type_error e) ->
  array_map arr f = Throw e -> type_error e.
Proof.
  intros Hf. destruct arr; simpl;
    try (intros [= <-]; eexists; reflexivity).
  apply map_from_throws. exact Hf.
Qed.

Lemma obind_throws {A B} (o : outcome A) (k : A -> outcome B) e :
  obind o k = Throw e ->
  o = Throw e \/ exists a, o = Ok a /\ k a = Throw e.
Proof.
  destruct o as [a|e0]; simpl.
  - intros E. right. exists a. split; [reflexivity | exact E].
  - intros [= <-]. left. reflexivity.
Qed.

Ltac throws :=
  repeat match goal with
  | E : obind _ _ = Throw _ |- _ =>
      apply obind_throws in E; destruct E as [E | (? & _ & E)]
  | E : prop _ _ = Throw _ |- _ => exact (prop_throws _ _ _ E)
  | E : validateString _ = Throw _ |- _ => exact (validateString_throws _ _ E)
  | E : Ok _ = Throw _ |- _ => discriminate E
  end.

Section Completion.
Context `{Platform}.

Lemma described_file_throws projectPath f folder fallback e :
  described_file projectPath f folder fallback = Throw e -> type_error e.
Proof. unfold described_file. intros E. throws. Qed.

Lemma source_file_throws projectPath f e :
  source_file projectPath f = Throw e -> type_error e.
Proof. unfold source_file. intros E. throws. Qed.

(** Whatever the construction of [projectData] throws is a [TypeError]. *)
Lemma new_projectData_throws env projectName teamMembers projectPath
    folderName readmeFile installationFile sourceFile e :
  new_projectData env projectName teamMembers projectPath folderName
    readmeFile installationFile sourceFile = Throw e ->
  type_error e.
Proof.
  unfold new_projectData. intros E.
  apply obind_throws in E. destruct E as [E | (? & _ & E)].
  { eapply array_map_throws; [|exact E]. intros index x e0 E0.
    cbv beta in E0. throws. }
  apply obind_throws in E. destruct E as [E | (? & _ & E)].
  { exact (described_file_throws _ _ _ _ _ E). }
  apply obind_throws in E. destruct E as [E | (? & _ & E)].
  { exact (described_file_throws _ _ _ _ _ E). }
  apply obind_throws in E. destruct E as [E | (? & _ & E)].
  { exact (source_file_throws _ _ _ E). }
  throws.
Qed.

(** Without one of the three file objects there is no [projectData]. *)
Lemma new_projectData_needs_the_files env projectName teamMembers projectPath
    folderName readmeFile installationFile sourceFile :
  readmeFile = VUndefined \/ installationFile = VUndefined
  \/ sourceFile = VUndefined ->
  exists e,
    new_projectData env projectName teamMembers projectPath folderName
      readmeFile installationFile sourceFile = Throw e.
Proof.
  intros Habsent. unfold new_projectData.
  destruct (array_map teamMembers _) as [members|e]; [|eexists; reflexivity].
  simpl.
  destruct (described_file projectPath readmeFile _ _) as [readme|e] eqn:Er;
    [|eexists; reflexivity].
  simpl.
  destruct (described_file projectPath installationFile _ _)
    as [installation|e] eqn:Ei; [|eexists; reflexivity].
  simpl.
  destruct (source_file projectPath sourceFile) as [source|e] eqn:Es;
    [|eexists; reflexivity].
  exfalso. destruct Habsent as [-> | [-> | ->]].
  - discriminate Er.
  - discriminate Ei.
  - unfold source_file in Es.
    destruct (validateString projectPath); discriminate Es.
Qed.

(** Over an array of objects the [map] of the handler does not throw. *)
Lemma map_from_objects {A} (f : value -> value -> A) (xs : list value) :
  Forall (fun x => exists props, x = VObj props) xs ->
  forall index,
  exists ys,
    map_from (fun _ member =>
      let? name := prop member "name" in
      let? usn := prop member "usn" in
      Ok (f name usn)) index xs = Ok ys.
Proof.
  induction 1 as [|x xs [props ->] _ IH]; intros index; simpl.
  - eexists. reflexivity.
  - destruct (IH (S index)) as [ys ->]. eexists. reflexivity.
Qed.

(** C10: when [projectName], [teamMembers] and [projectPath] pass the
    check of the handler and [readmeFile], [installationFile] or
    [sourceFile] is not in the body, the handler does not answer 400: a
    [TypeError] is thrown before anything is stored or written, and the
    answer is 500 with [success: false]. *)
Theorem complete_project_without_a_file_object_is_500 env body w :
  truthy (field body "projectName") = true ->
  truthy (field body "teamMembers") = true ->
  truthy (field body "projectPath") = true ->
  field body "readmeFile" = VUndefined
  \/ field body "installationFile" = VUndefined
  \/ field body "sourceFile" = VUndefined ->
  exists what,
    (complete_project env body w).1 = RFail 500 (Caught (TypeError what))
    /\ status (complete_project env body w).1 = 500%nat
    /\ status (complete_project env body w).1 <> 400%nat
    /\ success (complete_project env body w).1 = false
    /\ store (complete_project env body w).2 = store w
    /\ fs (complete_project env body w).2 = fs w
    /\ (forall members,
          field body "teamMembers" = VArr members ->
          Forall (fun x => exists props, x = VObj props) members ->
          field body "readmeFile" = VUndefined ->
          what = "Cannot read properties of undefined"%string).
Proof.
  intros Hname Hteam Hpath Habsent.
  unfold complete_project, respond. rewrite Hname, Hteam, Hpath. simpl.
  destruct (new_projectData_needs_the_files env
              (field body "projectName") (field body "teamMembers")
              (field body "projectPath") (field body "folderName")
              _ _ _ Habsent) as [e He].
  destruct (new_projectData_throws _ _ _ _ _ _ _ _ _ He) as [what ->].
  unfold bind, lift. rewrite He. simpl.
  exists what. repeat split; try reflexivity; [discriminate|].
  intros members Hmembers Hobjects Hreadme.
  unfold new_projectData in He. rewrite Hmembers, Hreadme in He.
  unfold array_map in He.
  destruct (map_from_objects
              (fun name usn => {| member_name := name; member_usn := usn |})
              members Hobjects 0) as [ys Hys].
  rewrite Hys in He. simpl in He. injection He as <-. reflexivity.
Qed.

End Completion.

Lemma complete_project_without_a_file_object_is_500_witness :
  status (complete_project (H := Sample.platform) Sample.first_env
            Sample.without_readme Sample.fresh).1 = 500%nat
  /\ success (complete_project (H := Sample.platform) Sample.first_env
                Sample.without_readme Sample.fresh).1 = false.
Proof.
  destruct (complete_project_without_a_file_object_is_500
              (H := Sample.platform) Sample.first_env Sample.without_readme
              Sample.fresh)
    as (what & _ & Hstatus & _ & Hsuccess & _);
    [reflexivity | reflexivity | reflexivity | left; reflexivity |].
  split; [exact Hstatus | exact Hsuccess].
Defined.

Lemma keeps_store_lift {A} (o : outcome A) : keeps_store (lift o).
Proof. intros w o' w' E. injection E as _ <-. reflexivity. Qed.

Lemma keeps_store_try_fs {A} (op : Fs.filesystem -> outcome A) :
  keeps_store (try_fs op).
Proof. intros w o' w' E. injection E as _ <-. reflexivity. Qed.

Lemma respond_store label (m : M response) w :
  store (respond label m w).2 = store (m w).2.
Proof. unfold respond. destruct (m w) as [[r|e] w1]; reflexivity. Qed.

Lemma bind_store_tail {A B} (m : M A) (k : A -> M B) w :
  (forall a, keeps_store (k a)) -> store (bind m k w).2 = store (m w).2.
Proof.
  intros Hk. unfold bind. destruct (m w) as [[a|e] w1] eqn:Em; [|reflexivity].
  simpl. destruct (k a w1) as [o w2] eqn:Ek. exact (Hk a _ _ _ Ek).
Qed.

(** [updateProject] puts the patch where the first record with the
    identifier was. *)
Lemma updateProject_replaces wanted patch (records : list ProjectRecord) :
  (exists p, p ∈ records /\ id p = wanted) ->
  exists i,
    (i < length records)%nat
    /\ (Db.updateProject wanted patch records).2 !! i = Some patch
    /\ length (Db.updateProject wanted patch records).2 = length records.
Proof.
  induction records as [|q rest IH]; intros (p & Hin & Hid).
  - apply elem_of_nil in Hin. contradiction.
  - simpl. unfold units_eqb. case_bool_decide as Hq.
    + exists 0%nat. simpl. repeat split. lia.
    + apply elem_of_cons in Hin. destruct Hin as [-> | Hin]; [contradiction|].
      destruct IH as (i & Hi & Hlook & Hlen); [exists p; split; assumption|].
      destruct (Db.updateProject wanted patch rest) as [found rest'] eqn:E.
      simpl in *. exists (S i). simpl. repeat split; [lia | exact Hlook | lia].
Qed.

Section StoreAfterCompletion.
Context `{Platform}.

Lemma save_projectData_store projectName projectData w :
  exists saved w1,
    save_projectData projectName projectData w = (Ok saved, w1)
    /\ fs w1 = fs w
    /\ match List.find (same_project projectName (projectPath projectData))
               (store w) with
       | Some existingProject =>
           saved = with_identity projectData (id existingProject)
                     (timestamp existingProject)
           /\ store w1
              = (Db.updateProject (id existingProject) saved (store w)).2
                ++ [saved]
       | None =>
           saved = projectData
           /\ store w1 = (store w ++ [projectData]) ++ [projectData]
       end.
Proof.
  unfold save_projectData, bind, read_store, Db.getAllProjects.
  destruct (List.find _ (store w)) as [existingProject|].
  - unfold change_store. cbv beta iota.
    destruct (Db.updateProject _ _ (store w)) as [found records] eqn:Eupdate.
    eexists _, _. split; [reflexivity|]. split; [reflexivity|].
    split; [reflexivity|]. rewrite Eupdate. reflexivity.
  - eexists _, _. split; [reflexivity|]. split; [reflexivity|].
    split; reflexivity.
Qed.

Lemma ensure_studentInfo_keeps_store env projectName teamMembers path :
  keeps_store (ensure_studentInfo env projectName teamMembers path).
Proof.
  unfold ensure_studentInfo.
  apply keeps_store_bind; [apply keeps_store_read_fs|]. intros [|].
  - apply keeps_store_try_fs.
  - apply keeps_store_bind; [apply keeps_store_lift|]. intros ?. keeps.
Qed.

(** What the handler has done to the record store when [projectData]
    could be built: the update or the insertion, and then one more
    insertion, whatever happens afterwards. *)
Lemma complete_project_store env body w projectData :
  truthy (field body "projectName") = true ->
  truthy (field body "teamMembers") = true ->
  truthy (field body "projectPath") = true ->
  new_projectData env (field body "projectName") (field body "teamMembers")
    (field body "projectPath") (field body "folderName")
    (field body "readmeFile") (field body "installationFile")
    (field body "sourceFile") = Ok projectData ->
  store (complete_project env body w).2
  = match List.find (same_project (field body "projectName")
                       (projectPath projectData)) (store w) with
    | Some existingProject =>
        let updated :=
          with_identity projectData (id existingProject)
            (timestamp existingProject) in
        (Db.updateProject (id existingProject) updated (store w)).2 ++ [updated]
    | None => (store w ++ [projectData]) ++ [projectData]
    end.
Proof.
  intros Hname Hteam Hpath Hdata.
  unfold complete_project. rewrite respond_store, Hname, Hteam, Hpath. simpl.
  unfold bind at 1. unfold lift at 1. rewrite Hdata.
  destruct (save_projectData_store (field body "projectName") projectData w)
    as (saved & w1 & Esave & _ & Hstore).
  unfold bind at 1. rewrite Esave.
  match goal with
  | |- store (bind ?m ?k w1).2 = _ =>
      assert (Hkeep : keeps_store (bind m k))
  end.
  { apply keeps_store_bind; [apply ensure_studentInfo_keeps_store|].
    intros ?. keeps. }
  rewrite (Hkeep w1 _ _ (surjective_pairing _)).
  destruct (List.find _ (store w)) as [existingProject|].
  - destruct Hstore as [-> ->]. reflexivity.
  - destruct Hstore as [-> ->]. reflexivity.
Qed.

End StoreAfterCompletion.

Lemma twice_is_not_NoDup {A B} (f : A -> B) (l : list A) x i j :
  (i < j)%nat -> l !! i = Some x -> l !! j = Some x -> ~ NoDup (f <$> l).
Proof.
  intros Hlt Hi Hj Hnodup. rewrite NoDup_alt in Hnodup.
  assert (i = j); [|lia].
  apply (Hnodup i j (f x)); rewrite list_lookup_fmap.
  - rewrite Hi. reflexivity.
  - rewrite Hj. reflexivity.
Qed.

Section Duplicates.
Context `{Platform}.

(** C3, as the code has it: every call that gets as far as the store
    leaves the record it has built in it twice, once by the update or the
    insertion and once by the insertion that follows, so two stored
    records have one [id]. *)
Theorem complete_project_stores_the_record_twice env body w projectData :
  truthy (field body "projectName") = true ->
  truthy (field body "teamMembers") = true ->
  truthy (field body "projectPath") = true ->
  new_projectData env (field body "projectName") (field body "teamMembers")
    (field body "projectPath") (field body "folderName")
    (field body "readmeFile") (field body "installationFile")
    (field body "sourceFile") = Ok projectData ->
  (exists saved i j,
     (i < j)%nat
     /\ store (complete_project env body w).2 !! i = Some saved
     /\ store (complete_project env body w).2 !! j = Some saved)
  /\ ~ NoDup (id <$> store (complete_project env body w).2).
Proof.
  intros Hname Hteam Hpath Hdata.
  assert (Htwice : exists saved i j,
     (i < j)%nat
     /\ store (complete_project env body w).2 !! i = Some saved
     /\ store (complete_project env body w).2 !! j = Some saved).
  { rewrite (complete_project_store env body w projectData) by assumption.
    destruct (List.find _ (store w)) as [existingProject|] eqn:Efind.
    - apply find_some in Efind. destruct Efind as [Hin _].
      apply list_elem_of_In in Hin. cbv zeta.
      destruct (updateProject_replaces (id existingProject)
                  (with_identity projectData (id existingProject)
                     (timestamp existingProject)) (store w))
        as (i & Hi & Hlook & Hlen); [exists existingProject; split; auto|].
      eexists _, i, (length (store w)). split; [exact Hi|]. split.
      + rewrite lookup_app_l by lia. exact Hlook.
      + rewrite <- Hlen. apply list_lookup_middle. reflexivity.
    - exists projectData, (length (store w)), (S (length (store w))).
      split; [lia|]. split.
      + rewrite lookup_app_l by (rewrite length_app; simpl; lia).
        apply list_lookup_middle. reflexivity.
      + apply list_lookup_middle. rewrite length_app. simpl. lia. }
  split; [exact Htwice|].
  destruct Htwice as (saved & i & j & Hlt & Hi & Hj).
  exact (twice_is_not_NoDup id _ saved i j Hlt Hi Hj).
Qed.

End Duplicates.

Lemma complete_project_stores_the_record_twice_witness :
  ~ NoDup (id <$> store (complete_project (H := Sample.platform)
                           Sample.first_env
                           (Sample.submission (lit "Ada") 10) Sample.fresh).2).
Proof.
  refine (proj2 (complete_project_stores_the_record_twice
                   (H := Sample.platform) Sample.first_env
                   (Sample.submission (lit "Ada") 10) Sample.fresh
                   _ _ _ _ _)).
  - reflexivity.
  - reflexivity.
  - reflexivity.
  - vm_compute. reflexivity.
Defined.

(** C1, as the code has it: the project [App] of [/projects/app]
    completed twice, the second time with a README of 11 bytes instead of
    10, is in the store three times: all three records have the id and the
    timestamp of the first call, and the one in the middle still has the
    file metadata of the first call. *)
Theorem complete_project_twice_leaves_three_records :
  let first :=
    complete_project (H := Sample.platform) Sample.first_env
      (Sample.submission (lit "Ada") 10) Sample.fresh in
  let second :=
    complete_project (H := Sample.platform) Sample.second_env
      (Sample.submission (lit "Ada") 11) first.2 in
  success first.1 = true /\ success second.1 = true
  /\ (fun p => (id p, timestamp p, file_size <$> files p !! "readme"%string))
       <$> filter (fun p => same_project (VStr (lit "App"))
                              (lit "/projects/app") p = true)
             (store second.2)
     = [(lit "id-1", lit "2025-03-09T04:05:06.007Z", Some (VNum 11));
        (lit "id-1", lit "2025-03-09T04:05:06.007Z", Some (VNum 10));
        (lit "id-1", lit "2025-03-09T04:05:06.007Z", Some (VNum 11))]
  /\ length (store first.2) = 2%nat
  /\ length (store second.2) = 3%nat.
Proof. vm_compute. repeat split; reflexivity. Qed.

(** C8, as the code has it: when the handler writes [student-info.txt]
    itself it records the length of the text in UTF-16 code units, not the
    size of the file.  With the team member Zoe, whose name has an accented
    letter, the record says 110 and the file has 111 bytes. *)
Theorem complete_project_records_the_length_of_the_text :
  let result :=
    complete_project (H := Sample.platform) Sample.first_env
      (Sample.submission Sample.zoe 10) Sample.fresh in
  Fs.existsSync (fs Sample.fresh) (lit "/projects/app/student-info.txt") = false
  /\ exists projectData studentInfo,
       result.1 = RCompleted projectData
       /\ files projectData !! "studentInfo"%string = Some studentInfo
       /\ file_path studentInfo = lit "/projects/app/student-info.txt"
       /\ file_size studentInfo = VNum 110
       /\ Fs.stat_size (fs result.2) (file_path studentInfo) = Ok 111.
Proof.
  split; [vm_compute; reflexivity|].
  eexists _, _. split; [vm_compute; reflexivity|].
  split; [vm_compute; reflexivity|].
  vm_compute. repeat split; reflexivity.
Qed.

(** * Further properties *)

(** ** Folder names *)

Lemma uint_units_Forall (P : N -> Prop) (u : Decimal.uint) :
  (forall c, 48 <= c -> c <= 57 -> P c) -> Forall P (uint_units u).
Proof.
  intros HP. induction u; simpl; constructor; auto; apply HP; lia.
Qed.

Lemma pad0_decimal_Forall (P : N -> Prop) (w : nat) (n : N) :
  (forall c, 48 <= c -> c <= 57 -> P c) -> Forall P (pad0 w (decimal n)).
Proof.
  intros HP. unfold pad0, decimal. apply Forall_app. split.
  - apply Forall_replicate. apply HP; lia.
  - apply uint_units_Forall. exact HP.
Qed.

Lemma digit_is_no_space c : 48 <= c -> c <= 57 -> is_space c = false.
Proof.
  intros Hlo Hhi. unfold is_space.
  repeat match goal with
         | |- context [?a <=? ?b] => destruct (N.leb_spec a b); try lia
         | |- context [?a =? ?b] => destruct (N.eqb_spec a b); try lia
         end; reflexivity.
Qed.

Lemma toISOString_no_space (d : Date) :
  Forall (fun c => is_space c = false) (toISOString d).
Proof.
  pose proof digit_is_no_space as Hdigit.
  unfold toISOString. destruct (year d <=? 9999);
  repeat first
    [ apply pad0_decimal_Forall; exact Hdigit
    | apply Forall_app; split
    | apply Forall_cons; split
    | apply Forall_nil; exact I
    | reflexivity ].
Qed.

Lemma replace_runs_from_no_class cls r in_run (s : jsstring) :
  cls r = false ->
  Forall (fun c => cls c = false) (replace_runs_from cls r in_run s).
Proof.
  intros Hr. revert in_run.
  induction s as [|c s IH]; intros in_run; simpl; [constructor|].
  destruct (cls c) eqn:Ec; [destruct in_run|]; auto.
Qed.

(** X1: the folder name holds no white space: the runs of white space of
    the project name have become underscores, and the timestamp has
    none. *)
Theorem generateFolderName_has_no_white_space (d : Date) (name : jsstring) :
  Forall (fun c => is_space c = false) (generateFolderName d name).
Proof.
  unfold generateFolderName. apply Forall_app. split.
  - unfold cleanProjectName, substring0, replace_runs. apply Forall_take.
    apply replace_runs_from_no_class. reflexivity.
  - apply Forall_cons. split; [reflexivity|].
    unfold folder_timestamp, substring0. apply Forall_take.
    apply replace_first_Forall; [reflexivity|].
    unfold replace_class. apply Forall_fmap.
    eapply Forall_impl; [apply toISOString_no_space|].
    intros c Hc. simpl. destruct ((c =? 58) || (c =? 46)); [reflexivity | exact Hc].
Qed.

Lemma below_by_enumeration (P : N -> bool) (k : N) :
  forallb (fun i => P (N.of_nat i)) (seq 0 (N.to_nat k)) = true ->
  forall n, n < k -> P n = true.
Proof.
  intros Hall n Hn. rewrite forallb_forall in Hall.
  specialize (Hall (N.to_nat n)). rewrite N2Nat.id in Hall.
  apply Hall. apply in_seq. lia.
Qed.

Lemma pad0_width (w : nat) (k : N) :
  forallb (fun i => Nat.eqb (length (pad0 w (decimal (N.of_nat i)))) w)
    (seq 0 (N.to_nat k)) = true ->
  forall n, n < k -> length (pad0 w (decimal n)) = w.
Proof.
  intros Hall n Hn. apply Nat.eqb_eq.
  exact (below_by_enumeration
           (fun n => Nat.eqb (length (pad0 w (decimal n))) w) k Hall n Hn).
Qed.

Lemma pad0_2_length n : n <= 99 -> length (pad0 2 (decimal n)) = 2%nat.
Proof.
  intros Hn. apply (pad0_width 2 100); [vm_compute; reflexivity | lia].
Qed.

Lemma pad0_4_length n : n <= 9999 -> length (pad0 4 (decimal n)) = 4%nat.
Proof.
  intros Hn. apply (pad0_width 4 10000); [vm_compute; reflexivity | lia].
Qed.

Lemma replace_class_keeps cls r (s : jsstring) :
  Forall (fun c => cls c = false) s -> replace_class cls r s = s.
Proof.
  unfold replace_class. induction 1 as [|c s Hc _ IH]; simpl; [reflexivity|].
  rewrite Hc. f_equal. exact IH.
Qed.

Lemma replace_class_app cls r (s t : jsstring) :
  replace_class cls r (s ++ t) = replace_class cls r s ++ replace_class cls r t.
Proof. unfold replace_class. apply fmap_app. Qed.

Lemma replace_first_after c r (s t : jsstring) :
  Forall (fun x => x <> c) s ->
  replace_first c r (s ++ c :: t) = s ++ r :: t.
Proof.
  induction 1 as [|x s Hx _ IH]; simpl.
  - rewrite N.eqb_refl. reflexivity.
  - destruct (N.eqb_spec x c); [contradiction|]. f_equal. exact IH.
Qed.

Lemma pad0_digits (w : nat) (n : N) (P : N -> Prop) :
  (forall c, 48 <= c -> c <= 57 -> P c) -> Forall P (pad0 w (decimal n)).
Proof. apply pad0_decimal_Forall. Qed.

Ltac flatten_lists :=
  repeat (progress (rewrite <- ?app_assoc; cbn [app])).

(** The timestamp of a calendar date: the date and the time of day to the
    second, nothing of the milliseconds. *)
Lemma folder_timestamp_format (d : Date) :
  in_range d -> folder_timestamp d = second_stamp d.
Proof.
  intros (Hy & Hm & Hd & Hh & Hmi & Hs & Hms).
  pose proof (pad0_4_length (year d) Hy) as Ly.
  pose proof (pad0_2_length (month d) ltac:(lia)) as Lm.
  pose proof (pad0_2_length (day d) ltac:(lia)) as Ld.
  pose proof (pad0_2_length (hours d) ltac:(lia)) as Lh.
  pose proof (pad0_2_length (minutes d) ltac:(lia)) as Lmi.
  pose proof (pad0_2_length (seconds d) ltac:(lia)) as Ls.
  assert (Hkeep : forall w n,
            replace_class (fun c => (c =? 58) || (c =? 46)) 45
              (pad0 w (decimal n)) = pad0 w (decimal n)).
  { intros w n. apply replace_class_keeps. apply pad0_digits.
    intros c Hlo Hhi.
    destruct (N.eqb_spec c 58); [lia|]. destruct (N.eqb_spec c 46); [lia|].
    reflexivity. }
  assert (Hno : forall w n, Forall (fun x => x <> 84) (pad0 w (decimal n))).
  { intros w n. apply pad0_digits. intros c Hlo Hhi. lia. }
  unfold folder_timestamp, toISOString, second_stamp, substring0.
  destruct (N.leb_spec (year d) 9999) as [_|]; [|lia].
  change (lit "-") with [45]. change (lit "_") with [95].
  pose proof (Hkeep 4%nat (year d)) as KY. pose proof (Hno 4%nat (year d)) as NY.
  pose proof (Hkeep 2%nat (month d)) as KMo.
  pose proof (Hno 2%nat (month d)) as NMo.
  pose proof (Hkeep 2%nat (day d)) as KDa. pose proof (Hno 2%nat (day d)) as NDa.
  pose proof (Hkeep 2%nat (hours d)) as KHo.
  pose proof (Hkeep 2%nat (minutes d)) as KMi.
  pose proof (Hkeep 2%nat (seconds d)) as KSe.
  pose proof (Hkeep 3%nat (milliseconds d)) as KMs.
  clear Hkeep Hno.
  generalize dependent (pad0 4 (decimal (year d))). intros Y Ly KY NY.
  generalize dependent (pad0 2 (decimal (month d))). intros Mo Lm KMo NMo.
  generalize dependent (pad0 2 (decimal (day d))). intros Da Ld KDa NDa.
  generalize dependent (pad0 2 (decimal (hours d))). intros Ho Lh KHo.
  generalize dependent (pad0 2 (decimal (minutes d))). intros Mi Lmi KMi.
  generalize dependent (pad0 2 (decimal (seconds d))). intros Se Ls KSe.
  generalize dependent (pad0 3 (decimal (milliseconds d))). intros Ms KMs.
  assert (Hsplit :
    Y ++ 45 :: Mo ++ 45 :: Da ++ 84 :: Ho ++ 58 :: Mi ++ 58 :: Se
      ++ 46 :: Ms ++ [90]
    = (Y ++ [45] ++ Mo ++ [45] ++ Da)
        ++ [84] ++ Ho ++ [58] ++ Mi ++ [58] ++ Se ++ [46] ++ Ms ++ [90]).
  { flatten_lists. reflexivity. }
  rewrite Hsplit. clear Hsplit.
  rewrite !replace_class_app, KY, KMo, KDa, KHo, KMi, KSe, KMs.
  change (replace_class (fun c => (c =? 58) || (c =? 46)) 45 [45]) with [45].
  change (replace_class (fun c => (c =? 58) || (c =? 46)) 45 [84]) with [84].
  change (replace_class (fun c => (c =? 58) || (c =? 46)) 45 [58]) with [45].
  change (replace_class (fun c => (c =? 58) || (c =? 46)) 45 [46]) with [45].
  change (replace_class (fun c => (c =? 58) || (c =? 46)) 45 [90]) with [90].
  change ([84] ++ Ho ++ [45] ++ Mi ++ [45] ++ Se ++ [45] ++ Ms ++ [90])
    with (84 :: Ho ++ [45] ++ Mi ++ [45] ++ Se ++ [45] ++ Ms ++ [90]).
  rewrite replace_first_after.
  2:{ apply Forall_app. split; [exact NY|].
      apply Forall_app. split; [repeat constructor; lia|].
      apply Forall_app. split; [exact NMo|].
      apply Forall_app. split; [repeat constructor; lia|]. exact NDa. }
  assert (Hjoin :
    (Y ++ [45] ++ Mo ++ [45] ++ Da)
      ++ 95 :: Ho ++ [45] ++ Mi ++ [45] ++ Se ++ [45] ++ Ms ++ [90]
    = (Y ++ [45] ++ Mo ++ [45] ++ Da ++ [95] ++ Ho ++ [45] ++ Mi ++ [45] ++ Se)
        ++ [45] ++ Ms ++ [90]).
  { flatten_lists. reflexivity. }
  rewrite Hjoin. clear Hjoin.
  apply take_app_length'.
  rewrite !length_app. simpl. lia.
Qed.

(** X2: for a calendar date the folder name is the cleaned project name,
    an underscore and [YYYY-MM-DD_HH-MM-SS]: 19 characters that give the
    time to the second. *)
Theorem generateFolderName_second_precision (d : Date) (name : jsstring) :
  in_range d ->
  generateFolderName d name = cleanProjectName name ++ lit "_" ++ second_stamp d
  /\ length (second_stamp d) = 19%nat
  /\ (length (generateFolderName d name) <= 70)%nat.
Proof.
  intros Hd. pose proof (folder_timestamp_format d Hd) as Hstamp.
  destruct Hd as (Hy & Hm & Hd & Hh & Hmi & Hs & Hms).
  assert (Hlen : length (second_stamp d) = 19%nat).
  { unfold second_stamp. rewrite !length_app.
    rewrite (pad0_4_length (year d) Hy).
    rewrite (pad0_2_length (month d)), (pad0_2_length (day d)),
      (pad0_2_length (hours d)), (pad0_2_length (minutes d)),
      (pad0_2_length (seconds d)) by lia.
    reflexivity. }
  split; [|split; [exact Hlen|]].
  - unfold generateFolderName. rewrite Hstamp. reflexivity.
  - unfold generateFolderName. rewrite Hstamp, length_app. simpl.
    rewrite Hlen. unfold cleanProjectName, substring0. rewrite length_take. lia.
Qed.

(** X3: the milliseconds do not count: two calls within one second for
    one project name give one folder name. *)
Theorem generateFolderName_collides_within_a_second (d1 d2 : Date)
    (name : jsstring) :
  in_range d1 -> in_range d2 ->
  year d1 = year d2 -> month d1 = month d2 -> day d1 = day d2 ->
  hours d1 = hours d2 -> minutes d1 = minutes d2 -> seconds d1 = seconds d2 ->
  generateFolderName d1 name = generateFolderName d2 name.
Proof.
  intros H1 H2 Ey Em Ed Eh Emi Es. unfold generateFolderName.
  rewrite (folder_timestamp_format d1 H1), (folder_timestamp_format d2 H2).
  unfold second_stamp. rewrite Ey, Em, Ed, Eh, Emi, Es. reflexivity.
Qed.

(** ** Reasoning on computations *)

Lemma wp_ret {A} (a : A) Q w : Q (Ok a) w -> wp (ret a) Q w.
Proof. intros HQ. exact HQ. Qed.

Lemma wp_throw {A} e (Q : outcome A -> world -> Prop) w :
  Q (Throw e) w -> wp (throw e) Q w.
Proof. intros HQ. exact HQ. Qed.

Lemma wp_lift {A} (o : outcome A) Q w : Q o w -> wp (lift o) Q w.
Proof. intros HQ. exact HQ. Qed.

Lemma wp_read_fs {A} (f : Fs.filesystem -> A) Q w :
  Q (Ok (f (fs w))) w -> wp (read_fs f) Q w.
Proof. intros HQ. exact HQ. Qed.

Lemma wp_try_fs {A} (op : Fs.filesystem -> outcome A) Q w :
  Q (op (fs w)) w -> wp (try_fs op) Q w.
Proof. intros HQ. exact HQ. Qed.

Lemma wp_read_store {A} (f : list ProjectRecord -> A) Q w :
  Q (Ok (f (store w))) w -> wp (read_store f) Q w.
Proof. intros HQ. exact HQ. Qed.

Lemma wp_change_fs op Q w :
  match op (fs w) with
  | Ok fs1 => Q (Ok tt) (set_fs w fs1)
  | Throw e => Q (Throw e) w
  end ->
  wp (change_fs op) Q w.
Proof.
  unfold wp, change_fs. destruct (op (fs w)); intros HQ; exact HQ.
Qed.

Lemma wp_console_log message Q w :
  Q (Ok tt) {| fs := fs w; store := store w;
               console := console w ++ [LogInfo message] |} ->
  wp (console_log message) Q w.
Proof. intros HQ. exact HQ. Qed.

Lemma wp_bind {A B} (m : M A) (k : A -> M B) Q w :
  wp m (fun o w1 =>
          match o with
          | Ok a => wp (k a) Q w1
          | Throw e => Q (Throw e) w1
          end) w ->
  wp (bind m k) Q w.
Proof.
  unfold wp, bind. destruct (m w) as [[a|e] w1]; simpl; intros HQ; exact HQ.
Qed.

Lemma wp_reply_with label (m : M reply) (P : reply -> world -> Prop) w :
  wp m (fun o w1 =>
          match o with
          | Ok r => P r w1
          | Throw e => P (Refused 500 (Caught e)) (with_error w1 label e)
          end) w ->
  P (reply_with label m w).1 (reply_with label m w).2.
Proof.
  unfold wp, reply_with. destruct (m w) as [[r|e] w1]; simpl; intros HP;
    exact HP.
Qed.

Lemma wp_respond label (m : M response) (P : response -> world -> Prop) w :
  wp m (fun o w1 =>
          match o with
          | Ok r => P r w1
          | Throw e => P (RFail 500 (Caught e)) (with_error w1 label e)
          end) w ->
  P (respond label m w).1 (respond label m w).2.
Proof.
  unfold wp, respond. destruct (m w) as [[r|e] w1]; simpl; intros HP;
    exact HP.
Qed.

(** ** The creation of a project *)

(** The answer 500 of a handler whose body has thrown. *)
Ltac answered_500 :=
  split; [reflexivity|];
  change (Nat.eqb 500 400) with false; cbv iota;
  split; [reflexivity|]; split; [reflexivity|].

Section Creation.
Context `{Platform}.
Variable path_resolve : jsstring -> jsstring.
Variable positive_string : jsstring -> bool.

Lemma create_project_cases env body w :
  create_project_post path_resolve positive_string env body w
    (create_project path_resolve positive_string env body w).1
    (create_project path_resolve positive_string env body w).2.
Proof.
  unfold create_project.
  apply (wp_reply_with _ _
           (create_project_post path_resolve positive_string env body w)).
  unfold create_project_post.
  destruct (truthy (field body "projectName")) eqn:Hname; simpl;
    [|apply wp_ret; split; [reflexivity|]; split; reflexivity].
  destruct (truthy (field body "savePath")) eqn:Hsave; simpl;
    [|apply wp_ret; split; [reflexivity|]; split; reflexivity].
  apply wp_bind, wp_lift.
  destruct (field body "savePath") as [| | | |save| |] eqn:Esave; simpl;
    try (answered_500; apply kept_refl).
  apply wp_bind, wp_change_fs.
  destruct (Fs.ensureDir (path_resolve save) (fs w)) as [fs1|e] eqn:E1;
    [|answered_500; apply kept_refl].
  destruct (ensureDir_Ok _ _ _ E1) as (_ & K1 & _ & _).
  unfold createProjectStructure.
  apply wp_bind, wp_bind, wp_lift.
  destruct (field body "projectName") as [| | | |name| |] eqn:Ename; simpl;
    try (answered_500; exact K1).
  set (projectPath :=
         path_join [path_resolve save; generateFolderName (now env) name]).
  apply wp_bind, wp_change_fs. simpl.
  destruct (Fs.ensureDir (path_join [projectPath; lit "1.INSTALLATION"]) fs1)
    as [fs2|e] eqn:E2;
    [|answered_500; exact K1].
  destruct (ensureDir_Ok _ _ _ E2) as (D2 & K2 & _ & _).
  apply wp_bind, wp_change_fs. simpl.
  destruct (Fs.ensureDir (path_join [projectPath; lit "2.README"]) fs2)
    as [fs3|e] eqn:E3;
    [|answered_500; exact (kept_trans _ _ _ K1 K2)].
  destruct (ensureDir_Ok _ _ _ E3) as (D3 & K3 & _ & _).
  apply wp_bind, wp_change_fs. simpl.
  destruct (Fs.ensureDir (path_join [projectPath; lit "3.SOURCE"]) fs3)
    as [fs4|e] eqn:E4;
    [|answered_500; exact (kept_trans _ _ _ K1 (kept_trans _ _ _ K2 K3))].
  destruct (ensureDir_Ok _ _ _ E4) as (D4 & K4 & _ & _).
  assert (K : kept (fs w) fs4).
  { exact (kept_trans _ _ _ K1
             (kept_trans _ _ _ K2 (kept_trans _ _ _ K3 K4))). }
  apply wp_ret. simpl. apply wp_bind.
  destruct (has_members positive_string (field body "teamMembers")) eqn:Hm.
  - apply wp_bind, wp_lift.
    destruct (fallback_studentInfo env (VStr name) (field body "teamMembers"))
      as [text|e] eqn:Etext;
      [|answered_500; exact K].
    apply wp_bind, wp_change_fs. simpl.
    destruct (Fs.writeFile (path_join [projectPath; lit "student-info.txt"])
                text fs4) as [fs5|e] eqn:E5;
      [|answered_500; exact K].
    destruct (writeFile_Ok _ _ _ _ E5) as (N5 & _).
    apply wp_bind, wp_console_log, wp_ret, wp_bind, wp_console_log, wp_ret.
    simpl. split; [reflexivity|]. split; [reflexivity|].
    split; [exists name, save; repeat split; reflexivity|].
    assert (Hother : forall q n,
              Fs.nodes fs4 !! q = Some n ->
              Some (path_join [projectPath; lit "student-info.txt"]) <> Some q ->
              Fs.nodes fs5 !! q = Some n).
    { intros q n Hq Hne. rewrite N5, lookup_insert_ne by congruence. exact Hq. }
    assert (Hmine : forall q,
              Fs.nodes fs4 !! q = Some Fs.Dir ->
              Fs.nodes fs5 !! q = Some Fs.Dir).
    { intros q Hq. rewrite N5.
      destruct (decide (path_join [projectPath; lit "student-info.txt"] = q))
        as [Heq|Hne]; [|rewrite lookup_insert_ne by exact Hne; exact Hq].
      exfalso. subst q. unfold Fs.writeFile in E5.
      destruct (writeBytes_Ok _ _ _ _ E5) as (_ & _ & Hnodir & _).
      exact (Hnodir Hq). }
    split; [apply Hmine, K4, K3, D2|]. split; [apply Hmine, K4, D3|].
    split; [apply Hmine, D4|]. split.
    + intros q n Hq Hne. apply Hother; [apply K, Hq | exact Hne].
    + exists text. split; [reflexivity|]. split; [reflexivity|].
      rewrite N5. apply lookup_insert_eq.
  - apply wp_ret, wp_bind, wp_console_log, wp_ret.
    simpl. split; [reflexivity|]. split; [reflexivity|].
    split; [exists name, save; repeat split; reflexivity|].
    split; [apply K4, K3, D2|]. split; [apply K4, D3|]. split; [exact D4|].
    split; [|reflexivity]. intros q n Hq _. apply K, Hq.
Qed.

End Creation.

(** ** The completion of a project, case by case *)

Section CompletionCases.
Context `{Platform}.

Lemma wp_save_projectData projectName built Q w :
  (forall w1,
     fs w1 = fs w ->
     let existing :=
       List.find (same_project projectName (projectPath built)) (store w) in
     let saved :=
       match existing with
       | Some e => with_identity built (id e) (timestamp e)
       | None => built
       end in
     store w1
     = match existing with
       | Some e => (Db.updateProject (id e) saved (store w)).2 ++ [saved]
       | None => (store w ++ [built]) ++ [built]
       end ->
     Q (Ok saved) w1) ->
  wp (save_projectData projectName built) Q w.
Proof.
  intros HQ. unfold wp.
  destruct (save_projectData_store projectName built w)
    as (saved & w1 & -> & Hfs & Hstore). simpl.
  destruct (List.find _ (store w)) as [e|] eqn:Efind; cbv zeta in HQ;
    destruct Hstore as [-> Hstore]; apply HQ; assumption.
Qed.

Lemma complete_project_cases env body w :
  complete_project_post env body w
    (complete_project env body w).1 (complete_project env body w).2.
Proof.
  unfold complete_project.
  apply (wp_respond _ _ (complete_project_post env body w)).
  unfold complete_project_post.
  destruct (truthy (field body "projectName")) eqn:Hname; simpl;
    [|apply wp_ret; split; reflexivity].
  destruct (truthy (field body "teamMembers")) eqn:Hteam; simpl;
    [|apply wp_ret; split; reflexivity].
  destruct (truthy (field body "projectPath")) eqn:Hpath; simpl;
    [|apply wp_ret; split; reflexivity].
  apply wp_bind, wp_lift.
  destruct (new_projectData env _ _ _ _ _ _ _) as [built|e] eqn:Ebuilt;
    [|change (Nat.eqb 500 400) with false; cbv iota;
      split; [reflexivity|]; split; [reflexivity | apply kept_refl]].
  apply wp_bind, wp_save_projectData. intros w1 Hfs1 existing saved Hstore.
  assert (Hdir : projectPath saved = projectPath built).
  { unfold saved. destruct existing; reflexivity. }
  rewrite Hdir.
  set (studentInfoPath := path_join [projectPath built; lit "student-info.txt"]).
  set (infoPath := path_join [projectPath built; lit "project-info.json"]).
  unfold ensure_studentInfo.
  apply wp_bind, wp_bind, wp_read_fs. rewrite Hfs1.
  unfold Fs.existsSync at 1.
  destruct (Fs.nodes (fs w) !! studentInfoPath) as [node|] eqn:Enode.
  - rewrite bool_decide_eq_true_2 by eauto.
    apply wp_try_fs. unfold Fs.stat_size. rewrite ?Hfs1, Enode.
    assert (Hsize : exists size,
              match node with
              | Fs.File bytes => Ok (N.of_nat (length bytes))
              | Fs.Dir => Ok (Fs.dir_size (fs w) studentInfoPath)
              end = Ok size
              /\ match node with
                 | Fs.File bytes => size = N.of_nat (length bytes)
                 | Fs.Dir => size = Fs.dir_size (fs w) studentInfoPath
                 end).
    { destruct node; eexists; split; reflexivity. }
    destruct Hsize as (size & -> & Hsize).
    apply wp_bind, wp_change_fs. rewrite ?Hfs1.
    destruct (Fs.writeFile infoPath _ (fs w)) as [fs2|e] eqn:Ewrite.
    + destruct (writeFile_Ok _ _ _ _ Ewrite) as (N2 & _).
      apply wp_ret. simpl. split; [reflexivity|]. exists built.
      split; [reflexivity|]. split; [exact Hstore|]. exists size.
      split; [reflexivity|]. fold studentInfoPath. rewrite Enode.
      destruct node; (split; [exact Hsize | exact N2]).
    + change (Nat.eqb 500 400) with false. cbv iota.
      split; [reflexivity|]. split; [reflexivity|]. simpl. rewrite ?Hfs1.
      apply kept_refl.
  - rewrite bool_decide_eq_false_2 by (intros [? ?]; discriminate).
    apply wp_bind, wp_lift.
    destruct (fallback_studentInfo env _ _) as [text|e] eqn:Etext.
    2:{ change (Nat.eqb 500 400) with false. cbv iota.
        split; [reflexivity|]. split; [reflexivity|]. simpl. rewrite ?Hfs1.
        apply kept_refl. }
    apply wp_bind, wp_change_fs. rewrite ?Hfs1.
    destruct (Fs.writeFile studentInfoPath text (fs w)) as [fs2|e] eqn:Ewrite.
    2:{ change (Nat.eqb 500 400) with false. cbv iota.
        split; [reflexivity|]. split; [reflexivity|]. simpl. rewrite ?Hfs1.
        apply kept_refl. }
    destruct (writeFile_Ok _ _ _ _ Ewrite) as (N2 & _).
    assert (K2 : kept (fs w) fs2).
    { intros q n Hq. rewrite N2.
      destruct (decide (studentInfoPath = q)) as [<-|Hne]; [congruence|].
      rewrite lookup_insert_ne by exact Hne. exact Hq. }
    apply wp_ret, wp_bind, wp_change_fs. simpl.
    destruct (Fs.writeFile infoPath _ fs2) as [fs3|e] eqn:Ewrite3.
    + destruct (writeFile_Ok _ _ _ _ Ewrite3) as (N3 & _).
      apply wp_ret. simpl. split; [reflexivity|]. exists built.
      split; [reflexivity|]. split; [exact Hstore|].
      exists (N.of_nat (length text)).
      split; [reflexivity|]. fold studentInfoPath. rewrite Enode.
      exists text. split; [reflexivity|]. split; [reflexivity|].
      rewrite N3, N2. reflexivity.
    + change (Nat.eqb 500 400) with false. cbv iota.
      split; [reflexivity|]. split; [reflexivity|]. simpl. exact K2.
Qed.

End CompletionCases.

Section CreationProperties.
Context `{Platform}.
Variable path_resolve : jsstring -> jsstring.
Variable positive_string : jsstring -> bool.

(** X4: create-project answers 400 exactly when [projectName] or
    [savePath] is missing (or empty, or any other falsy value), and then it
    has done nothing; every other answer is 200 or 500, and the record
    store is never touched. *)
Theorem create_project_answers_400_exactly_when_incomplete env body w :
  let answer := create_project path_resolve positive_string env body w in
  (reply_status answer.1 = 400%nat
   <-> truthy (field body "projectName") = false
       \/ truthy (field body "savePath") = false)
  /\ (reply_status answer.1 = 400%nat -> answer.2 = w)
  /\ (reply_status answer.1 = 200%nat \/ reply_status answer.1 = 400%nat
      \/ reply_status answer.1 = 500%nat)
  /\ store answer.2 = store w.
Proof.
  intros answer.
  pose proof (create_project_cases path_resolve positive_string env body w)
    as Hcases.
  fold answer in Hcases. unfold create_project_post in Hcases.
  destruct Hcases as [Hstore Hcases].
  destruct answer.1 as [code error| | |pp fn sp sip| | |]; try contradiction.
  - simpl. destruct (Nat.eqb_spec code 400) as [->|Hne].
    + destruct Hcases as [Hc ->]. apply andb_false_iff in Hc.
      repeat split; auto.
    + destruct Hcases as (-> & Hc & _). apply andb_true_iff in Hc.
      destruct Hc as [Hn Hs]. repeat split; try discriminate; auto.
      rewrite Hn, Hs. intros [|]; discriminate.
  - destruct Hcases as (Hc & _). apply andb_true_iff in Hc.
    destruct Hc as [Hn Hs]. simpl. repeat split; try discriminate; auto.
    rewrite Hn, Hs. intros [|]; discriminate.
Qed.

(** X5: when create-project answers with a project, the project path is
    [path.join(path.resolve(savePath), folderName)] with the folder name of
    the project name and the time of the request, the three numbered
    subfolders are directories on disk, and [student-info.txt] has been
    written into the folder exactly when team members were given. *)
Theorem create_project_builds_the_layout env body w
    projectPath folderName savePath studentInfoPath :
  (create_project path_resolve positive_string env body w).1
  = Created projectPath folderName savePath studentInfoPath ->
  let disk := fs (create_project path_resolve positive_string env body w).2 in
  (exists name save,
     field body "projectName" = VStr name
     /\ field body "savePath" = VStr save
     /\ savePath = path_resolve save
     /\ folderName = generateFolderName (now env) name
     /\ projectPath = path_join [savePath; folderName])
  /\ Fs.nodes disk !! path_join [projectPath; lit "1.INSTALLATION"]
     = Some Fs.Dir
  /\ Fs.nodes disk !! path_join [projectPath; lit "2.README"] = Some Fs.Dir
  /\ Fs.nodes disk !! path_join [projectPath; lit "3.SOURCE"] = Some Fs.Dir
  /\ (if has_members positive_string (field body "teamMembers")
      then exists text,
             fallback_studentInfo env (field body "projectName")
               (field body "teamMembers") = Ok text
             /\ studentInfoPath
                = Some (path_join [projectPath; lit "student-info.txt"])
             /\ Fs.nodes disk !! path_join [projectPath; lit "student-info.txt"]
                = Some (Fs.File (utf8 text))
      else studentInfoPath = None).
Proof.
  intros Hanswer disk.
  pose proof (create_project_cases path_resolve positive_string env body w)
    as Hcases.
  rewrite Hanswer in Hcases. unfold create_project_post in Hcases.
  destruct Hcases as (_ & _ & Hnames & H1 & H2 & H3 & _ & Hinfo).
  repeat split; assumption.
Qed.

(** X6: create-project removes nothing and changes no node that is on
    disk, whatever it answers; the one node it may write over is the
    [student-info.txt] that its answer names. *)
Theorem create_project_keeps_what_is_on_disk env body w q n :
  Fs.nodes (fs w) !! q = Some n ->
  (forall projectPath folderName savePath,
     (create_project path_resolve positive_string env body w).1
     <> Created projectPath folderName savePath (Some q)) ->
  Fs.nodes (fs (create_project path_resolve positive_string env body w).2) !! q
  = Some n.
Proof.
  intros Hq Hnot.
  pose proof (create_project_cases path_resolve positive_string env body w)
    as Hcases.
  unfold create_project_post in Hcases. destruct Hcases as [_ Hcases].
  destruct (create_project path_resolve positive_string env body w).1
    as [code error| | |pp fn sp sip| | |]; try contradiction.
  - destruct (Nat.eqb code 400).
    + destruct Hcases as [_ ->]. exact Hq.
    + destruct Hcases as (_ & _ & K). exact (K _ _ Hq).
  - destruct Hcases as (_ & _ & _ & _ & _ & Hkeep & _).
    apply Hkeep; [exact Hq|]. intros ->. exact (Hnot pp fn sp eq_refl).
Qed.

End CreationProperties.

Lemma create_project_builds_the_layout_witness :
  (create_project (H := Sample.platform) Scenario.resolve Scenario.no_string
     Sample.first_env Scenario.creation Scenario.empty).1
  = Created Scenario.test_app (lit "Test_App_2025-03-09_04-05-06")
      (lit "/projects") (Some (Scenario.test_app ++ lit "/student-info.txt"))
  /\ Fs.nodes (fs Scenario.created) !! (Scenario.test_app ++ lit "/2.README")
     = Some Fs.Dir.
Proof.
  assert (Hanswer :
    (create_project (H := Sample.platform) Scenario.resolve Scenario.no_string
       Sample.first_env Scenario.creation Scenario.empty).1
    = Created Scenario.test_app (lit "Test_App_2025-03-09_04-05-06")
        (lit "/projects") (Some (Scenario.test_app ++ lit "/student-info.txt"))).
  { vm_compute. reflexivity. }
  split; [exact Hanswer|].
  destruct (create_project_builds_the_layout (H := Sample.platform)
              Scenario.resolve Scenario.no_string Sample.first_env
              Scenario.creation Scenario.empty _ _ _ _ Hanswer)
    as (_ & _ & Hreadme & _).
  exact Hreadme.
Defined.

Lemma create_project_keeps_what_is_on_disk_witness :
  Fs.nodes (fs (create_project (H := Sample.platform) Scenario.resolve
                  Scenario.no_string Sample.first_env Scenario.creation
                  Sample.fresh).2) !! lit "/projects/app"
  = Some Fs.Dir.
Proof.
  apply (create_project_keeps_what_is_on_disk (H := Sample.platform)
           Scenario.resolve Scenario.no_string Sample.first_env
           Scenario.creation Sample.fresh (lit "/projects/app") Fs.Dir).
  - vm_compute. reflexivity.
  - intros projectPath folderName savePath. vm_compute. discriminate.
Defined.

(** ** The bytes of a text *)

Lemma utf8_ascii (s : jsstring) : Forall (fun c => c < 128) s -> utf8 s = s.
Proof.
  induction 1 as [|c s Hc _ IH]; [reflexivity|].
  cbn [utf8]. destruct (N.ltb_spec c 128) as [_|]; [|lia]. f_equal. exact IH.
Qed.

Lemma utf8_length_within (n : nat) :
  forall s : jsstring,
    (length s <= n)%nat ->
    (length s <= length (utf8 s))%nat
    /\ (length (utf8 s) = length s -> Forall (fun c => c < 128) s).
Proof.
  induction n as [|n IH]; intros [|c s] Hn; simpl in Hn;
    try (split; [reflexivity | constructor]); try lia.
  assert (Hs : (length s <= n)%nat) by lia.
  destruct (IH s Hs) as [Hge Heq].
  cbn [utf8].
  destruct (N.ltb_spec c 128) as [Hc|Hc].
  { cbn [length]. split; [lia|]. intros E. constructor; [exact Hc|].
    apply Heq. lia. }
  destruct (c <? 2048).
  { unfold utf8_2. cbn [app length]. split; lia. }
  destruct (is_high_surrogate c).
  - destruct s as [|d s'].
    + unfold utf8_replacement. cbn [length]. split; lia.
    + destruct (is_low_surrogate d).
      * assert (Hs' : (length s' <= n)%nat) by (simpl in Hs; lia).
        destruct (IH s' Hs') as [Hge' _].
        unfold utf8_4. cbn [app length]. split; lia.
      * unfold utf8_replacement. cbn [app]. cbn [length] in *. split; lia.
  - destruct (is_low_surrogate c).
    + unfold utf8_replacement. cbn [app length]. split; lia.
    + unfold utf8_3. cbn [app length]. split; lia.
Qed.

(** A text has at least as many bytes in UTF-8 as code units, and as many
    exactly when it is ASCII. *)
Lemma utf8_length (s : jsstring) :
  (length s <= length (utf8 s))%nat
  /\ (length (utf8 s) = length s <-> Forall (fun c => c < 128) s).
Proof.
  destruct (utf8_length_within (length s) s (le_n _)) as [Hge Heq].
  split; [exact Hge|]. split; [exact Heq|].
  intros Hascii. rewrite (utf8_ascii s Hascii). reflexivity.
Qed.

(** ** The record of a completion *)

Lemma obind_Ok {A B} (o : outcome A) (k : A -> outcome B) b :
  obind o k = Ok b -> exists a, o = Ok a /\ k a = Ok b.
Proof.
  destruct o as [a|e]; simpl; [|discriminate].
  intros E. exists a. split; [reflexivity | exact E].
Qed.

Lemma validateString_Ok v s : validateString v = Ok s -> v = VStr s.
Proof. destruct v; simpl; try discriminate. intros [= ->]. reflexivity. Qed.

Section BuiltRecord.
Context `{Platform}.

Lemma described_file_Ok projectPath f folder fallback m :
  described_file projectPath f folder fallback = Ok m ->
  exists dir name,
    projectPath = VStr dir
    /\ file_name m = VStr name
    /\ file_path m = path_join [dir; lit folder; name].
Proof.
  unfold described_file. intros E.
  apply obind_Ok in E. destruct E as (n1 & E1 & E).
  apply obind_Ok in E. destruct E as (n2 & E2 & E).
  apply obind_Ok in E. destruct E as (dir & Edir & E).
  apply obind_Ok in E. destruct E as (name & Ename & E).
  apply obind_Ok in E. destruct E as (size & _ & E).
  injection E as <-. simpl.
  rewrite E1 in E2. injection E2 as <-.
  exists dir, name. split; [exact (validateString_Ok _ _ Edir)|].
  split; [exact (validateString_Ok _ _ Ename) | reflexivity].
Qed.

(** The record that the handler builds from a body. *)
Lemma new_projectData_Ok env projectName teamMembers projectPath folderName
    readmeFile installationFile sourceFile built :
  new_projectData env projectName teamMembers projectPath folderName
    readmeFile installationFile sourceFile = Ok built ->
  id built = uuid env
  /\ timestamp built = toISOString (now env)
  /\ Project.projectName built = projectName
  /\ Project.folderName built = folderName
  /\ projectPath = VStr (Project.projectPath built)
  /\ exists readme installation source,
       files built
       = <["source"%string := source]>
           (<["installation"%string := installation]>
              (<["readme"%string := readme]> ∅))
       /\ (exists name,
             file_name readme = VStr name
             /\ file_path readme
                = path_join [Project.projectPath built; lit "2.README"; name])
       /\ (exists name,
             file_name installation = VStr name
             /\ file_path installation
                = path_join [Project.projectPath built; lit "1.INSTALLATION";
                             name])
       /\ file_name source = VStr (lit "project.zip")
       /\ file_path source
          = path_join [Project.projectPath built; lit "3.SOURCE";
                       lit "project.zip"].
Proof.
  unfold new_projectData. intros E.
  apply obind_Ok in E. destruct E as (members & _ & E).
  apply obind_Ok in E. destruct E as (readme & Er & E).
  apply obind_Ok in E. destruct E as (installation & Ei & E).
  apply obind_Ok in E. destruct E as (source & Es & E).
  apply obind_Ok in E. destruct E as (dir & Edir & E).
  injection E as <-. simpl.
  apply validateString_Ok in Edir. subst projectPath.
  repeat split.
  exists readme, installation, source. split; [reflexivity|].
  destruct (described_file_Ok _ _ _ _ _ Er) as (d1 & n1 & [= <-] & Hn1 & Hp1).
  destruct (described_file_Ok _ _ _ _ _ Ei) as (d2 & n2 & [= <-] & Hn2 & Hp2).
  split; [exists n1; split; assumption|].
  split; [exists n2; split; assumption|].
  unfold source_file in Es. simpl in Es.
  apply obind_Ok in Es. destruct Es as (size & _ & Es). injection Es as <-.
  split; reflexivity.
Qed.

End BuiltRecord.

Section CompletionProperties.
Context `{Platform}.

(** The parts of a successful completion. *)
Lemma complete_project_success env body w projectData :
  (complete_project env body w).1 = RCompleted projectData ->
  exists built saved size,
    new_projectData env (field body "projectName") (field body "teamMembers")
      (field body "projectPath") (field body "folderName")
      (field body "readmeFile") (field body "installationFile")
      (field body "sourceFile") = Ok built
    /\ saved
       = match List.find (same_project (field body "projectName")
                            (projectPath built)) (store w) with
         | Some e => with_identity built (id e) (timestamp e)
         | None => built
         end
    /\ projectData
       = with_studentInfo saved
           (path_join [projectPath built; lit "student-info.txt"]) size
    /\ projectPath projectData = projectPath built
    /\ store (complete_project env body w).2
       = match List.find (same_project (field body "projectName")
                            (projectPath built)) (store w) with
         | Some e => (Db.updateProject (id e) saved (store w)).2 ++ [saved]
         | None => (store w ++ [built]) ++ [built]
         end
    /\ match Fs.nodes (fs w)
               !! path_join [projectPath built; lit "student-info.txt"] with
       | Some (Fs.File bytes) =>
           size = N.of_nat (length bytes)
           /\ Fs.nodes (fs (complete_project env body w).2)
              = <[path_join [projectPath built; lit "project-info.json"] :=
                    Fs.File (utf8 (Json.document (record_value projectData)))]>
                  (Fs.nodes (fs w))
       | Some Fs.Dir =>
           size
           = Fs.dir_size (fs w)
               (path_join [projectPath built; lit "student-info.txt"])
           /\ Fs.nodes (fs (complete_project env body w).2)
              = <[path_join [projectPath built; lit "project-info.json"] :=
                    Fs.File (utf8 (Json.document (record_value projectData)))]>
                  (Fs.nodes (fs w))
       | None =>
           exists text,
             fallback_studentInfo env (field body "projectName")
               (field body "teamMembers") = Ok text
             /\ size = N.of_nat (length text)
             /\ Fs.nodes (fs (complete_project env body w).2)
                = <[path_join [projectPath built; lit "project-info.json"] :=
                      Fs.File (utf8 (Json.document (record_value projectData)))]>
                    (<[path_join [projectPath built; lit "student-info.txt"] :=
                         Fs.File (utf8 text)]> (Fs.nodes (fs w)))
       end.
Proof.
  intros Hanswer. pose proof (complete_project_cases env body w) as Hcases.
  rewrite Hanswer in Hcases. unfold complete_project_post in Hcases.
  cbv zeta in Hcases.
  destruct Hcases as (_ & built & Ebuilt & Hstore & size & Hdata & Hdisk).
  eexists built, _, size. split; [exact Ebuilt|]. split; [reflexivity|].
  split; [exact Hdata|]. split.
  - rewrite Hdata. simpl. destruct (List.find _ (store w)); reflexivity.
  - split; [exact Hstore | exact Hdisk].
Qed.

(** X7: complete-project answers 400 exactly when [projectName],
    [teamMembers] or [projectPath] is missing or falsy, and then it has
    done nothing; every other answer is 200 or 500. *)
Theorem complete_project_answers_400_exactly_when_incomplete env body w :
  let answer := complete_project env body w in
  (status answer.1 = 400%nat
   <-> truthy (field body "projectName") = false
       \/ truthy (field body "teamMembers") = false
       \/ truthy (field body "projectPath") = false)
  /\ (status answer.1 = 400%nat -> answer.2 = w)
  /\ (status answer.1 = 200%nat \/ status answer.1 = 400%nat
      \/ status answer.1 = 500%nat).
Proof.
  intros answer. pose proof (complete_project_cases env body w) as Hcases.
  fold answer in Hcases. unfold complete_project_post in Hcases.
  cbv zeta in Hcases.
  assert (Hall : forall a b c : bool,
            a && b && c = true -> ~ (a = false \/ b = false \/ c = false)).
  { intros [|] [|] [|]; simpl; try discriminate;
      intros _ [|[|]]; discriminate. }
  assert (Hone : forall a b c : bool,
            a && b && c = false -> a = false \/ b = false \/ c = false).
  { intros [|] [|] [|]; simpl; auto. }
  destruct answer.1 as [code error| | |projectData| |]; try contradiction.
  - simpl. destruct (Nat.eqb_spec code 400) as [->|Hne].
    + destruct Hcases as [Hc ->]. repeat split; auto.
    + destruct Hcases as (-> & Hc & _).
      repeat split; try discriminate; auto.
      intros Hfalsy. exfalso. exact (Hall _ _ _ Hc Hfalsy).
  - destruct Hcases as (Hc & _). simpl.
    repeat split; try discriminate; auto.
    intros Hfalsy. exfalso. exact (Hall _ _ _ Hc Hfalsy).
Qed.

(** X8: after a successful completion [project-info.json] in the folder
    of the project holds the JSON text of the record that the response
    carries, [student-info.txt] is in the folder, and the record has its
    four file entries. *)
Theorem complete_project_writes_the_sidecar env body w projectData :
  (complete_project env body w).1 = RCompleted projectData ->
  let disk := fs (complete_project env body w).2 in
  Fs.nodes disk !! path_join [projectPath projectData; lit "project-info.json"]
  = Some (Fs.File (utf8 (Json.document (record_value projectData))))
  /\ is_Some (Fs.nodes disk
                !! path_join [projectPath projectData; lit "student-info.txt"])
  /\ (exists size,
        files projectData !! "studentInfo"%string
        = Some {| file_name := VStr (lit "student-info.txt");
                  file_path :=
                    path_join [projectPath projectData; lit "student-info.txt"];
                  file_size := VNum (Z.of_N size) |})
  /\ is_Some (files projectData !! "readme"%string)
  /\ is_Some (files projectData !! "installation"%string)
  /\ is_Some (files projectData !! "source"%string).
Proof.
  intros Hanswer disk.
  destruct (complete_project_success env body w projectData Hanswer)
    as (built & saved & size & Ebuilt & Hsaved & Hdata & Hpath & _ & Hdisk).
  rewrite Hpath.
  destruct (new_projectData_Ok _ _ _ _ _ _ _ _ _ Ebuilt)
    as (_ & _ & _ & _ & _ & readme & installation & source & Hfiles & _).
  assert (Hkept : files saved = files built).
  { rewrite Hsaved. destruct (List.find _ (store w)); reflexivity. }
  assert (Hsidecar :
    Fs.nodes disk !! path_join [projectPath built; lit "project-info.json"]
    = Some (Fs.File (utf8 (Json.document (record_value projectData))))
    /\ is_Some (Fs.nodes disk
                  !! path_join [projectPath built; lit "student-info.txt"])).
  { unfold disk.
    destruct (Fs.nodes (fs w)
                !! path_join [projectPath built; lit "student-info.txt"])
      as [[bytes|]|] eqn:Enode.
    - destruct Hdisk as [_ ->]. split; [apply lookup_insert_eq|].
      rewrite lookup_insert. case_decide; [eauto | rewrite Enode; eauto].
    - destruct Hdisk as [_ ->]. split; [apply lookup_insert_eq|].
      rewrite lookup_insert. case_decide; [eauto | rewrite Enode; eauto].
    - destruct Hdisk as (text & _ & _ & ->). split; [apply lookup_insert_eq|].
      rewrite lookup_insert. case_decide; [eauto|].
      rewrite lookup_insert_eq. eauto. }
  destruct Hsidecar as [Hjson Hinfo].
  split; [exact Hjson|]. split; [exact Hinfo|].
  rewrite Hdata. unfold with_studentInfo, with_files. simpl.
  rewrite Hkept, Hfiles.
  split; [exists size; apply lookup_insert_eq|].
  repeat split;
    (do 3 (try rewrite lookup_insert_ne by discriminate));
    rewrite lookup_insert_eq; eauto.
Qed.

(** X9: a successful completion answers with the id and the timestamp of
    the first stored record that has the same project name and project
    path, when there is one, and with a new id and the time of the request
    when there is none; name and path are those of the body. *)
Theorem complete_project_keeps_the_identity env body w projectData :
  (complete_project env body w).1 = RCompleted projectData ->
  projectName projectData = field body "projectName"
  /\ VStr (projectPath projectData) = field body "projectPath"
  /\ match List.find (same_project (field body "projectName")
                        (projectPath projectData)) (store w) with
     | Some existing =>
         id projectData = id existing
         /\ timestamp projectData = timestamp existing
     | None =>
         id projectData = uuid env
         /\ timestamp projectData = toISOString (now env)
     end.
Proof.
  intros Hanswer.
  destruct (complete_project_success env body w projectData Hanswer)
    as (built & saved & size & Ebuilt & Hsaved & Hdata & Hpath & _).
  destruct (new_projectData_Ok _ _ _ _ _ _ _ _ _ Ebuilt)
    as (Hid & Htime & Hname & _ & Hdir & _).
  rewrite Hpath, Hdata, Hsaved.
  destruct (List.find _ (store w)) as [existing|]; simpl;
    repeat split; auto.
Qed.

(** X10: when [student-info.txt] is a file of the folder before the call,
    a successful completion records its size in bytes. *)
Theorem complete_project_records_the_size_of_the_file env body w projectData
    bytes :
  (complete_project env body w).1 = RCompleted projectData ->
  Fs.nodes (fs w) !! path_join [projectPath projectData; lit "student-info.txt"]
  = Some (Fs.File bytes) ->
  files projectData !! "studentInfo"%string
  = Some {| file_name := VStr (lit "student-info.txt");
            file_path :=
              path_join [projectPath projectData; lit "student-info.txt"];
            file_size := VNum (Z.of_nat (length bytes)) |}.
Proof.
  intros Hanswer Hfile.
  destruct (complete_project_success env body w projectData Hanswer)
    as (built & saved & size & _ & _ & Hdata & Hpath & _ & Hdisk).
  rewrite Hpath in *. rewrite Hfile in Hdisk. destruct Hdisk as [-> _].
  rewrite Hdata. unfold with_studentInfo, with_files. simpl.
  rewrite lookup_insert_eq, nat_N_Z. reflexivity.
Qed.

(** X11: when [student-info.txt] is not in the folder, a successful
    completion writes the text as UTF-8 and records the length of the
    text: the size it records is never more than the size of the file, and
    it is the size of the file exactly when the text is ASCII. *)
Theorem complete_project_records_the_size_of_an_ascii_text env body w
    projectData :
  (complete_project env body w).1 = RCompleted projectData ->
  Fs.nodes (fs w) !! path_join [projectPath projectData; lit "student-info.txt"]
  = None ->
  path_join [projectPath projectData; lit "student-info.txt"]
  <> path_join [projectPath projectData; lit "project-info.json"] ->
  exists text,
    fallback_studentInfo env (field body "projectName")
      (field body "teamMembers") = Ok text
    /\ Fs.nodes (fs (complete_project env body w).2)
         !! path_join [projectPath projectData; lit "student-info.txt"]
       = Some (Fs.File (utf8 text))
    /\ (exists info,
          files projectData !! "studentInfo"%string = Some info
          /\ file_size info = VNum (Z.of_nat (length text)))
    /\ (length text <= length (utf8 text))%nat
    /\ (length (utf8 text) = length text <-> Forall (fun c => c < 128) text).
Proof.
  intros Hanswer Hfile Hdiff.
  destruct (complete_project_success env body w projectData Hanswer)
    as (built & saved & size & _ & _ & Hdata & Hpath & _ & Hdisk).
  rewrite Hpath in *. rewrite Hfile in Hdisk.
  destruct Hdisk as (text & Etext & -> & ->).
  exists text. split; [exact Etext|]. split.
  - rewrite lookup_insert_ne by congruence. apply lookup_insert_eq.
  - split; [|exact (utf8_length text)].
    eexists. split.
    + rewrite Hdata. unfold with_studentInfo, with_files. simpl.
      apply lookup_insert_eq.
    + simpl. rewrite nat_N_Z. reflexivity.
Qed.

End CompletionProperties.

Lemma generateFolderName_second_precision_witness :
  in_range Sample.morning
  /\ generateFolderName Sample.morning (lit "Test App")
     = lit "Test_App_2025-03-09_04-05-06".
Proof.
  assert (Hrange : in_range Sample.morning).
  { unfold in_range, Sample.morning. simpl. lia. }
  split; [exact Hrange|].
  rewrite (proj1 (generateFolderName_second_precision Sample.morning
                    (lit "Test App") Hrange)).
  vm_compute. reflexivity.
Defined.

Lemma generateFolderName_collides_within_a_second_witness :
  generateFolderName Sample.morning (lit "Test App")
  = generateFolderName
      {| year := 2025; month := 3; day := 9;
         hours := 4; minutes := 5; seconds := 6; milliseconds := 993 |}
      (lit "Test App").
Proof.
  apply generateFolderName_collides_within_a_second;
    try reflexivity; unfold in_range, Sample.morning; simpl; lia.
Defined.

Lemma complete_project_writes_the_sidecar_witness :
  (complete_project (H := Sample.platform) Sample.first_env
     (Sample.submission (lit "Ada") 10) Sample.fresh).1
  = RCompleted Scenario.first_record
  /\ is_Some (files Scenario.first_record !! "readme"%string).
Proof.
  assert (Hanswer :
    (complete_project (H := Sample.platform) Sample.first_env
       (Sample.submission (lit "Ada") 10) Sample.fresh).1
    = RCompleted Scenario.first_record) by (vm_compute; reflexivity).
  split; [exact Hanswer|].
  destruct (complete_project_writes_the_sidecar (H := Sample.platform)
              _ _ _ _ Hanswer) as (_ & _ & _ & Hreadme & _).
  exact Hreadme.
Defined.

Lemma complete_project_keeps_the_identity_witness :
  (complete_project (H := Sample.platform) Sample.second_env
     (Sample.submission (lit "Ada") 11) Sample.submitted).1
  = RCompleted
      (Scenario.record_of
         (complete_project (H := Sample.platform) Sample.second_env
            (Sample.submission (lit "Ada") 11) Sample.submitted).1)
  /\ id (Scenario.record_of
           (complete_project (H := Sample.platform) Sample.second_env
              (Sample.submission (lit "Ada") 11) Sample.submitted).1)
     = lit "id-1".
Proof.
  assert (Hanswer :
    (complete_project (H := Sample.platform) Sample.second_env
       (Sample.submission (lit "Ada") 11) Sample.submitted).1
    = RCompleted
        (Scenario.record_of
           (complete_project (H := Sample.platform) Sample.second_env
              (Sample.submission (lit "Ada") 11) Sample.submitted).1))
    by (vm_compute; reflexivity).
  split; [exact Hanswer|].
  pose proof (complete_project_keeps_the_identity (H := Sample.platform)
                _ _ _ _ Hanswer) as (_ & _ & Hid).
  vm_compute in Hid. destruct Hid as [Hid _].
  vm_compute. exact Hid.
Defined.

Lemma complete_project_records_the_size_of_the_file_witness :
  (complete_project (H := Sample.platform) Sample.second_env
     Scenario.completion Scenario.uploaded).1
  = RCompleted Scenario.final_record
  /\ file_size <$> files Scenario.final_record !! "studentInfo"%string
     = Some (VNum 116).
Proof.
  assert (Hanswer :
    (complete_project (H := Sample.platform) Sample.second_env
       Scenario.completion Scenario.uploaded).1
    = RCompleted Scenario.final_record) by (vm_compute; reflexivity).
  split; [exact Hanswer|].
  rewrite (complete_project_records_the_size_of_the_file
             (H := Sample.platform) _ _ _ _
             (Scenario.bytes_at Scenario.uploaded
                (Scenario.test_app ++ lit "/student-info.txt"))
             Hanswer).
  - vm_compute. reflexivity.
  - vm_compute. reflexivity.
Defined.

Lemma complete_project_records_the_size_of_an_ascii_text_witness :
  (complete_project (H := Sample.platform) Sample.first_env
     (Sample.submission Sample.zoe 10) Sample.fresh).1
  = RCompleted Scenario.zoe_record
  /\ exists text,
       Fs.nodes (fs (complete_project (H := Sample.platform) Sample.first_env
                       (Sample.submission Sample.zoe 10) Sample.fresh).2)
         !! path_join (Platform := Sample.platform)
              [projectPath Scenario.zoe_record; lit "student-info.txt"]
       = Some (Fs.File (utf8 text))
       /\ (length text <= length (utf8 text))%nat.
Proof.
  assert (Hanswer :
    (complete_project (H := Sample.platform) Sample.first_env
       (Sample.submission Sample.zoe 10) Sample.fresh).1
    = RCompleted Scenario.zoe_record) by (vm_compute; reflexivity).
  split; [exact Hanswer|].
  destruct (complete_project_records_the_size_of_an_ascii_text
              (H := Sample.platform) _ _ _ _ Hanswer)
    as (text & _ & Hfile & _ & Hle & _).
  - vm_compute. reflexivity.
  - vm_compute. discriminate.
  - exists text. split; [exact Hfile | exact Hle].
Defined.

(** ** A project created and then completed *)

Section CreatedThenCompleted.
Context `{Platform}.
Variable path_resolve : jsstring -> jsstring.
Variable positive_string : jsstring -> bool.

(** X12: when create-project has written [student-info.txt] and the
    project is then completed under the project path of that answer, the
    record of the completion has the path of that file and its size in
    bytes, the number of bytes of the text in UTF-8. *)
Theorem create_then_complete_records_the_bytes env1 body1 w env2 body2
    projectPath folderName savePath studentInfoPath projectData :
  (create_project path_resolve positive_string env1 body1 w).1
  = Created projectPath folderName savePath (Some studentInfoPath) ->
  field body2 "projectPath" = VStr projectPath ->
  (complete_project env2 body2
     (create_project path_resolve positive_string env1 body1 w).2).1
  = RCompleted projectData ->
  exists text,
    fallback_studentInfo env1 (field body1 "projectName")
      (field body1 "teamMembers") = Ok text
    /\ studentInfoPath = path_join [projectPath; lit "student-info.txt"]
    /\ files projectData !! "studentInfo"%string
       = Some {| file_name := VStr (lit "student-info.txt");
                 file_path := studentInfoPath;
                 file_size := VNum (Z.of_nat (length (utf8 text))) |}.
Proof.
  intros Hcreated Hpath Hcompleted.
  pose proof (create_project_cases path_resolve positive_string env1 body1 w)
    as Hcases.
  rewrite Hcreated in Hcases. unfold create_project_post in Hcases.
  destruct Hcases as (_ & _ & _ & _ & _ & _ & _ & Hinfo).
  destruct (has_members positive_string (field body1 "teamMembers"));
    [|discriminate Hinfo].
  destruct Hinfo as (text & Etext & [= ->] & Hfile).
  exists text. split; [exact Etext|]. split; [reflexivity|].
  destruct (complete_project_success env2 body2 _ projectData Hcompleted)
    as (built & saved & size & Ebuilt & _ & Hdata & _ & _ & Hdisk).
  destruct (new_projectData_Ok _ _ _ _ _ _ _ _ _ Ebuilt)
    as (_ & _ & _ & _ & Hdir & _).
  rewrite Hpath in Hdir. injection Hdir as Hdir. rewrite <- Hdir in *.
  rewrite Hfile in Hdisk. destruct Hdisk as [-> _].
  rewrite Hdata. unfold with_studentInfo, with_files. simpl.
  rewrite lookup_insert_eq, nat_N_Z. reflexivity.
Qed.

End CreatedThenCompleted.

Lemma create_then_complete_records_the_bytes_witness :
  file_size <$> files
     (Scenario.record_of
        (complete_project (H := Sample.platform) Sample.second_env
           Scenario.completion Scenario.created).1) !! "studentInfo"%string
  = Some (VNum 116).
Proof.
  destruct (create_then_complete_records_the_bytes (H := Sample.platform)
              Scenario.resolve Scenario.no_string Sample.first_env
              Scenario.creation Scenario.empty Sample.second_env
              Scenario.completion Scenario.test_app
              (lit "Test_App_2025-03-09_04-05-06") (lit "/projects")
              (Scenario.test_app ++ lit "/student-info.txt")
              (Scenario.record_of
                 (complete_project (H := Sample.platform) Sample.second_env
                    Scenario.completion Scenario.created).1))
    as (text & Etext & _ & Hinfo).
  - vm_compute. reflexivity.
  - reflexivity.
  - vm_compute. reflexivity.
  - rewrite Hinfo. simpl. vm_compute in Etext. injection Etext as <-.
    vm_compute. reflexivity.
Defined.

(** ** More on uploads *)

Section MoreUploads.
Context `{Platform}.

(** What the middleware has put on disk when it hands a file on. *)
Lemma upload_single_disk name env req w f w1 :
  upload_single name env req w = (Ok (Some f), w1) ->
  exists part fs1,
    parts req = [part]
    /\ upload_path f
       = path_join [path_join [__dirname; lit "uploads"; lit "temp"];
                    filename env part]
    /\ Fs.ensureDir (path_join [__dirname; lit "uploads"; lit "temp"]) (fs w)
       = Ok fs1
    /\ Fs.nodes (fs w1)
       = <[upload_path f := Fs.File (part_content part)]> (Fs.nodes fs1).
Proof.
  unfold upload_single, throw, ret. intros E.
  destruct (parts req) as [|part [|]]; [discriminate E| |discriminate E].
  destruct (negb _); [discriminate E|].
  unfold destination, bind, change_fs, ret in E.
  destruct (Fs.ensureDir _ (fs w)) as [fs1|] eqn:Edir; [|discriminate E].
  destruct (fileSize <=? _); [discriminate E|].
  simpl in E.
  destruct (Fs.writeBytes _ _ fs1) as [fs2|] eqn:Ewrite; [|discriminate E].
  injection E as <- <-.
  destruct (writeBytes_Ok _ _ _ _ Ewrite) as (Hn & _).
  exists part, fs1. repeat split. exact Hn.
Qed.

(** X13: a successful upload leaves no file at the temporary path; what
    was on disk before the request is as it was, the temporary path and
    the destination (with what was below it) apart; and what is new on
    disk besides the file at the destination are directories. *)
Theorem upload_moves_the_staged_file kind env req w :
  success (endpoint_of kind env req w).1 = true ->
  exists part p,
    parts req = [part] /\ body_projectPath req = Some p
    /\ let tempDir := path_join [__dirname; lit "uploads"; lit "temp"] in
       let staged := path_join [tempDir; filename env part] in
       let dest :=
         path_join [p; subfolder_of kind;
                    target_of kind (path_extname (part_originalname part))] in
       let disk := fs (endpoint_of kind env req w).2 in
       Fs.nodes disk !! staged = None
       /\ Fs.nodes disk !! dest = Some (Fs.File (part_content part))
       /\ (forall q n,
             Fs.nodes (fs w) !! q = Some n ->
             q <> staged -> Fs.under dest q = false ->
             Fs.nodes disk !! q = Some n)
       /\ (forall q n,
             Fs.nodes disk !! q = Some n ->
             q = dest \/ Fs.nodes (fs w) !! q = Some n \/ n = Fs.Dir).
Proof.
  rewrite endpoint_of_with_upload.
  destruct (upload_single _ env req w) as [[[f|]|e] w1] eqn:Eup;
    cbv beta iota.
  - destruct (missing (body_projectPath req)) eqn:Em.
    { destruct (handler_of_rejects kind (Some f) (body_projectPath req) w1)
        as [text ->]; [right; exact Em | discriminate]. }
    destruct (not_missing _ Em) as (p & Hp & Hne). rewrite Hp.
    destruct (upload_single_staged _ _ _ _ _ _ Eup)
      as (part' & Hparts' & _ & Hname & _ & _ & Hnode & _).
    destruct (upload_single_disk _ _ _ _ _ _ Eup)
      as (part & fs1 & Hparts & Hstaged & Edir & Hdisk).
    rewrite Hparts in Hparts'. injection Hparts' as <-.
    pose proof (handler_of_moves kind f p w1 Hne) as Hh. simpl in Hh.
    rewrite Hh. clear Hh.
    destruct (Fs.move _ _ _ _) as [fs2|e] eqn:Emove; [|discriminate].
    intros _. exists part, p. split; [exact Hparts|]. split; [reflexivity|].
    cbv zeta. rewrite <- Hstaged, <- Hname. cbn [fst snd fs set_fs].
    destruct (move_file_Ok _ _ _ _ _ Hnode Emove)
      as (Hdest & _ & Hgone & Hrest & Hnew).
    destruct (ensureDir_Ok _ _ _ Edir) as (_ & Kdir & _ & Gdir).
    split; [exact Hgone|]. split; [exact Hdest|]. split.
    + intros q n Hq Hnot Hout. apply Hrest; [|exact Hnot|exact Hout].
      rewrite Hdisk, lookup_insert_ne by congruence. exact (Kdir _ _ Hq).
    + intros q n Hq. destruct (Hnew _ _ Hq) as [->|[Hold| ->]];
        [left; reflexivity| |right; right; reflexivity].
      right. rewrite Hdisk in Hold.
      destruct (decide (upload_path f = q)) as [<-|Hother];
        [rewrite Hgone in Hq; discriminate Hq|].
      rewrite lookup_insert_ne in Hold by exact Hother.
      exact (Gdir _ _ Hold).
  - destruct (handler_of_rejects kind None (body_projectPath req) w1)
      as [text ->]; [left; reflexivity | discriminate].
  - discriminate.
Qed.

(** X14: a request whose file part is larger than [limits.fileSize] is
    refused before the handler runs: the answer is not a success, the
    record store is as it was, and no file has been written anywhere. *)
Theorem upload_refuses_a_large_file kind env req w part :
  parts req = [part] ->
  fileSize < N.of_nat (length (part_content part)) ->
  (exists e, (endpoint_of kind env req w).1 = RRejected e)
  /\ success (endpoint_of kind env req w).1 = false
  /\ store (endpoint_of kind env req w).2 = store w
  /\ forall q bytes,
       Fs.nodes (fs (endpoint_of kind env req w).2) !! q = Some (Fs.File bytes) ->
       Fs.nodes (fs w) !! q = Some (Fs.File bytes).
Proof.
  intros Hparts Hlarge. rewrite endpoint_of_with_upload.
  unfold upload_single. rewrite Hparts.
  destruct (negb _); [unfold throw; simpl; repeat split; eauto|].
  unfold destination, bind, change_fs, ret, throw.
  destruct (Fs.ensureDir _ (fs w)) as [fs1|e] eqn:Edir;
    [|simpl; repeat split; eauto].
  destruct (N.leb_spec fileSize (N.of_nat (length (part_content part))));
    [|lia].
  simpl. split; [eauto|]. split; [reflexivity|]. split; [reflexivity|].
  intros q bytes Hq.
  destruct (ensureDir_Ok _ _ _ Edir) as (_ & _ & _ & Gdir).
  destruct (Gdir _ _ Hq) as [Hold|Hdir]; [exact Hold | discriminate Hdir].
Qed.

End MoreUploads.

Lemma upload_moves_the_staged_file_witness :
  success (upload_installation (H := Sample.platform) Sample.first_env
             Sample.guide Sample.fresh).1 = true
  /\ Fs.nodes (fs (upload_installation (H := Sample.platform) Sample.first_env
                     Sample.guide Sample.fresh).2)
       !! upload_path Sample.staged_guide
     = None.
Proof.
  split; [vm_compute; reflexivity|].
  destruct (upload_moves_the_staged_file (H := Sample.platform) Installation
              Sample.first_env Sample.guide Sample.fresh)
    as (part & p & Hparts & _ & Hgone & _); [vm_compute; reflexivity|].
  injection Hparts as <-. exact Hgone.
Defined.

Lemma upload_refuses_a_large_file_witness :
  success (upload_readme (H := Sample.platform) Sample.first_env
             Scenario.large Sample.fresh).1 = false.
Proof.
  refine (proj1 (proj2 (upload_refuses_a_large_file (H := Sample.platform)
                          Readme Sample.first_env Scenario.large Sample.fresh
                          Scenario.large_part eq_refl _))).
  unfold Scenario.large_part. cbn [part_content].
  rewrite length_replicate, N2Nat.id. reflexivity.
Defined.

(** ** More on the migration *)

Section MoreMigration.
Context `{Platform}.

Lemma rename_folder_renamed w project oldName newName :
  renamed w project oldName newName ->
  rename_folder project oldName newName w = (Ok false, w).
Proof.
  unfold renamed, rename_folder, bind, read_fs. cbv beta iota.
  intros [-> | ->]; [reflexivity|].
  rewrite andb_false_r. reflexivity.
Qed.

Lemma update_folder_settled env w project :
  settled w project -> update_folder env project w = (Ok false, w).
Proof.
  unfold update_folder. intros [Habsent | (H1 & H2 & H3 & Hinfo)].
  - unfold bind at 1. unfold read_fs at 1. cbv beta iota.
    rewrite Habsent. reflexivity.
  - unfold bind at 1. unfold read_fs at 1. cbv beta iota.
    destruct (Fs.existsSync (fs w) (projectPath project)); [|reflexivity].
    unfold bind at 1. rewrite (rename_folder_renamed _ _ _ _ H1).
    unfold bind at 1. rewrite (rename_folder_renamed _ _ _ _ H2).
    unfold bind at 1. rewrite (rename_folder_renamed _ _ _ _ H3).
    assert (Hnone : backfill_studentInfo env project w = (Ok None, w)).
    { unfold backfill_studentInfo. unfold bind at 1. unfold read_fs at 1.
      cbv beta iota. destruct Hinfo as [-> | ->]; [reflexivity|].
      rewrite andb_false_r. reflexivity. }
    unfold bind at 1. rewrite Hnone. reflexivity.
Qed.

Lemma update_folders_settled env projects :
  forall updatedCount w,
    Forall (settled w) projects ->
    update_folders env projects updatedCount w = (Ok updatedCount, w).
Proof.
  induction projects as [|project rest IH]; intros updatedCount w Hall;
    [reflexivity|].
  apply Forall_cons in Hall. destruct Hall as [Hp Hrest].
  simpl. unfold bind at 1, try_catch.
  rewrite (update_folder_settled env w project Hp). apply IH. exact Hrest.
Qed.

(** X15: when there is nothing left to do for any stored project (no
    folder on disk, or the folders in the numbered layout and the student
    information in place) the migration answers with the count 0 and
    leaves the disk, the store and the console as they are. *)
Theorem update_existing_folders_has_nothing_to_do env w :
  Forall (settled w) (store w) ->
  update_existing_folders env w = (RMigrated 0, w).
Proof.
  intros Hall.
  unfold update_existing_folders, respond, bind, read_store, Db.getAllProjects.
  rewrite (update_folders_settled env (store w) 0 w Hall). reflexivity.
Qed.

Lemma updateProject_keeps_ids wanted patch (records : list ProjectRecord) :
  id patch = wanted ->
  id <$> (Db.updateProject wanted patch records).2 = id <$> records.
Proof.
  intros Hid. induction records as [|p rest IH]; [reflexivity|].
  simpl. unfold units_eqb. case_bool_decide as Hp.
  - simpl. rewrite Hid, Hp. reflexivity.
  - destruct (Db.updateProject wanted patch rest) as [found rest'].
    simpl in IH. cbn [snd]. rewrite !fmap_cons. f_equal. exact IH.
Qed.

(** The record that the backfill hands on is the project with other
    files. *)
Lemma backfill_studentInfo_id env project w r w1 :
  backfill_studentInfo env project w = (Ok (Some r), w1) -> id r = id project.
Proof.
  intros E.
  assert (Hwp : wp (backfill_studentInfo env project)
                  (fun o _ => match o with
                              | Ok (Some r) => id r = id project
                              | _ => True
                              end) w).
  { unfold backfill_studentInfo.
    apply wp_bind, wp_read_fs.
    destruct (negb _ && _); [|apply wp_ret; exact I].
    apply wp_bind, wp_change_fs. destruct (Fs.writeFile _ _ _); [|exact I].
    apply wp_bind, wp_read_fs, wp_bind.
    destruct (Fs.existsSync _ _).
    - apply wp_change_fs. destruct (Fs.remove _ _); [|exact I].
      apply wp_bind, wp_read_fs, wp_bind.
      destruct (Fs.existsSync _ _).
      + apply wp_change_fs. destruct (Fs.remove _ _); [|exact I].
        apply wp_ret. reflexivity.
      + apply wp_ret, wp_ret. reflexivity.
    - apply wp_ret, wp_bind, wp_read_fs, wp_bind.
      destruct (Fs.existsSync _ _).
      + apply wp_change_fs. destruct (Fs.remove _ _); [|exact I].
        apply wp_ret. reflexivity.
      + apply wp_ret, wp_ret. reflexivity. }
  unfold wp in Hwp. rewrite E in Hwp. exact Hwp.
Qed.

Lemma update_folder_keeps_ids env project w o w1 :
  update_folder env project w = (o, w1) ->
  id <$> store w1 = id <$> store w.
Proof.
  unfold update_folder. intros E.
  unfold bind at 1 in E. simpl in E.
  destruct (Fs.existsSync (fs w) (projectPath project));
    [|injection E as <- <-; reflexivity].
  unfold bind in E.
  destruct (rename_folder _ _ _ w) as [[b1|e1] w2] eqn:E1.
  2:{ injection E as <- <-.
      rewrite (rename_folder_keeps_store _ _ _ _ _ _ E1). reflexivity. }
  destruct (rename_folder _ _ _ w2) as [[b2|e2] w3] eqn:E2.
  2:{ injection E as <- <-.
      rewrite (rename_folder_keeps_store _ _ _ _ _ _ E2).
      rewrite (rename_folder_keeps_store _ _ _ _ _ _ E1). reflexivity. }
  destruct (rename_folder _ _ _ w3) as [[b3|e3] w4] eqn:E3.
  2:{ injection E as <- <-.
      rewrite (rename_folder_keeps_store _ _ _ _ _ _ E3).
      rewrite (rename_folder_keeps_store _ _ _ _ _ _ E2).
      rewrite (rename_folder_keeps_store _ _ _ _ _ _ E1). reflexivity. }
  assert (Hs4 : store w4 = store w).
  { rewrite (rename_folder_keeps_store _ _ _ _ _ _ E3).
    rewrite (rename_folder_keeps_store _ _ _ _ _ _ E2).
    exact (rename_folder_keeps_store _ _ _ _ _ _ E1). }
  destruct (backfill_studentInfo env project w4) as [[r|e4] w5] eqn:E4.
  2:{ injection E as <- <-.
      rewrite (backfill_studentInfo_keeps_store _ _ _ _ _ E4), Hs4.
      reflexivity. }
  assert (Hs5 : store w5 = store w).
  { rewrite (backfill_studentInfo_keeps_store _ _ _ _ _ E4). exact Hs4. }
  assert (Hid : id (default project r) = id project).
  { destruct r as [r|]; [|reflexivity].
    exact (backfill_studentInfo_id _ _ _ _ _ E4). }
  destruct (b1 || b2 || b3 || bool_decide (is_Some r)).
  - unfold change_store in E.
    destruct (Db.updateProject _ _ (store w5)) as [found records] eqn:Eupdate.
    injection E as <- <-. simpl.
    pose proof (updateProject_keeps_ids (id project) (default project r)
                  (store w5) Hid) as Hids.
    rewrite Eupdate in Hids. simpl in Hids. rewrite Hids, Hs5. reflexivity.
  - injection E as <- <-. rewrite Hs5. reflexivity.
Qed.

Lemma migrates_keeps_ids env projects w n w' :
  migrates env projects w n w' -> id <$> store w' = id <$> store w.
Proof.
  induction 1 as [w|project rest w w1 n w' Hstep _ IH
                   |project rest w w1 n w' Hstep _ IH
                   |project rest w e w1 n w' Hstep _ IH].
  - reflexivity.
  - rewrite IH. exact (update_folder_keeps_ids _ _ _ _ _ Hstep).
  - rewrite IH. exact (update_folder_keeps_ids _ _ _ _ _ Hstep).
  - rewrite IH. simpl. exact (update_folder_keeps_ids _ _ _ _ _ Hstep).
Qed.

(** X16: the migration neither adds nor removes a record, and it leaves
    every record its id: the ids in the store are the same, in the same
    order, after the run. *)
Theorem update_existing_folders_keeps_the_ids env w :
  id <$> store (update_existing_folders env w).2 = id <$> store w.
Proof.
  destruct (update_folders_migrates env (store w) 0 w) as (n & w' & Hrun & Heq).
  assert (Hw' : (update_existing_folders env w).2 = w').
  { unfold update_existing_folders, respond, bind, read_store,
      Db.getAllProjects. rewrite Heq. reflexivity. }
  rewrite Hw'. exact (migrates_keeps_ids _ _ _ _ _ Hrun).
Qed.

End MoreMigration.

Lemma update_existing_folders_has_nothing_to_do_witness :
  update_existing_folders (H := Sample.platform) Sample.first_env
    Scenario.numbered
  = (RMigrated 0, Scenario.numbered).
Proof.
  apply (update_existing_folders_has_nothing_to_do (H := Sample.platform)).
  apply Forall_cons_2; [|apply Forall_nil_2].
  right. unfold renamed.
  split; [left; vm_compute; reflexivity|].
  split; [left; vm_compute; reflexivity|].
  split; [left; vm_compute; reflexivity|].
  right. reflexivity.
Defined.

(** ** The download of one file *)

Lemma download_params (projectId fileType : jsstring) :
  param (route_params ["projectId"; "fileType"]%string [projectId; fileType])
    "projectId" = VStr projectId
  /\ param (route_params ["projectId"; "fileType"]%string [projectId; fileType])
       "fileType" = VStr fileType.
Proof.
  unfold param, route_params. simpl. split.
  - rewrite lookup_insert_eq. reflexivity.
  - rewrite lookup_insert_ne by discriminate. rewrite lookup_insert_eq.
    reflexivity.
Qed.

Lemma unlit_lit (s : string) : unlit (lit s) = Some s.
Proof.
  unfold unlit, lit.
  assert (Hbound : forallb (fun c => c <? 256)
                     ((fun a => N_of_ascii a) <$> list_ascii_of_string s) = true).
  { induction (list_ascii_of_string s) as [|a l IH]; [reflexivity|].
    rewrite fmap_cons. cbn [forallb]. rewrite IH, andb_true_r.
    apply N.ltb_lt. apply N_ascii_bounded. }
  rewrite Hbound. clear Hbound. f_equal.
  rewrite <- list_fmap_compose.
  rewrite <- (string_of_list_ascii_of_string s) at 2. f_equal.
  induction (list_ascii_of_string s) as [|a l IH]; [reflexivity|].
  rewrite fmap_cons. cbn [compose]. rewrite ascii_N_embedding. f_equal.
  exact IH.
Qed.

Lemma strict_eq_strings (a b : jsstring) :
  strict_eq (VStr a) (VStr b) = true -> a = b.
Proof.
  simpl. unfold units_eqb. intros Heq. apply bool_decide_eq_true in Heq.
  exact Heq.
Qed.

Lemma wp_console_error label error Q w :
  Q (Ok tt) {| fs := fs w; store := store w;
               console := console w ++ [LogError label error] |} ->
  wp (console_error label error) Q w.
Proof. intros HQ. exact HQ. Qed.

Ltac wp_steps :=
  repeat first
    [ apply wp_ret | apply wp_bind | apply wp_read_fs | apply wp_read_store
    | apply wp_console_error
    | match goal with
      | |- wp (match ?x with _ => _ end) _ _ => destruct x eqn:?
      end ].

Section DownloadOfAFile.
Context `{Platform}.
Variable send_error : Fs.filesystem -> jsstring -> option exn.

(** Only a file is sent. *)
Lemma res_download_None fs0 filePath :
  res_download send_error fs0 filePath = None ->
  (exists bytes, Fs.nodes fs0 !! filePath = Some (Fs.File bytes))
  /\ send_error fs0 filePath = None.
Proof.
  unfold res_download.
  destruct (Fs.nodes fs0 !! filePath) as [[bytes|]|]; try discriminate.
  intros Hsend. split; [exists bytes; reflexivity | exact Hsend].
Qed.

Lemma download_file_cases projectId fileType w :
  download_file_post send_error projectId fileType w
    (download_file send_error projectId fileType w).1
    (download_file send_error projectId fileType w).2.
Proof.
  unfold download_file, download_file_handler.
  destruct (download_params projectId fileType) as [-> ->].
  apply (wp_reply_with _ _ (download_file_post send_error projectId fileType w)).
  unfold download_file_post.
  wp_steps.
  all: try (left; split; reflexivity).
  all: try (right; split; [reflexivity|]; do 2 eexists;
            split; [match goal with
                    | Hp : negb _ = false |- _ =>
                        apply negb_false_iff in Hp; exact Hp
                    end|];
            split; [eassumption | reflexivity]).
  all: (split; [reflexivity|]).
  all: (split; [discriminate|]).
  all: (split; [assumption|]).
  all: eexists; (split; [reflexivity|]).
  all: try (left; eexists; repeat split; eauto; fail).
  all: right; (split; [assumption|]).
  all: repeat match goal with
         | Hq : strict_eq (VStr _) (VStr _) = true |- _ =>
             apply strict_eq_strings in Hq
         | Hq : file_path (found_on_disk _ _) = _ |- _ =>
             cbn [file_path found_on_disk] in Hq
         end.
  all: subst fileType.
  all: try match goal with
           | Hq : lit _ = lit _ |- _ => vm_compute in Hq; discriminate Hq
           end.
  all: eexists; (split; [|split; [symmetry; eassumption|reflexivity]]).
  all: unfold legacy_names; rewrite !elem_of_cons; auto.
Qed.

(** X17: the download of one file changes nothing on disk or in the
    store and answers 200, 404 or 500; but for the answer 500, which
    leaves a line on the console, the world is as it was.  What it sends
    is a file of the disk, one that the library does not withhold, for a
    project of the store: the file that the record lists under the file
    type or, when the record lists none, one of [4.Student-info.txt],
    [student-info.txt] and [team-members.txt] in the folder of the
    project. *)
Theorem download_file_sends_only_what_is_on_disk projectId fileType w :
  let answer := download_file send_error projectId fileType w in
  fs answer.2 = fs w /\ store answer.2 = store w
  /\ (reply_status answer.1 = 200%nat \/ reply_status answer.1 = 404%nat
      \/ reply_status answer.1 = 500%nat)
  /\ (reply_status answer.1 <> 500%nat -> answer.2 = w)
  /\ forall filePath fileName,
       answer.1 = Download filePath fileName ->
       (exists bytes, Fs.nodes (fs w) !! filePath = Some (Fs.File bytes))
       /\ send_error (fs w) filePath = None
       /\ exists project,
            Db.getProjectById (VStr projectId) (store w) = Some project
            /\ ((exists fileData,
                   file_of (files project) (VStr fileType) = Some fileData
                   /\ filePath = file_path fileData
                   /\ fileName = file_name fileData)
                \/ (file_of (files project) (VStr fileType) = None
                    /\ exists name,
                         (fileType, name) ∈ legacy_names
                         /\ filePath
                            = path_join [projectPath project; lit name]
                         /\ fileName = VStr (lit name))).
Proof.
  cbv zeta.
  pose proof (download_file_cases projectId fileType w) as Hpost.
  unfold download_file_post in Hpost.
  destruct (download_file send_error projectId fileType w) as [r w'].
  cbn [fst snd] in *.
  destruct r as [code error| | | | | |filePath fileName];
    try contradiction.
  - destruct Hpost as [[-> ->]|(-> & failed & e & _ & _ & ->)].
    + split; [reflexivity|]. split; [reflexivity|].
      split; [right; left; reflexivity|]. split; [reflexivity|].
      intros filePath fileName [=].
    + split; [reflexivity|]. split; [reflexivity|].
      split; [right; right; reflexivity|].
      split; [intros Hnot; contradiction Hnot; reflexivity|].
      intros filePath fileName [=].
  - destruct Hpost as (-> & _ & Hsent & Hproject).
    split; [reflexivity|]. split; [reflexivity|].
    split; [left; reflexivity|]. split; [reflexivity|].
    intros path name [= <- <-].
    destruct (res_download_None _ _ Hsent) as [Hfile Hfree].
    split; [exact Hfile|]. split; [exact Hfree | exact Hproject].
Qed.

(** X18: a project without an entry for its student information is
    served the file [4.Student-info.txt] of its folder when that path is
    on disk, and otherwise the older [student-info.txt]; with neither, the
    answer is 404.  The first of the two paths that is on disk decides:
    when it cannot be sent, the answer is 500 and the other one is not
    tried. *)
Theorem download_file_falls_back_to_the_student_info projectId project w :
  Db.getProjectById (VStr projectId) (store w) = Some project ->
  files project !! "studentInfo"%string = None ->
  path_join [projectPath project; lit "4.Student-info.txt"] <> [] ->
  path_join [projectPath project; lit "student-info.txt"] <> [] ->
  (download_file send_error projectId (lit "studentInfo") w).1
  = if Fs.existsSync (fs w)
         (path_join [projectPath project; lit "4.Student-info.txt"])
    then sent send_error (fs w)
           (path_join [projectPath project; lit "4.Student-info.txt"])
           (VStr (lit "4.Student-info.txt"))
    else if Fs.existsSync (fs w)
              (path_join [projectPath project; lit "student-info.txt"])
         then sent send_error (fs w)
                (path_join [projectPath project; lit "student-info.txt"])
                (VStr (lit "student-info.txt"))
         else Refused 404 (Message "File not found").
Proof.
  intros Hproject Hfiles Hnew Hold.
  unfold download_file, download_file_handler, sent.
  destruct (download_params projectId (lit "studentInfo")) as [-> ->].
  unfold reply_with, bind, read_store, read_fs, ret, console_error, print.
  cbn beta iota. rewrite Hproject. cbn beta iota.
  unfold file_of. cbn [to_string]. rewrite unlit_lit, Hfiles.
  cbn beta iota.
  change (strict_eq (VStr (lit "studentInfo")) (VStr (lit "studentInfo")))
    with true.
  change (strict_eq (VStr (lit "studentInfo")) (VStr (lit "teamMembers")))
    with false.
  cbn beta iota.
  destruct (Fs.existsSync (fs w)
              (path_join [projectPath project; lit "4.Student-info.txt"]))
    eqn:Hfirst; cbn beta iota.
  - cbn [file_path found_on_disk file_name].
    destruct (path_join [projectPath project; lit "4.Student-info.txt"])
      as [|c rest] eqn:Hpath; [contradiction|].
    cbn beta iota. rewrite Hfirst. cbn [negb fs].
    destruct (res_download send_error (fs w) (c :: rest)); reflexivity.
  - destruct (Fs.existsSync (fs w)
                (path_join [projectPath project; lit "student-info.txt"]))
      eqn:Hsecond; cbn beta iota; [|reflexivity].
    cbn [file_path found_on_disk file_name].
    destruct (path_join [projectPath project; lit "student-info.txt"])
      as [|c rest] eqn:Hpath; [contradiction|].
    cbn beta iota. rewrite Hsecond. cbn [negb fs].
    destruct (res_download send_error (fs w) (c :: rest)); reflexivity.
Qed.

Lemma getProjectById_fresh (i : jsstring) records record rest :
  Forall (fun p => id p <> i) records ->
  id record = i ->
  Db.getProjectById (VStr i) ((records ++ [record]) ++ rest) = Some record.
Proof.
  intros Hfresh Hid. unfold Db.getProjectById.
  induction Hfresh as [|p records Hp _ IH]; cbn [app find strict_eq].
  - unfold units_eqb. rewrite bool_decide_eq_true_2 by exact Hid.
    reflexivity.
  - unfold units_eqb at 1. rewrite bool_decide_eq_false_2 by exact Hp.
    exact IH.
Qed.

Lemma getProjectById_updateProject (i : jsstring) patch records rest :
  id patch = i ->
  Exists (fun p => id p = i) records ->
  Db.getProjectById (VStr i) ((Db.updateProject i patch records).2 ++ rest)
  = Some patch.
Proof.
  intros Hid Hsome. unfold Db.getProjectById.
  induction records as [|p records IH]; [inversion Hsome|].
  cbn [Db.updateProject]. unfold units_eqb at 1.
  case_bool_decide as Hp.
  - cbn [snd app find strict_eq]. unfold units_eqb.
    rewrite bool_decide_eq_true_2 by exact Hid. reflexivity.
  - destruct (Db.updateProject i patch records) as [found records'].
    cbn [snd app find strict_eq] in *. unfold units_eqb at 1.
    rewrite bool_decide_eq_false_2 by exact Hp.
    apply IH. inversion Hsome; [contradiction|assumption].
Qed.

Lemma download_file_recorded projectId (kind : string) w project fileData
    bytes :
  Db.getProjectById (VStr projectId) (store w) = Some project ->
  files project !! kind = Some fileData ->
  file_path fileData <> [] ->
  Fs.nodes (fs w) !! file_path fileData = Some (Fs.File bytes) ->
  send_error (fs w) (file_path fileData) = None ->
  (download_file send_error projectId (lit kind) w).1
  = Download (file_path fileData) (file_name fileData).
Proof.
  intros Hproject Hfiles Hpath Hdisk Hfree.
  unfold download_file, download_file_handler.
  destruct (download_params projectId (lit kind)) as [-> ->].
  unfold reply_with, bind, read_store, read_fs, ret.
  cbn beta iota. rewrite Hproject. cbn beta iota.
  unfold file_of. cbn [to_string]. rewrite unlit_lit, Hfiles.
  cbn beta iota.
  destruct (file_path fileData) as [|c rest] eqn:Hfile; [contradiction|].
  cbn beta iota. unfold Fs.existsSync, res_download. cbn [fs].
  rewrite Hdisk. rewrite bool_decide_eq_true_2 by eauto.
  cbn beta iota. cbn [negb]. rewrite ?Hdisk, Hfree. reflexivity.
Qed.

(** X19: what a completion has recorded can be downloaded right away:
    when no project of the store has the fresh identifier, the download
    of a file that the response lists under a type other than
    [studentInfo], by the [id] of the response, sends the recorded path
    under the recorded name as soon as a file is at that path and the
    library does not withhold it. *)
Theorem completed_project_is_served env body w projectData kind fileData
    bytes :
  (complete_project env body w).1 = RCompleted projectData ->
  Forall (fun p => id p <> uuid env) (store w) ->
  kind <> "studentInfo"%string ->
  files projectData !! kind = Some fileData ->
  file_path fileData <> [] ->
  Fs.nodes (fs (complete_project env body w).2) !! file_path fileData
  = Some (Fs.File bytes) ->
  send_error (fs (complete_project env body w).2) (file_path fileData) = None ->
  (download_file send_error (id projectData) (lit kind)
     (complete_project env body w).2).1
  = Download (file_path fileData) (file_name fileData).
Proof.
  intros Hr Hfresh Hkind Hfile Hpath Hdisk Hfree.
  destruct (complete_project_success env body w projectData Hr)
    as (built & saved & size & Ebuilt & Hsaved & Hdata & _ & Hstore & _).
  destruct (new_projectData_Ok _ _ _ _ _ _ _ _ _ Ebuilt) as (Hid & _).
  assert (Hfiles : files saved !! kind = Some fileData).
  { rewrite Hdata in Hfile. unfold with_studentInfo, with_files in Hfile.
    cbn [files] in Hfile.
    rewrite lookup_insert_ne in Hfile by congruence. exact Hfile. }
  assert (Hsame : id projectData = id saved) by (rewrite Hdata; reflexivity).
  apply download_file_recorded with (project := saved) (bytes := bytes);
    try assumption.
  rewrite Hstore, Hsame.
  destruct (find (same_project (field body "projectName") (projectPath built))
              (store w)) as [e|] eqn:Hfind; subst saved.
  - cbn [id with_identity].
    apply getProjectById_updateProject; [reflexivity|].
    apply find_some in Hfind. destruct Hfind as [Hin _].
    apply Exists_exists. exists e. split; [|reflexivity].
    apply list_elem_of_In. exact Hin.
  - rewrite Hid. apply getProjectById_fresh; assumption.
Qed.

End DownloadOfAFile.

Lemma download_file_falls_back_to_the_student_info_witness :
  (download_file (H := Sample.platform) Scenario.sends_all (lit "a")
     (lit "studentInfo") Scenario.legacy).1
  = Download (lit "/old/a/4.Student-info.txt")
      (VStr (lit "4.Student-info.txt")).
Proof.
  apply (download_file_falls_back_to_the_student_info (H := Sample.platform)
           Scenario.sends_all (lit "a") (Sample.old_project "a")
           Scenario.legacy).
  - reflexivity.
  - reflexivity.
  - vm_compute. discriminate.
  - vm_compute. discriminate.
Defined.

Lemma completed_project_is_served_witness :
  (download_file (H := Sample.platform) Scenario.sends_all
     (id Scenario.final_record) (lit "readme") Scenario.completed).1
  = Download (Scenario.test_app ++ lit "/2.README/ReadMe.md")
      (VStr (lit "ReadMe.md")).
Proof.
  apply (completed_project_is_served (H := Sample.platform) Scenario.sends_all
           Sample.second_env Scenario.completion Scenario.uploaded
           Scenario.final_record "readme"
           {| file_name := VStr (lit "ReadMe.md");
              file_path := Scenario.test_app ++ lit "/2.README/ReadMe.md";
              file_size := VNum 3 |}
           [35; 32; 65]).
  - vm_compute. reflexivity.
  - assert (Hstore : store Scenario.uploaded = []) by (vm_compute; reflexivity).
    rewrite Hstore. apply Forall_nil_2.
  - discriminate.
  - vm_compute. reflexivity.
  - vm_compute. discriminate.
  - vm_compute. reflexivity.
  - reflexivity.
Defined.
